(** * Invoice Record bundle builders (rahulkkamble/invoice)

    A shallow embedding of the two React components of the repository,
    [src/App.js] and [src/invoice-record-2.js], without their rendering:
    identifier generation, date and address normalisation, the handlers and
    effects on the form's state, totals, validation and the assembly of the
    FHIR document bundle.

    Conventions.
    - A JavaScript string is a [string]: a sequence of code units below 256.
    - A JavaScript number is a primitive [float] (IEEE 754 binary64), so that
      [+], [*] and [/] are the machine operations JavaScript performs.
    - [undefined]/[null] of an optional field is [None].
    - [Math.random], the clock, [Date] parsing and [localeCompare] are host
      services; they are fields of the record [Host]. *)

From Stdlib Require Import ZArith List Bool Ascii String Lia.
From Stdlib Require Import Permutation Sorted.
From Stdlib Require Import DecimalString.
From Stdlib Require DecimalN.
From Stdlib Require Import PrimFloat SpecFloat FloatOps.
Import ListNotations.

(* ================================================================== *)
(** * Host-language primitives *)
(* ================================================================== *)

Module Js.

Local Open Scope string_scope.

(** ** Characters and strings *)

Definition code (c : ascii) : N := N_of_ascii c.

Definition is_digit (c : ascii) : bool := (48 <=? code c)%N && (code c <=? 57)%N.

Definition digit_val (c : ascii) : Z := Z.of_N (code c) - 48.

(** WhiteSpace and LineTerminator code units below 256: TAB, LF, VT, FF, CR,
    SP and NBSP. *)
Definition is_space (c : ascii) : bool :=
  let n := code c in
  ((9 <=? n)%N && (n <=? 13)%N) || (n =? 32)%N || (n =? 160)%N.

Definition chars (s : string) : list ascii := list_ascii_of_string s.
Definition str (l : list ascii) : string := string_of_list_ascii l.

Fixpoint drop_while (p : ascii -> bool) (l : list ascii) : list ascii :=
  match l with
  | [] => []
  | c :: t => if p c then drop_while p t else l
  end.

(** [String.prototype.trim]. *)
Definition trim (s : string) : string :=
  str (rev (drop_while is_space (rev (drop_while is_space (chars s))))).

(** [s.includes(c)] for a one-character needle. *)
Definition includes_char (c : ascii) (s : string) : bool :=
  existsb (Ascii.eqb c) (chars s).

(** [s.split(c)] for a one-character separator: the pieces between the
    occurrences of [c]; a string with no occurrence is its own single piece. *)
Fixpoint split_chars (c : ascii) (cur : list ascii) (l : list ascii) : list string :=
  match l with
  | [] => [str (rev cur)]
  | x :: t => if Ascii.eqb x c then str (rev cur) :: split_chars c [] t
              else split_chars c (x :: cur) t
  end.

Definition split (c : ascii) (s : string) : list string := split_chars c [] (chars s).

Fixpoint repeat_string (n : nat) (s : string) : string :=
  match n with O => "" | S k => s ++ repeat_string k s end.

(** [s.padStart(2, "0")]. *)
Definition padStart2 (s : string) : string :=
  repeat_string (2 - String.length s) "0" ++ s.

(** [String.prototype.toLowerCase] on one code unit below 256: the letters
    A-Z, and the capital letters of Latin-1, which are the code units 192 to
    222 but for the multiplication sign 215. *)
Definition lower_char (c : ascii) : ascii :=
  let n := code c in
  if ((65 <=? n) && (n <=? 90)
      || (192 <=? n) && (n <=? 214)
      || (216 <=? n) && (n <=? 222))%N
  then ascii_of_N (n + 32) else c.

Definition toLowerCase (s : string) : string := str (map lower_char (chars s)).

(** Truthiness of a string: every string but the empty one. *)
Definition truthy (s : string) : bool :=
  match s with EmptyString => false | _ => true end.

(** Truthiness of an optional string field ([undefined] is falsy). *)
Definition truthy_opt (o : option string) : bool :=
  match o with Some s => truthy s | None => false end.

(** [a || b] on optional strings. *)
Definition or_else (a b : option string) : option string :=
  if truthy_opt a then a else b.

(** [s || d] on strings. *)
Definition or_text (s d : string) : string := if truthy s then s else d.

(** [s || undefined] *)
Definition some_if (s : string) : option string := if truthy s then Some s else None.

(** [x ? [f(x)] : []]: the element added to an array when [x] is truthy. *)
Definition push_truthy {B} (x : option string) (f : string -> B) : list B :=
  match x with
  | Some v => if truthy v then [f v] else []
  | None => []
  end.

(** [l.map((x, i) => f(i, x))] and [l.filter((x, i) => f(i, x))], counting
    from [i]. *)
Fixpoint mapi {A B} (f : nat -> A -> B) (i : nat) (l : list A) : list B :=
  match l with
  | [] => []
  | x :: t => f i x :: mapi f (S i) t
  end.

Fixpoint filteri {A} (f : nat -> A -> bool) (i : nat) (l : list A) : list A :=
  match l with
  | [] => []
  | x :: t => if f i x then x :: filteri f (S i) t else filteri f (S i) t
  end.

(** Leading decimal digits of a list and what follows them. *)
Fixpoint span_digits (l : list ascii) : list ascii * list ascii :=
  match l with
  | c :: t => if is_digit c then let (d, r) := span_digits t in (c :: d, r) else ([], l)
  | [] => ([], [])
  end.

(** ** Anchored patterns of one character class per position *)

Inductive CharClass :=
| Digit      (** [\d] *)
| Hex        (** [[0-9a-f]] *)
| Dash       (** [-] *)
| Version    (** [[1-5]] *)
| Variant.   (** [[89ab]] *)

Definition is_hex_lower (c : ascii) : bool :=
  is_digit c || ((97 <=? code c)%N && (code c <=? 102)%N).

Definition in_class (k : CharClass) (c : ascii) : bool :=
  match k with
  | Digit => is_digit c
  | Hex => is_hex_lower c
  | Dash => Ascii.eqb c "-"
  | Version => (49 <=? code c)%N && (code c <=? 53)%N
  | Variant => existsb (Ascii.eqb c) (chars "89ab")
  end.

(** The whole input matches the pattern, class by class. *)
Fixpoint matches_classes (p : list CharClass) (l : list ascii) : bool :=
  match p, l with
  | [], [] => true
  | k :: p', c :: l' => in_class k c && matches_classes p' l'
  | _, _ => false
  end.

(** [/^\d{4}-\d{2}-\d{2}$/.test(s)] *)
Definition is_iso_date (s : string) : bool :=
  matches_classes
    [Digit; Digit; Digit; Digit; Dash; Digit; Digit; Dash; Digit; Digit] (chars s).

Definition string_of_nat (n : nat) : string :=
  NilZero.string_of_uint (Nat.to_uint n).

Definition string_of_Z_nonneg (z : Z) : string :=
  NilZero.string_of_uint (N.to_uint (Z.to_N z)).

End Js.

(* ================================================================== *)
(** * Numbers: IEEE 754 binary64, [Number(string)] and [toFixed(2)] *)
(* ================================================================== *)

Module JsNum.

Import Js.
Local Open Scope string_scope.
Local Open Scope Z_scope.

(** Truthiness of a number: [+0], [-0] and [NaN] are falsy. *)
Definition truthy_num (x : float) : bool := negb (is_zero x || is_nan x).

(** [x || 0] on numbers. *)
Definition or_zero (x : float) : float := if truthy_num x then x else zero.

(** The global [isNaN] on a number. *)
Definition isNaN (x : float) : bool := is_nan x.

(** [n / d] rounded to the nearest integer, ties to the even one
    ([0 <= n], [0 < d]). *)
Definition round_half_even (n d : Z) : Z :=
  let q := n / d in
  match (2 * (n mod d)) ?= d with
  | Lt => q
  | Gt => q + 1
  | Eq => if Z.even q then q else q + 1
  end.

(** The double nearest to the rational [n / d] ([0 <= n], [0 < d]), ties to
    even, overflowing to [infinity]: the rounding JavaScript applies to the
    mathematical value of a numeric literal. *)
Definition nearest_double (n d : Z) : float :=
  if n =? 0 then zero
  else
    let L := Z.log2 n - Z.log2 d in
    let ge := if 0 <=? L then d * 2 ^ L <=? n else d <=? n * 2 ^ (- L) in
    let lg := if ge then L else L - 1 in
    let e := Z.max (lg - 52) (-1074) in
    let m := if 0 <=? e then round_half_even n (d * 2 ^ e)
             else round_half_even (n * 2 ^ (- e)) d in
    if m =? 0 then zero else SF2Prim (S754_finite false (Z.to_pos m) e).

(** The double nearest to [m * 10 ^ k]. *)
Definition decimal_to_double (m k : Z) : float :=
  if 0 <=? k then nearest_double (m * 10 ^ k) 1 else nearest_double m (10 ^ (- k)).

Definition digits_val (ds : list ascii) : Z :=
  fold_left (fun a c => 10 * a + digit_val c) ds 0.

(** *** [Number(s)]: StringToNumber *)

(** ExponentPart after its indicator: an optionally signed, non-empty run of
    digits reaching the end of the input. *)
Definition parse_exponent (l : list ascii) : option Z :=
  let '(neg, l') :=
    match l with
    | "+"%char :: t => (false, t)
    | "-"%char :: t => (true, t)
    | _ => (false, l)
    end in
  match span_digits l' with
  | ((_ :: _) as ds, []) => Some (if neg then - digits_val ds else digits_val ds)
  | _ => None
  end.

(** StrUnsignedDecimalLiteral: [Infinity], or digits with an optional
    fraction and exponent; [None] when the input is not one. *)
Definition parse_unsigned_decimal (l : list ascii) : option float :=
  if String.eqb (str l) "Infinity" then Some infinity
  else
    let (ip, r1) := span_digits l in
    let '(fp, r2) :=
      match r1 with
      | "."%char :: r => span_digits r
      | _ => ([], r1)
      end in
    match (ip ++ fp)%list with
    | [] => None
    | ds =>
        let ex :=
          match r2 with
          | [] => Some 0
          | c :: r3 =>
              if Ascii.eqb c "e" || Ascii.eqb c "E" then parse_exponent r3 else None
          end in
        match ex with
        | Some e => Some (decimal_to_double (digits_val ds) (e - Z.of_nat (List.length fp)))
        | None => None
        end
    end.

(** Value of a digit in a radix up to 16, when the character is one. *)
Definition radix_digit (radix : Z) (c : ascii) : option Z :=
  let n := Z.of_N (code c) in
  let v := if (48 <=? n) && (n <=? 57) then n - 48
           else if (97 <=? n) && (n <=? 102) then n - 87
           else if (65 <=? n) && (n <=? 70) then n - 55
           else 16 in
  if v <? radix then Some v else None.

Fixpoint radix_val (radix : Z) (acc : Z) (l : list ascii) : option Z :=
  match l with
  | [] => Some acc
  | c :: t =>
      match radix_digit radix c with
      | Some v => radix_val radix (radix * acc + v) t
      | None => None
      end
  end.

(** NonDecimalIntegerLiteral: [0x], [0o] or [0b] and at least one digit. *)
Definition parse_non_decimal (l : list ascii) : option float :=
  match l with
  | "0"%char :: p :: ((_ :: _) as ds) =>
      let radix :=
        if Ascii.eqb p "x" || Ascii.eqb p "X" then Some 16
        else if Ascii.eqb p "o" || Ascii.eqb p "O" then Some 8
        else if Ascii.eqb p "b" || Ascii.eqb p "B" then Some 2
        else None in
      match radix with
      | Some r =>
          match radix_val r 0 ds with
          | Some v => Some (nearest_double v 1)
          | None => None
          end
      | None => None
      end
  | _ => None
  end.

(** [Number(s)] for a string [s]: surrounding white space is dropped, the
    empty string is [+0], a numeric literal is its nearest double, and
    everything else is [NaN]. *)
Definition StringToNumber (s : string) : float :=
  let l := chars (trim s) in
  match l with
  | [] => zero
  | c :: t =>
      match parse_non_decimal l with
      | Some v => v
      | None =>
          let r :=
            if Ascii.eqb c "-" then option_map opp (parse_unsigned_decimal t)
            else if Ascii.eqb c "+" then parse_unsigned_decimal t
            else parse_unsigned_decimal l in
          match r with Some v => v | None => nan end
      end
  end.

(** *** [Number.prototype.toString] in the exponential range *)

(** Characters of [l] without its trailing zeros. *)
Definition strip_trailing_zeros (l : list ascii) : list ascii :=
  rev (drop_while (Ascii.eqb "0") (rev l)).

(** For an integer-valued double [x = X >= 10^21]: the multiple of
    [10 ^ (digits - k)] that reads back as [x], when one of the two
    neighbours of [X] does; the closer one, and on a tie the even one. *)
Definition shortest_at (x : float) (X : Z) (k : Z) : option Z :=
  let nd := Z.of_nat (String.length (string_of_Z_nonneg X)) in
  let scale := 10 ^ (nd - k) in
  let s := X / scale in
  let lo := s * scale in
  let hi := lo + scale in
  let ok v := Leibniz.eqb (nearest_double v 1) x in
  match ok lo, ok hi with
  | true, true =>
      match (X - lo) ?= (hi - X) with
      | Lt => Some lo
      | Gt => Some hi
      | Eq => Some (if Z.even s then lo else hi)
      end
  | true, false => Some lo
  | false, true => Some hi
  | false, false => None
  end.

Fixpoint shortest_from (x : float) (X : Z) (k : Z) (fuel : nat) : Z :=
  match fuel with
  | O => X
  | S f =>
      match shortest_at x X k with
      | Some v => v
      | None => shortest_from x X (k + 1) f
      end
  end.

(** [Number::toString(x)] for a finite [x = X >= 10^21]: the shortest digits
    that read back as [x], in exponential notation. *)
Definition toString_large (x : float) (X : Z) : string :=
  let v := shortest_from x X 1 17 in
  let ds := chars (string_of_Z_nonneg v) in
  let ex := string_of_nat (List.length ds - 1) in
  match strip_trailing_zeros ds with
  | [] => "0"
  | [d] => (str [d] ++ "e+" ++ ex)%string
  | d :: rest => (str [d] ++ "." ++ str rest ++ "e+" ++ ex)%string
  end.

(** *** [x.toFixed(2)] *)

(** The integer [n] for which [n / 100] is closest to [m * 2 ^ e], the larger
    one on a tie. *)
Definition scaled_hundredths (m e : Z) : Z :=
  if 0 <=? e then 100 * m * 2 ^ e
  else (200 * m + 2 ^ (- e)) / (2 * 2 ^ (- e)).

(** The digits of [n] with a point before the last two, zero-padded to three
    digits. *)
Definition fixed2_digits (n : Z) : string :=
  let ds := string_of_Z_nonneg n in
  let ds := (repeat_string (3 - String.length ds) "0" ++ ds)%string in
  let k := (String.length ds - 2)%nat in
  (substring 0 k ds ++ "." ++ substring k 2 ds)%string.

(** [x.toFixed(2)]. *)
Definition toFixed2 (x : float) : string :=
  match Prim2SF x with
  | S754_nan => "NaN"
  | S754_infinity s => if s then "-Infinity" else "Infinity"
  | S754_zero _ => "0.00"
  | S754_finite s m e =>
      let body :=
        if (1e21 <=? abs x)%float then toString_large (abs x) (Z.pos m * 2 ^ e)
        else fixed2_digits (scaled_hundredths (Z.pos m) e) in
      if s then ("-" ++ body)%string else body
  end.

(** [Number(x.toFixed(2))]: the rounding to two decimals both builders apply
    to every amount they emit. *)
Definition round2 (x : float) : float := StringToNumber (toFixed2 x).

End JsNum.

(* ================================================================== *)
(** * Host services and the identifier generator *)
(* ================================================================== *)

(** What a component reads from its environment.  Each call of
    [Math.random] and each reading of the clock is numbered; the host fixes
    what the n-th one returns. *)
Record Host := {
  (** the n-th value of [(Math.random() * 16) | 0] *)
  random_nibble : nat -> nat;
  (** [isoWithLocalOffsetFromDate(new Date())] at the n-th reading of the clock *)
  offset_now : nat -> string;
  (** [new Date().toISOString()] at the n-th reading of the clock *)
  iso_now : nat -> string;
  (** [Date.now()] at the n-th reading of the clock, as text *)
  millis_now : nat -> string;
  (** [isoWithLocalOffsetFromDate(new Date(s))] for a [datetime-local] text *)
  offset_of_local : string -> string;
  (** [new Date(s)]: [None] for an invalid date, else
      [toISOString().slice(0, 10)] *)
  date_parse : string -> option string;
  (** [a.localeCompare(b)] *)
  localeCompare : string -> string -> Z
}.

Module Gen.

Import Js.
Local Open Scope string_scope.

(** How many random values and clock readings have been consumed. *)
Record World := { rand_calls : nat; clock_reads : nat }.

Definition world0 : World := {| rand_calls := 0; clock_reads := 0 |}.

(** Computations that consume random values and clock readings. *)
Definition M (A : Type) : Type := World -> A * World.

Definition ret {A} (a : A) : M A := fun w => (a, w).

Definition bind {A B} (m : M A) (k : A -> M B) : M B :=
  fun w => let (a, w') := m w in k a w'.

Definition run {A} (m : M A) (w : World) : A := fst (m w).

Fixpoint mapM {A B} (f : A -> M B) (l : list A) : M (list B) :=
  match l with
  | [] => ret []
  | x :: t => bind (f x) (fun y => bind (mapM f t) (fun ys => ret (y :: ys)))
  end.

Declare Scope gen_scope.
Delimit Scope gen_scope with gen.
Notation "x <- m ;; k" := (bind m (fun x => k))
  (at level 61, m at next level, right associativity) : gen_scope.

Definition random16 (h : Host) : M nat :=
  fun w => (random_nibble h (rand_calls w) mod 16,
            {| rand_calls := S (rand_calls w); clock_reads := clock_reads w |}).

(** One reading of the clock: its number. *)
Definition tick : M nat :=
  fun w => (clock_reads w,
            {| rand_calls := rand_calls w; clock_reads := S (clock_reads w) |}).

(** [v.toString(16)] for [v < 16]. *)
Definition hex_digit (v : nat) : ascii :=
  if Nat.ltb v 10 then ascii_of_nat (48 + v) else ascii_of_nat (87 + v).

(** The callback of [uuidv4]'s [replace]: [r] for an [x], [(r & 0x3) | 0x8]
    for a [y]. *)
Definition uuid_nibble (c : ascii) (r : nat) : nat :=
  if Ascii.eqb c "x" then r else Nat.lor (Nat.land r 3) 8.

Fixpoint fill_template (h : Host) (tpl : list ascii) : M (list ascii) :=
  match tpl with
  | [] => ret []
  | c :: t =>
      if Ascii.eqb c "x" || Ascii.eqb c "y" then
        bind (random16 h) (fun r =>
        bind (fill_template h t) (fun rest =>
        ret (hex_digit (uuid_nibble c r) :: rest)))
      else bind (fill_template h t) (fun rest => ret (c :: rest))
  end.

(** [uuidv4()]: the template with every [x] and [y] replaced, left to right. *)
Definition uuidv4 (h : Host) : M string :=
  bind (fill_template h (chars "xxxxxxxx-xxxx-4xxx-yxxx-xxxxxxxxxxxx"))
       (fun l => ret (str l)).

(** The pattern of [isUuid]: 8-4-4-4-12 lower-case hexadecimal digits, the
    version digit in 1-5 and the variant digit in 8, 9, a, b. *)
Definition uuid_pattern : list CharClass :=
  repeat Hex 8 ++ [Dash] ++ repeat Hex 4 ++ [Dash] ++ [Version] ++ repeat Hex 3
  ++ [Dash] ++ [Variant] ++ repeat Hex 3 ++ [Dash] ++ repeat Hex 12.

(** A character of the template agrees with a class of the pattern: an [x]
    stands at a [Hex] position, a [y] at the [Variant] position, and any
    other character is itself of the class. *)
Definition slot_ok (c : ascii) (k : CharClass) : Prop :=
  if Ascii.eqb c "x" then k = Hex
  else if Ascii.eqb c "y" then k = Variant
  else in_class k c = true.

(** [isUuid(s)] for a string [s]. *)
Definition isUuid (s : string) : bool := matches_classes uuid_pattern (chars s).

(** [safeUuid(maybeId)]. *)
Definition safeUuid (h : Host) (maybeId : option string) : M string :=
  let s := match maybeId with Some s => s | None => "" end in
  if isUuid (toLowerCase (if truthy s then s else "")) then ret (toLowerCase s)
  else uuidv4 h.

End Gen.

(* ================================================================== *)
(** * The records of a bundle *)
(* ================================================================== *)

(** The resources both builders emit, with the fields that carry data of the
    build.  Constant decorations (profile URLs, language tags, fixed codings and
    generated narrative) hold no identifier and no reference and are left
    out.  A field the source sets to [undefined], or omits, is [None]. *)
Module Fhir.

Local Open Scope string_scope.

(** [{ reference, display?, type? }] *)
Record Reference := {
  reference : string;
  ref_display : option string;
  ref_type : option string
}.

Definition mkRef (r : string) : Reference :=
  {| reference := r; ref_display := None; ref_type := None |}.

Record Attester := {
  att_mode : string;
  att_party : Reference;
  att_time : option string
}.

(** [sec_text] is the body of the section's generated narrative, when it
    has one. *)
Record Section := {
  sec_title : string;
  sec_entry : option (list Reference);
  sec_text : option string
}.

Record Composition := {
  comp_id : string;
  comp_status : string;
  comp_type_text : string;
  comp_subject : Reference;
  comp_encounter : option Reference;
  comp_date : string;
  comp_author : list Reference;
  comp_title : string;
  comp_attester : list Attester;
  comp_custodian : option Reference;
  comp_section : list Section
}.

Record Identifier := { id_system : string; id_value : string }.

Record ContactPoint := { cp_system : string; cp_value : string }.

Record Patient := {
  pat_id : string;
  pat_identifier : option (list Identifier);
  pat_name : option string;
  pat_gender : option string;
  pat_birthDate : option string;
  pat_telecom : option (list ContactPoint);
  pat_address : option string
}.

Record Practitioner := {
  pr_id : string;
  pr_identifier : Identifier;
  pr_name : string;
  pr_license : option string
}.

Record Organization := {
  org_id : string;
  org_name : string;
  org_identifier : list Identifier;
  org_telecom : option string;
  org_address : option string
}.

Record Encounter := {
  enc_id : string;
  enc_status : string;
  enc_subject : Reference;
  enc_start : string;
  enc_end : string
}.

(** One [priceComponent]: its [type], the [amount.value] when it has an
    amount, the [factor] when it has one. *)
Record PriceComponent := {
  pc_type : string;
  pc_amount : option float;
  pc_factor : option float
}.

(** [chargeItemCodeableConcept.text]: a plain text, or the template
    [`${description} (${qty} ${unit})`] ([`${qty} x ${unit}`] without a
    description), kept with its parts. *)
Inductive LineText :=
| TextPlain (s : string)
| TextQuantity (description : option string) (qty : float) (unit : string).

Record InvoiceLine := {
  il_sequence : option nat;
  il_display : option string;
  il_text : LineText;
  il_priceComponent : list PriceComponent
}.

Record Invoice := {
  inv_id : string;
  inv_identifier : option string;
  inv_status : string;
  inv_type_text : string;
  inv_date : string;
  inv_subject : Reference;
  inv_recipient : option Reference;
  inv_issuer : option Reference;
  inv_participant : list Reference;
  inv_paymentTerms : option string;
  inv_note : option string;
  inv_lineItem : option (list InvoiceLine);
  inv_totalNet : float;
  inv_totalGross : float
}.

(** [content[0].attachment] of a DocumentReference. *)
Record Attachment := {
  at_contentType : option string;
  at_title : string;
  at_url : string;
  at_creation : option string
}.

Record DocumentReference := {
  dr_id : string;
  dr_status : string;
  dr_type_text : string;
  dr_subject : option Reference;
  dr_date : option string;
  dr_content : list Attachment
}.

Record Binary := {
  bin_id : string;
  bin_contentType : string;
  bin_data : string
}.

Inductive Resource :=
| RComposition (c : Composition)
| RPatient (p : Patient)
| RPractitioner (p : Practitioner)
| ROrganization (o : Organization)
| REncounter (e : Encounter)
| RInvoice (i : Invoice)
| RDocumentReference (d : DocumentReference)
| RBinary (b : Binary).

(** [{ fullUrl, resource }] *)
Record Entry := { fullUrl : string; resource : Resource }.

Record Bundle := {
  bundle_id : string;
  bundle_type : string;
  bundle_timestamp : string;
  bundle_identifier : string;
  entry : list Entry
}.

(** [resource.id] *)
Definition resource_id (r : Resource) : string :=
  match r with
  | RComposition c => comp_id c
  | RPatient p => pat_id p
  | RPractitioner p => pr_id p
  | ROrganization o => org_id o
  | REncounter e => enc_id e
  | RInvoice i => inv_id i
  | RDocumentReference d => dr_id d
  | RBinary b => bin_id b
  end.

Definition opt_list {A} (o : option A) : list A :=
  match o with Some a => [a] | None => [] end.

Definition section_refs (s : Section) : list Reference :=
  match sec_entry s with Some l => l | None => [] end.

(** Every reference to another record that a record embeds: the
    [reference] strings of its fields and, for a DocumentReference, the [url]
    of each attachment. *)
Definition resource_refs (r : Resource) : list string :=
  match r with
  | RComposition c =>
      map reference
        ([comp_subject c] ++ opt_list (comp_encounter c) ++ comp_author c
         ++ map att_party (comp_attester c) ++ opt_list (comp_custodian c)
         ++ flat_map section_refs (comp_section c))
  | REncounter e => [reference (enc_subject e)]
  | RInvoice i =>
      map reference
        ([inv_subject i] ++ opt_list (inv_recipient i) ++ opt_list (inv_issuer i)
         ++ inv_participant i)
  | RDocumentReference d =>
      map reference (opt_list (dr_subject d)) ++ map at_url (dr_content d)
  | RPatient _ | RPractitioner _ | ROrganization _ | RBinary _ => []
  end.

(** The identifiers present among the entries of a bundle. *)
Definition entry_ids (b : Bundle) : list string :=
  map (fun e => resource_id (resource e)) (entry b).

(** The Invoice, Binary and DocumentReference records among the entries. *)
Definition entry_invoice (e : Entry) : list Invoice :=
  match resource e with RInvoice i => [i] | _ => [] end.

Definition entry_binary (e : Entry) : list Binary :=
  match resource e with RBinary x => [x] | _ => [] end.

Definition entry_docRef (e : Entry) : list DocumentReference :=
  match resource e with RDocumentReference d => [d] | _ => [] end.

Definition bundle_invoices (b : Bundle) : list Invoice :=
  flat_map entry_invoice (entry b).

Definition bundle_binaries (b : Bundle) : list Binary :=
  flat_map entry_binary (entry b).

Definition bundle_docRefs (b : Bundle) : list DocumentReference :=
  flat_map entry_docRef (entry b).

(** The fixed prefix of locators and references. *)
Definition urn (id : string) : string := "urn:uuid:" ++ id.

(** Every entry's locator is the prefix followed by its record's identifier. *)
Definition locators_ok (b : Bundle) : Prop :=
  Forall (fun e => fullUrl e = urn (resource_id (resource e))) (entry b).

(** Every reference embedded in a record of the bundle is the locator of a
    record among the entries. *)
Definition no_dangling (b : Bundle) : Prop :=
  forall e r, In e (entry b) -> In r (resource_refs (resource e)) ->
  exists id, In id (entry_ids b) /\ r = urn id.

End Fhir.

(* ================================================================== *)
(** * Inputs shared by the two components *)
(* ================================================================== *)

Module Input.

(** One element of a patient's [abha_addresses] array, as the normalisers
    see it.  The patients are parsed JSON, so [JSON.stringify] of an element
    is defined; it is carried as [json]. *)
Inductive AbhaItem :=
| ItemFalsy                                   (** [null], [""], [0], [false] *)
| ItemString (s : string)                     (** a string *)
| ItemObject (address : option string) (isPrimary : bool) (json : string)
                                              (** an object or an array *)
| ItemOther (text : string).                  (** a number or [true]; [text] is [String(a)] *)

(** The value of [additional_attributes.abha_addresses] of a patient.  The
    two components read it differently when it is not an array: [App.js]
    tests it with [Array.isArray], [invoice-record-2.js] calls [.map] on
    every truthy value. *)
Inductive AddressesField :=
| FieldMissing                  (** absent, [null], or another falsy value *)
| FieldNotArray                 (** a truthy value that is not an array *)
| FieldArray (items : list AbhaItem).

(** One element of [patients.json] (or of the patient API's answer).
    An absent field is [None]; the top-level [abha_addresses], which only
    [App.js] reads and only when it is an array, is [None] too when it is
    not one. *)
Record PatientRecord := {
  p_id : option string;
  p_name : option string;
  p_gender : option string;
  p_dob : option string;
  p_mobile : option string;
  p_email : option string;
  p_address : option string;
  p_user_ref_id : option string;
  p_mrn : option string;
  p_abha_ref : option string;
  p_additional_abha_addresses : AddressesField;
  p_abha_addresses : option (list AbhaItem)
}.

(** [{}] *)
Definition empty_patient : PatientRecord :=
  {| p_id := None; p_name := None; p_gender := None; p_dob := None;
     p_mobile := None; p_email := None; p_address := None;
     p_user_ref_id := None; p_mrn := None; p_abha_ref := None;
     p_additional_abha_addresses := FieldMissing; p_abha_addresses := None |}.

End Input.

(* ================================================================== *)
(** * [src/App.js] *)
(* ================================================================== *)

Module AppJs.

Import Js JsNum Gen Fhir Input.
Local Open Scope string_scope.

(** ** Utilities *)

(** [ddmmyyyyToISO(v)] *)
Definition ddmmyyyyToISO (v : option string) : option string :=
  match v with
  | None => None
  | Some v =>
      if negb (truthy v) then None
      else
        let s := trim v in
        if is_iso_date s then Some s
        else
          let sep :=
            if includes_char "-" s then Some "-"%char
            else if includes_char "/" s then Some "/"%char
            else None in
          match sep with
          | None => None
          | Some sep =>
              match split sep s with
              | [dd; mm; yyyy] =>
                  if negb (truthy dd) || negb (truthy mm) || negb (truthy yyyy)
                  then None
                  else Some (yyyy ++ "-" ++ padStart2 mm ++ "-" ++ padStart2 dd)
              | _ => None
              end
          end
  end.

(** [PLACEHOLDER_PDF_B64] *)
Definition PLACEHOLDER_PDF_B64 : string := "JVBERi0xLjQKJeLjz9MK".

(** ** ABHA addresses *)

(** An element of the result of [normalizeAbhaAddresses]. *)
Record NormalizedAddress := {
  value : string;
  label : string;
  primary : bool
}.

(** The callback of [raw.map]: [None] is [null]. *)
Definition coerce_item (item : AbhaItem) : option NormalizedAddress :=
  match item with
  | ItemFalsy => None
  | ItemString s =>
      if truthy s then Some {| value := s; label := s; primary := false |} else None
  | ItemObject address isPrimary json =>
      if truthy_opt address then
        let a := match address with Some a => a | None => "" end in
        Some {| value := a;
                label := if isPrimary then a ++ " (primary)" else a;
                primary := isPrimary |}
      else Some {| value := json; label := json; primary := isPrimary |}
  | ItemOther _ => None
  end.

(** [.map(f).filter(Boolean)] *)
Fixpoint map_filter {A B} (f : A -> option B) (l : list A) : list B :=
  match l with
  | [] => []
  | x :: t => match f x with Some y => y :: map_filter f t | None => map_filter f t end
  end.

(** [Array.prototype.sort(cmp)]: a stable sort.  An element goes before the
    first later element it does not compare greater than. *)
Fixpoint insert_sorted {A} (cmp : A -> A -> Z) (x : A) (l : list A) : list A :=
  match l with
  | [] => [x]
  | y :: t => if (cmp x y <=? 0)%Z then x :: l else y :: insert_sorted cmp x t
  end.

Fixpoint sort {A} (cmp : A -> A -> Z) (l : list A) : list A :=
  match l with
  | [] => []
  | x :: t => insert_sorted cmp x (sort cmp t)
  end.

(** The comparator of [out.sort]:
    [(b.primary - a.primary) || a.value.localeCompare(b.value)]. *)
Definition address_cmp (h : Host) (a b : NormalizedAddress) : Z :=
  let d := (Z.b2z (primary b) - Z.b2z (primary a))%Z in
  if (d =? 0)%Z then localeCompare h (value a) (value b) else d.

(** The array [raw] of [normalizeAbhaAddresses]: the nested attribute when
    it is an array, else the top-level field when it is one, else empty. *)
Definition raw_addresses (patientObj : option PatientRecord) : list AbhaItem :=
  match patientObj with
  | None => []
  | Some p =>
      match p_additional_abha_addresses p with
      | FieldArray l => l
      | FieldMissing | FieldNotArray =>
          match p_abha_addresses p with Some l => l | None => [] end
      end
  end.

(** [normalizeAbhaAddresses(patientObj)] *)
Definition normalizeAbhaAddresses (h : Host) (patientObj : option PatientRecord)
  : list NormalizedAddress :=
  sort (address_cmp h) (map_filter coerce_item (raw_addresses patientObj)).

(** Every primary entry of [l] stands before every entry that is not. *)
Fixpoint primaries_first (l : list NormalizedAddress) : bool :=
  match l with
  | [] => true
  | a :: t =>
      if primary a then primaries_first t
      else forallb (fun b => negb (primary b)) t
  end.

(** ** Component state *)

(** A value typed into a form field or set by the program: a line's
    [quantity] and [unitPrice] are numbers in the initial state and strings
    once edited. *)
Inductive FieldValue :=
| VNum (x : float)
| VStr (s : string).

(** [Number(v)] *)
Definition Number (v : FieldValue) : float :=
  match v with
  | VNum x => x
  | VStr s => StringToNumber s
  end.

Record Line := {
  description : string;
  quantity : FieldValue;
  unitPrice : FieldValue
}.

(** A picked file with the outcome of reading it: [f_data] is what
    [fileToBase64NoPrefix] resolves to, [None] when the read fails. *)
Record File := {
  f_name : string;
  f_type : string;
  f_data : option string
}.

(** [window.GlobalPractitioner], as far as the module reads it: its [id],
    [name[0].text] when [name] is an array, [name] when it is a string,
    [identifier[0].value] when [identifier] is an array, and [license]. *)
Record GlobalPractitioner := {
  gp_id : option string;
  gp_name_text : option string;
  gp_name : option string;
  gp_identifier_value : option string;
  gp_license : option string
}.

(** The module-level constants computed from [window.GlobalPractitioner]. *)
Record Globals := {
  practitionerRefId : string;
  practitionerDisplayName : string;
  practitionerLicense : string
}.

(** The three constants as the module computes them when it loads; [gp] is
    [None] when there is no global practitioner. *)
Definition load_globals (h : Host) (gp : option GlobalPractitioner) : M Globals :=
  bind (safeUuid h (match gp with Some g => gp_id g | None => None end)) (fun id =>
  ret {| practitionerRefId := id;
         practitionerDisplayName :=
           match or_else (or_else (match gp with Some g => gp_name_text g | None => None end)
                            (match gp with Some g => gp_name g | None => None end))
                         (Some "Dr. ABC") with
           | Some n => n
           | None => "Dr. ABC"
           end;
         practitionerLicense :=
           match or_else (or_else (match gp with
                                   | Some g => gp_identifier_value g
                                   | None => None
                                   end)
                            (match gp with Some g => gp_license g | None => None end))
                         (Some "LIC-TEMP-0001") with
           | Some n => n
           | None => "LIC-TEMP-0001"
           end |}).

(** The [useState] cells the build reads. *)
Record State := {
  patients : list PatientRecord;
  selectedPatientIdx : Z;
  selectedAbha : string;
  status : string;
  title : string;
  dateTimeLocal : string;
  encounterText : string;
  custodianName : string;
  attesterMode : string;
  attesterPartyType : string;
  attesterOrgName : string;
  lines : list Line;
  files : list File
}.

(** The [useMemo] cell [selectedPatient]. *)
Definition selectedPatient (s : State) : option PatientRecord :=
  if (0 <=? selectedPatientIdx s)%Z
  then nth_error (patients s) (Z.to_nat (selectedPatientIdx s))
  else None.

Definition set_lines (s : State) (l : list Line) : State :=
  {| patients := patients s; selectedPatientIdx := selectedPatientIdx s;
     selectedAbha := selectedAbha s; status := status s; title := title s;
     dateTimeLocal := dateTimeLocal s; encounterText := encounterText s;
     custodianName := custodianName s; attesterMode := attesterMode s;
     attesterPartyType := attesterPartyType s;
     attesterOrgName := attesterOrgName s; lines := l; files := files s |}.

(** The initial value of [lines]. *)
Definition initial_lines : list Line :=
  [{| description := "Consultation"; quantity := VNum 1; unitPrice := VNum 500 |}].

(** [addLine()] *)
Definition addLine (s : State) : State :=
  set_lines s (lines s ++ [{| description := ""; quantity := VNum 1; unitPrice := VNum 0 |}]).

Inductive LineKey := KDescription | KQuantity | KUnitPrice.

(** [{ ...m, [key]: val }] *)
Definition set_field (m : Line) (key : LineKey) (val : string) : Line :=
  match key with
  | KDescription => {| description := val; quantity := quantity m; unitPrice := unitPrice m |}
  | KQuantity => {| description := description m; quantity := VStr val; unitPrice := unitPrice m |}
  | KUnitPrice => {| description := description m; quantity := quantity m; unitPrice := VStr val |}
  end.

(** [updateLine(i, key, val)] *)
Definition updateLine (i : nat) (key : LineKey) (val : string) (s : State) : State :=
  set_lines s (mapi (fun idx m => if Nat.eqb idx i then set_field m key val else m) 0 (lines s)).

(** [removeLine(i)] *)
Definition removeLine (i : nat) (s : State) : State :=
  set_lines s (filteri (fun idx _ => negb (Nat.eqb idx i)) 0 (lines s)).

(** [(Number(l.quantity) || 0) * (Number(l.unitPrice) || 0)] *)
Definition line_amount (l : Line) : float :=
  (or_zero (Number (quantity l)) * or_zero (Number (unitPrice l)))%float.

(** The [useMemo] cell [invoiceTotal]. *)
Definition invoiceTotal (s : State) : float :=
  fold_left (fun sum l => (sum + line_amount l)%float) (lines s) zero.

(** ** Validation *)

Definition err_patient : string := "Select a patient (required).".
Definition err_status : string := "Status is required.".
Definition err_title : string := "Title is required.".
Definition err_content : string :=
  "Add at least one invoice line with amount > 0, or upload at least one document.".

(** [cond ? [msg] : []]: one [errors.push] under its guard. *)
Definition push_if (cond : bool) (msg : string) : list string :=
  if cond then [msg] else [].

Definition hasCharge (s : State) : bool :=
  existsb (fun l => (zero <? line_amount l)%float) (lines s).

Definition hasDocs (s : State) : bool :=
  match files s with [] => false | _ => true end.

(** [validateBeforeBuild()] *)
Definition validateBeforeBuild (s : State) : list string :=
  push_if (match selectedPatient s with None => true | Some _ => false end) err_patient
  ++ push_if (negb (truthy (status s))) err_status
  ++ push_if (negb (truthy (title s)) || negb (truthy (trim (title s)))) err_title
  ++ push_if (negb (hasCharge s || hasDocs s)) err_content.

(** ** Building the bundle *)

(** How [onBuildBundle] ends. *)
Inductive BuildResult :=
| Refused (errors : list string)   (** the errors are shown; nothing is built *)
| ReadError                        (** a file read rejected; nothing is built *)
| Submitted (bundle : Bundle).     (** the bundle passed to [axios.post] *)

Local Open Scope gen_scope.

(** [localDatetimeToISOWithOffset(localDatetime)] *)
Definition localDatetimeToISOWithOffset (h : Host) (localDatetime : string) : M string :=
  if negb (truthy localDatetime) then n <- tick ;; ret (offset_now h n)
  else ret (offset_of_local h localDatetime).

(** [cond ? uuidv4() : null] *)
Definition uuid_if (h : Host) (cond : bool) : M (option string) :=
  if cond then (u <- uuidv4 h ;; ret (Some u)) else ret None.

(** [list.length ? list : undefined] *)
Definition nonempty {A} (l : list A) : option (list A) :=
  match l with [] => None | _ => Some l end.

(** [buildPatientResource(idForBundle)] *)
Definition buildPatientResource (s : State) (idForBundle : string) : Patient :=
  let p := match selectedPatient s with Some p => p | None => empty_patient end in
  let mrnLocal :=
    or_else (or_else (or_else (p_user_ref_id p) (p_mrn p)) (p_abha_ref p)) (p_id p) in
  let identifiers :=
    (push_truthy mrnLocal
       (fun v => {| id_system := "https://healthid.ndhm.gov.in"; id_value := v |})
     ++ push_truthy (p_abha_ref p)
       (fun v => {| id_system := "https://abdm.gov.in/abha"; id_value := v |}))%list in
  let telecom :=
    (push_truthy (p_mobile p) (fun v => {| cp_system := "phone"; cp_value := v |})
     ++ push_truthy (p_email p) (fun v => {| cp_system := "email"; cp_value := v |})
     ++ push_truthy (Some (selectedAbha s))
          (fun v => {| cp_system := "url"; cp_value := ("abha://" ++ v)%string |}))%list in
  {| pat_id := idForBundle;
     pat_identifier := nonempty identifiers;
     pat_name := if truthy_opt (p_name p) then p_name p else None;
     pat_gender := if truthy_opt (p_gender p) then option_map toLowerCase (p_gender p) else None;
     pat_birthDate := or_else (ddmmyyyyToISO (p_dob p)) None;
     pat_telecom := nonempty telecom;
     pat_address := if truthy_opt (p_address p) then p_address p else None |}.

(** [buildPractitionerResource(practRefId, practName, practLicense)] *)
Definition buildPractitionerResource (practRefId practName practLicense : string)
  : Practitioner :=
  {| pr_id := practRefId;
     pr_identifier := {| id_system := "https://doctor.ndhm.gov.in"; id_value := practLicense |};
     pr_name := practName;
     pr_license := None |}.

(** The Encounter built at the [n]-th reading of the clock. *)
Definition encounter_of (h : Host) (patientId : string) (n : nat) (eid : string)
  : Encounter :=
  let start := offset_now h n in
  {| enc_id := eid; enc_status := "finished"; enc_subject := mkRef (urn patientId);
     enc_start := start; enc_end := start |}.

(** [buildEncounterResource()] *)
Definition buildEncounterResource (h : Host) (encounterId : option string)
  (patientId : string) : M (option Encounter) :=
  match encounterId with
  | None => ret None
  | Some eid => n <- tick ;; ret (Some (encounter_of h patientId n eid))
  end.

(** [buildCustodianOrg()] and [buildAttesterOrg()] *)
Definition buildOrg (orgId : option string) (name : string) : option Organization :=
  match orgId with
  | None => None
  | Some oid =>
      Some {| org_id := oid; org_name := name; org_identifier := [];
              org_telecom := None; org_address := None |}
  end.

Definition buildCustodianOrg (s : State) (custodianId : option string) :=
  buildOrg custodianId (custodianName s).

Definition buildAttesterOrg (s : State) (attesterOrgId : option string) :=
  buildOrg attesterOrgId (attesterOrgName s).

(** The callback of [lines.filter(...)] in [buildInvoiceResource]. *)
Definition line_kept (l : Line) : bool :=
  (zero <? or_zero (Number (quantity l)))%float
  && (zero <=? or_zero (Number (unitPrice l)))%float.

(** The callback of [.map(...)] in [buildInvoiceResource]. *)
Definition line_item (l : Line) : InvoiceLine :=
  let qty := or_zero (Number (quantity l)) in
  let unit := or_zero (Number (unitPrice l)) in
  {| il_sequence := None;
     il_display := None;
     il_text := TextPlain (or_text (description l) "Charge");
     il_priceComponent :=
       [ {| pc_type := "base"; pc_amount := Some unit; pc_factor := None |};
         {| pc_type := "informational"; pc_amount := None; pc_factor := Some qty |} ] |}.

(** [buildInvoiceResource()] *)
Definition buildInvoiceResource (g : Globals) (s : State)
  (invoiceId patientId practitionerId authoredOn : string) : Invoice :=
  let lineItems := map line_item (filter line_kept (lines s)) in
  {| inv_id := invoiceId;
     inv_identifier := None;
     inv_status := "issued";
     inv_type_text := "Healthcare invoice";
     inv_date := authoredOn;
     inv_subject := mkRef (urn patientId);
     inv_recipient := None;
     inv_issuer := None;
     inv_participant :=
       [{| reference := urn practitionerId;
           ref_display := Some (practitionerDisplayName g);
           ref_type := None |}];
     inv_paymentTerms := None;
     inv_note := None;
     inv_lineItem := nonempty lineItems;
     inv_totalNet := round2 (invoiceTotal s);
     inv_totalGross := round2 (invoiceTotal s) |}.

(** [contentType], [dataB64] and [titleDoc] of one element of [toProcess];
    [None] when the file's read rejects. *)
Definition doc_payload (f : option File) : option (string * string * string) :=
  match f with
  | None => Some ("application/pdf", PLACEHOLDER_PDF_B64, "placeholder.pdf")
  | Some f =>
      match f_data f with
      | None => None
      | Some dataB64 =>
          Some (or_text (f_type f) "application/pdf", dataB64,
                or_text (f_name f) "placeholder.pdf")
      end
  end.

(** [files.length > 0 ? files : [null]] *)
Definition toProcess (s : State) : list (option File) :=
  match files s with
  | [] => [None]
  | fs => map Some fs
  end.

(** The loop of [buildDocAndBinaryResources]: one Binary and one
    DocumentReference per element, with the i-th identifiers. *)
Fixpoint buildDocs (patientId authoredOn : string) (fs : list (option File))
  (binIds docIds : list string) : option (list Binary * list DocumentReference) :=
  match fs, binIds, docIds with
  | f :: fs', binId :: binIds', docId :: docIds' =>
      match doc_payload f with
      | None => None
      | Some (contentType, dataB64, titleDoc) =>
          let binary :=
            {| bin_id := binId; bin_contentType := contentType; bin_data := dataB64 |} in
          let docRef :=
            {| dr_id := docId; dr_status := "current"; dr_type_text := "Invoice document";
               dr_subject := Some (mkRef (urn patientId));
               dr_date := Some authoredOn;
               dr_content :=
                 [{| at_contentType := Some contentType; at_title := titleDoc;
                     at_url := urn binId; at_creation := None |}] |} in
          match buildDocs patientId authoredOn fs' binIds' docIds' with
          | None => None
          | Some (binaries, docRefs) => Some (binary :: binaries, docRef :: docRefs)
          end
      end
  | _, _, _ => Some ([], [])
  end.

(** [buildDocAndBinaryResources()] *)
Definition buildDocAndBinaryResources (s : State) (patientId authoredOn : string)
  (docBinaryIds docRefIds : list string) :=
  buildDocs patientId authoredOn (toProcess s) docBinaryIds docRefIds.

(** [buildComposition(docRefsArr)] *)
Definition buildComposition (g : Globals) (s : State)
  (compId patientId practitionerId invoiceId authoredOn : string)
  (encounterId custodianId attesterOrgId : option string)
  (docRefsArr : list DocumentReference) : Composition :=
  let entries :=
    ({| reference := urn invoiceId; ref_display := None; ref_type := Some "Invoice" |}
     :: map (fun dr => {| reference := urn (dr_id dr); ref_display := None;
                          ref_type := Some "DocumentReference" |}) docRefsArr)%list in
  let attesterArr :=
    if String.eqb (attesterPartyType s) "Practitioner" then
      [{| att_mode := attesterMode s; att_party := mkRef (urn practitionerId);
          att_time := None |}]
    else
      match attesterOrgId with
      | Some oid =>
          if String.eqb (attesterPartyType s) "Organization" then
            [{| att_mode := attesterMode s; att_party := mkRef (urn oid);
                att_time := None |}]
          else []
      | None => []
      end in
  {| comp_id := compId;
     comp_status := status s;
     comp_type_text := "Invoice Record";
     comp_subject := mkRef (urn patientId);
     comp_encounter := option_map (fun e => mkRef (urn e)) encounterId;
     comp_date := authoredOn;
     comp_author :=
       [{| reference := urn practitionerId;
           ref_display := Some (practitionerDisplayName g); ref_type := None |}];
     comp_title := title s;
     comp_attester :=
       match attesterArr with
       | [] => [{| att_mode := "official"; att_party := mkRef (urn practitionerId);
                   att_time := None |}]
       | _ => attesterArr
       end;
     comp_custodian := option_map (fun c => mkRef (urn c)) custodianId;
     comp_section :=
       [{| sec_title := "Invoice section";
           sec_entry := nonempty entries;
           sec_text :=
             match entries with
             | [] => Some "<p>No invoice entries</p>"
             | _ => None
             end |}] |}.

(** [{ fullUrl: `urn:uuid:${res.id}`, resource: res }] *)
Definition entry_of (r : Resource) : Entry :=
  {| fullUrl := urn (resource_id r); resource := r |}.

(** [onBuildBundle()], up to the submission. *)
Definition onBuildBundle (h : Host) (g : Globals) (s : State) : M BuildResult :=
  match validateBeforeBuild s with
  | (_ :: _) as errors => ret (Refused errors)
  | [] =>
      authoredOn <- localDatetimeToISOWithOffset h (dateTimeLocal s) ;;
      compId <- uuidv4 h ;;
      patientId <- uuidv4 h ;;
      practitionerId <-
        (if truthy (practitionerRefId g) then ret (practitionerRefId g) else uuidv4 h) ;;
      encounterId <- uuid_if h (truthy (encounterText s)) ;;
      custodianId <- uuid_if h (truthy (custodianName s)) ;;
      attesterOrgId <-
        uuid_if h (String.eqb (attesterPartyType s) "Organization"
                   && truthy (attesterOrgName s)) ;;
      invoiceId <- uuidv4 h ;;
      docBinaryIds <- mapM (fun _ => uuidv4 h) (toProcess s) ;;
      docRefIds <- mapM (fun _ => uuidv4 h) docBinaryIds ;;
      let patientRes := buildPatientResource s patientId in
      let practitionerRes :=
        buildPractitionerResource practitionerId (practitionerDisplayName g)
          (practitionerLicense g) in
      encounterRes <- buildEncounterResource h encounterId patientId ;;
      let custodianRes := buildCustodianOrg s custodianId in
      let attesterOrgRes := buildAttesterOrg s attesterOrgId in
      let invoiceRes :=
        buildInvoiceResource g s invoiceId patientId practitionerId authoredOn in
      match buildDocAndBinaryResources s patientId authoredOn docBinaryIds docRefIds with
      | None => ret ReadError
      | Some (binaries, docRefs) =>
          let compositionRes :=
            buildComposition g s compId patientId practitionerId invoiceId authoredOn
              encounterId custodianId attesterOrgId docRefs in
          u <- uuidv4 h ;;
          let bundleId := ("InvoiceBundle-" ++ u)%string in
          _lastUpdated <- tick ;;
          ident <- uuidv4 h ;;
          n <- tick ;;
          ret (Submitted
                 {| bundle_id := bundleId;
                    bundle_type := "document";
                    bundle_timestamp := offset_now h n;
                    bundle_identifier := urn ident;
                    entry :=
                      ([ entry_of (RComposition compositionRes);
                         entry_of (RPatient patientRes);
                         entry_of (RPractitioner practitionerRes);
                         entry_of (RInvoice invoiceRes) ]
                       ++ map (fun e => entry_of (REncounter e)) (opt_list encounterRes)
                       ++ map (fun o => entry_of (ROrganization o)) (opt_list custodianRes)
                       ++ map (fun o => entry_of (ROrganization o)) (opt_list attesterOrgRes)
                       ++ map (fun dr => entry_of (RDocumentReference dr)) docRefs
                       ++ map (fun b => entry_of (RBinary b)) binaries)%list |})
      end
  end.

End AppJs.

(* ================================================================== *)
(** * [src/invoice-record-2.js] *)
(* ================================================================== *)

Module Record2.

Import Js JsNum Gen Fhir Input.
Local Open Scope string_scope.
Local Open Scope gen_scope.

(** ** Utilities *)

(** [uuidv4()] of this file: the same template, lower-cased. *)
Definition uuidv4 (h : Host) : M string :=
  u <- Gen.uuidv4 h ;; ret (toLowerCase u).

Definition is_sep (c : ascii) : bool := Ascii.eqb c "-" || Ascii.eqb c "/".

Definition between (lo hi : nat) (l : list ascii) : bool :=
  Nat.leb lo (List.length l) && Nat.leb (List.length l) hi.

(** [input.match(/^(\d{1,2})[-\/](\d{1,2})[-\/](\d{2,4})$/)]: the three
    groups, when the input matches. *)
Definition match_dmy (input : string) : option (string * string * string) :=
  let (g1, r1) := span_digits (chars input) in
  match r1 with
  | c1 :: r1' =>
      let (g2, r2) := span_digits r1' in
      match r2 with
      | c2 :: r2' =>
          let (g3, r3) := span_digits r2' in
          match r3 with
          | [] =>
              if is_sep c1 && is_sep c2 && between 1 2 g1 && between 1 2 g2
                 && between 2 4 g3
              then Some (str g1, str g2, str g3)
              else None
          | _ => None
          end
      | [] => None
      end
  | [] => None
  end.

(** [toFhirDate(input)] *)
Definition toFhirDate (h : Host) (input : option string) : option string :=
  match input with
  | None => None
  | Some input =>
      if negb (truthy input) then None
      else if is_iso_date input then Some input
      else
        match match_dmy input with
        | Some (m1, m2, m3) =>
            let dd := padStart2 m1 in
            let mm := padStart2 m2 in
            let yy := if Nat.eqb (String.length m3) 2 then "19" ++ m3 else m3 in
            Some (yy ++ "-" ++ mm ++ "-" ++ dd)
        | None => date_parse h input
        end
  end.

(** The callback of [arr.map] in [getAbhaAddressesForPatient]; [None] is
    [null]. *)
Definition coerce_item (a : AbhaItem) : option string :=
  match a with
  | ItemFalsy => None
  | ItemString s => if truthy s then Some s else None
  | ItemObject address _ json =>
      match address with Some v => Some v | None => Some json end
  | ItemOther text => Some text
  end.

(** [.map(f).filter(Boolean)] on strings: [null] and [""] are dropped. *)
Fixpoint map_filter (f : AbhaItem -> option string) (l : list AbhaItem) : list string :=
  match l with
  | [] => []
  | x :: t =>
      match f x with
      | Some y => if truthy y then y :: map_filter f t else map_filter f t
      | None => map_filter f t
      end
  end.

(** [Array.from(new Set(l))]: the first occurrence of every value, in order. *)
Fixpoint dedup (seen : list string) (l : list string) : list string :=
  match l with
  | [] => []
  | x :: t =>
      if existsb (String.eqb x) seen then dedup seen t
      else x :: dedup (x :: seen) t
  end.

(** How a call ends: with a value, or with a [TypeError] thrown. *)
Inductive Completion (A : Type) :=
| Returns (a : A)
| ThrowsTypeError.

Arguments Returns {A} a.
Arguments ThrowsTypeError {A}.

(** [(arr || [])] of [getAbhaAddressesForPatient], as the receiver of
    [.map]: a truthy value that is not an array has no [map] to call. *)
Definition map_receiver (pt : PatientRecord) : Completion (list AbhaItem) :=
  match p_additional_abha_addresses pt with
  | FieldMissing => Returns []
  | FieldArray arr => Returns arr
  | FieldNotArray => ThrowsTypeError
  end.

(** [if (pt.abha_ref && !normalized.includes(pt.abha_ref))
     normalized.unshift(pt.abha_ref)] *)
Definition unshift_abha_ref (pt : PatientRecord) (normalized : list string)
  : list string :=
  match p_abha_ref pt with
  | Some r =>
      if truthy r && negb (existsb (String.eqb r) normalized)
      then r :: normalized else normalized
  | None => normalized
  end.

(** The array [normalized] of [getAbhaAddressesForPatient], after the
    [unshift] of [pt.abha_ref]. *)
Definition normalized_addresses (pt : PatientRecord) : Completion (list string) :=
  match map_receiver pt with
  | Returns arr => Returns (unshift_abha_ref pt (map_filter coerce_item arr))
  | ThrowsTypeError => ThrowsTypeError
  end.

(** [getAbhaAddressesForPatient(pt)] *)
Definition getAbhaAddressesForPatient (pt : option PatientRecord)
  : Completion (list string) :=
  match pt with
  | None => Returns []
  | Some pt =>
      match normalized_addresses pt with
      | Returns normalized => Returns (dedup [] normalized)
      | ThrowsTypeError => ThrowsTypeError
      end
  end.

(** ** Component state *)

Record PractitionerInput := { pi_id : string; pi_name : string; pi_license : string }.

Record OrganizationInput := {
  oi_id : string; oi_name : string; oi_gstin : string; oi_phone : string;
  oi_address : string
}.

Record LineItem := {
  li_id : string;
  li_description : string;
  li_quantity : float;
  li_unit : string;
  li_unitPrice : float;
  li_taxPercent : float
}.

(** An attachment as [handleFileChange] stores it. *)
Record AttachmentInput := {
  ai_id : string; ai_name : string; ai_contentType : string; ai_data : string
}.

(** The [useState] cells the build reads. *)
Record State := {
  patients : list PatientRecord;
  selectedPatientIdx : option nat;
  selectedAbha : string;
  practitioner : PractitionerInput;
  organization : OrganizationInput;
  invoiceNumber : string;
  invoiceDate : string;
  invoiceType : string;
  paymentTerms : string;
  paymentStatus : string;
  lineItems : list LineItem;
  totalNet : string;
  totalTax : string;
  totalGross : string;
  attachments : list AttachmentInput
}.

(** ** Line item handlers, as the updaters passed to [setLineItems] *)

(** The initial value of [lineItems], given its generated identifier. *)
Definition initial_lineItems (id : string) : list LineItem :=
  [{| li_id := id; li_description := "Consultation"; li_quantity := 1;
      li_unit := "each"; li_unitPrice := 500; li_taxPercent := 0 |}].

(** [addLineItem()] *)
Definition addLineItem (h : Host) (s : list LineItem) : M (list LineItem) :=
  id <- uuidv4 h ;;
  ret (s ++ [{| li_id := id; li_description := ""; li_quantity := 1;
                li_unit := "each"; li_unitPrice := 0; li_taxPercent := 0 |}])%list.

(** The object spread over a line item by [updateLineItem]: the fields it
    sets. *)
Record Patch := {
  set_id : option string;
  set_description : option string;
  set_quantity : option float;
  set_unit : option string;
  set_unitPrice : option float;
  set_taxPercent : option float
}.

Definition or_field {A} (o : option A) (d : A) : A :=
  match o with Some a => a | None => d end.

(** [{ ...li, ...patch }] *)
Definition apply_patch (li : LineItem) (patch : Patch) : LineItem :=
  {| li_id := or_field (set_id patch) (li_id li);
     li_description := or_field (set_description patch) (li_description li);
     li_quantity := or_field (set_quantity patch) (li_quantity li);
     li_unit := or_field (set_unit patch) (li_unit li);
     li_unitPrice := or_field (set_unitPrice patch) (li_unitPrice li);
     li_taxPercent := or_field (set_taxPercent patch) (li_taxPercent li) |}.

(** [updateLineItem(id, patch)] *)
Definition updateLineItem (id : string) (patch : Patch) (s : list LineItem)
  : list LineItem :=
  map (fun li => if String.eqb (li_id li) id then apply_patch li patch else li) s.

(** [removeLineItem(id)] *)
Definition removeLineItem (id : string) (s : list LineItem) : list LineItem :=
  if Nat.leb (List.length s) 1 then s
  else filter (fun li => negb (String.eqb (li_id li) id)) s.

(** One use of a line item handler. *)
Inductive Action :=
| AddLineItem
| UpdateLineItem (id : string) (patch : Patch)
| RemoveLineItem (id : string).

Definition apply_action (h : Host) (a : Action) (s : list LineItem)
  : M (list LineItem) :=
  match a with
  | AddLineItem => addLineItem h s
  | UpdateLineItem id patch => ret (updateLineItem id patch s)
  | RemoveLineItem id => ret (removeLineItem id s)
  end.

(** The line items after a sequence of handler calls. *)
Fixpoint run_actions (h : Host) (acts : list Action) (s : list LineItem)
  : M (list LineItem) :=
  match acts with
  | [] => ret s
  | a :: t => s' <- apply_action h a s ;; run_actions h t s'
  end.

(** The identifiers of the line items are pairwise distinct, in [s] and in
    every state the sequence goes through. *)
Fixpoint distinct_ids_along (h : Host) (acts : list Action) (s : list LineItem)
  (w : World) : Prop :=
  NoDup (map li_id s) /\
  match acts with
  | [] => True
  | a :: t => let (s', w') := apply_action h a s w in distinct_ids_along h t s' w'
  end.

(** [removeAttachment(id)] *)
Definition removeAttachment (id : string) (s : list AttachmentInput)
  : list AttachmentInput :=
  filter (fun a => negb (String.eqb (ai_id a) id)) s.

(** ** Totals *)

(** [Number(li.quantity || 0) * Number(li.unitPrice || 0)] *)
Definition line_base (li : LineItem) : float :=
  (or_zero (li_quantity li) * or_zero (li_unitPrice li))%float.

(** [b * (Number(li.taxPercent || 0) / 100)] *)
Definition line_tax (li : LineItem) : float :=
  (line_base li * (or_zero (li_taxPercent li) / 100))%float.

(** The two sums of the auto-compute effect. *)
Definition sum_base (l : list LineItem) : float :=
  fold_left (fun acc li => (acc + line_base li)%float) l zero.

Definition sum_tax (l : list LineItem) : float :=
  fold_left (fun acc li => (acc + line_tax li)%float) l zero.

(** The auto-compute effect: the texts it stores in [totalNet], [totalTax]
    and [totalGross]. *)
Definition auto_totals (l : list LineItem) : string * string * string :=
  let base := sum_base l in
  let tax := sum_tax l in
  (toFixed2 base, toFixed2 tax, toFixed2 (base + tax)%float).

(** The state once the effect has run on its line items. *)
Definition after_effect (s : State) : State :=
  let '(n, t, g) := auto_totals (lineItems s) in
  {| patients := patients s; selectedPatientIdx := selectedPatientIdx s;
     selectedAbha := selectedAbha s; practitioner := practitioner s;
     organization := organization s; invoiceNumber := invoiceNumber s;
     invoiceDate := invoiceDate s; invoiceType := invoiceType s;
     paymentTerms := paymentTerms s; paymentStatus := paymentStatus s;
     lineItems := lineItems s; totalNet := n; totalTax := t; totalGross := g;
     attachments := attachments s |}.

(** ** Building the bundle *)

(** The callback of [lineItems.map] in [buildBundle]; [idx] counts from 0. *)
Definition processedLineItem (idx : nat) (li : LineItem) : InvoiceLine :=
  let qty := or_zero (li_quantity li) in
  let base := line_base li in
  let tax := line_tax li in
  let components :=
    ({| pc_type := "base"; pc_amount := Some (round2 base); pc_factor := None |}
     :: (if (zero <? tax)%float
         then [{| pc_type := "tax"; pc_amount := Some (round2 tax); pc_factor := None |}]
         else []))%list in
  {| il_sequence := Some (idx + 1)%nat;
     il_display := Some (or_text (li_description li) ("Item " ++ string_of_nat (idx + 1)));
     il_text := TextQuantity (some_if (li_description li)) qty (or_text (li_unit li) "unit");
     il_priceComponent := components |}.

(** [(it.priceComponent || []).find(c => c.type === ty)?.amount?.value || 0] *)
Definition component_value (ty : string) (it : InvoiceLine) : float :=
  match find (fun c => String.eqb (pc_type c) ty) (il_priceComponent it) with
  | Some c => match pc_amount c with Some v => or_zero v | None => zero end
  | None => zero
  end.

Definition computedNet (items : list InvoiceLine) : float :=
  fold_left (fun s it => (s + component_value "base" it)%float) items zero.

Definition computedTax (items : list InvoiceLine) : float :=
  fold_left (fun s it => (s + component_value "tax" it)%float) items zero.

(** [override && !isNaN(Number(override)) ? Number(override)
     : Number(computed.toFixed(2))] *)
Definition reconcile (override : string) (computed : float) : float :=
  if truthy override && negb (isNaN (StringToNumber override))
  then StringToNumber override
  else round2 computed.

Definition attachment_binary (att : AttachmentInput) : Binary :=
  {| bin_id := ai_id att; bin_contentType := ai_contentType att; bin_data := ai_data att |}.

(** One element of [docRefs], its [creation] stamp taken at the [n]-th
    reading of the clock. *)
Definition docRef_of (h : Host) (n : nat) (att : AttachmentInput) : DocumentReference :=
  {| dr_id := "doc-" ++ ai_id att;
     dr_status := "current";
     dr_type_text := ai_name att;
     dr_subject := None;
     dr_date := None;
     dr_content :=
       [{| at_contentType := None; at_title := ai_name att;
           at_url := urn (ai_id att); at_creation := Some (iso_now h n) |}] |}.

Definition attachment_docRef (h : Host) (att : AttachmentInput) : M DocumentReference :=
  n <- tick ;; ret (docRef_of h n att).

Definition entry_of (id : string) (r : Resource) : Entry :=
  {| fullUrl := urn id; resource := r |}.

(** [buildBundle()]: [None] is the [null] returned after an alert. *)
Definition buildBundle (h : Host) (s : State) : M (option Bundle) :=
  match selectedPatientIdx s with
  | None => ret None
  | Some idx =>
  match nth_error (patients s) idx with
  | None => ret None
  | Some selPatient =>
  if negb (truthy (selectedAbha s)) then ret None
  else
    patientId <-
      (if truthy_opt (p_user_ref_id selPatient)
       then ret (toLowerCase (or_field (p_user_ref_id selPatient) ""))
       else uuidv4 h) ;;
    compId <- uuidv4 h ;;
    practId <-
      (if truthy (pi_id (practitioner s)) && Nat.ltb 0 (String.length (pi_id (practitioner s)))
       then ret (toLowerCase (pi_id (practitioner s))) else uuidv4 h) ;;
    orgId <-
      (if truthy (oi_id (organization s)) then ret (oi_id (organization s)) else uuidv4 h) ;;
    invoiceId <- uuidv4 h ;;
    let patientResource :=
      {| pat_id := patientId;
         pat_identifier :=
           Some [ {| id_system := "http://terminology.hl7.org/CodeSystem/v2-0203";
                     id_value :=
                       or_field (or_else (p_user_ref_id selPatient)
                                   (Some ("mrn-" ++ or_field (p_id selPatient) "undefined")))
                                "" |};
                  {| id_system := "http://nrces.in/CodeSystem/identifier-type";
                     id_value := selectedAbha s |} ];
         pat_name := Some (or_field (or_else (p_name selPatient) (Some "")) "");
         pat_gender :=
           if truthy_opt (p_gender selPatient)
           then option_map toLowerCase (p_gender selPatient) else None;
         pat_birthDate := toFhirDate h (p_dob selPatient);
         pat_telecom :=
           Some (push_truthy (p_mobile selPatient)
                   (fun v => {| cp_system := "phone"; cp_value := v |})
                 ++ push_truthy (p_email selPatient)
                   (fun v => {| cp_system := "email"; cp_value := v |}))%list;
         pat_address :=
           if truthy_opt (p_address selPatient) then p_address selPatient else None |} in
    let practitionerResource :=
      {| pr_id := practId;
         pr_identifier :=
           {| id_system := "http://nrces.in/CodeSystem/identifier-type";
              id_value := "PR-" ++ practId |};
         pr_name := or_text (pi_name (practitioner s)) "Unknown Practitioner";
         pr_license := some_if (pi_license (practitioner s)) |} in
    let organizationResource :=
      {| org_id := orgId;
         org_name := oi_name (organization s);
         org_identifier :=
           ({| id_system := "http://nrces.in/CodeSystem/identifier-type";
               id_value := "ORG-001" |}
            :: (if truthy (oi_gstin (organization s))
                then [{| id_system := "http://your.org/gstin";
                         id_value := oi_gstin (organization s) |}]
                else []))%list;
         org_telecom := some_if (oi_phone (organization s));
         org_address := some_if (oi_address (organization s)) |} in
    let processedLineItems := mapi processedLineItem 0 (lineItems s) in
    let computedNet := computedNet processedLineItems in
    let computedTax := computedTax processedLineItems in
    let computedGross := (computedNet + computedTax)%float in
    let finalNet := reconcile (totalNet s) computedNet in
    let finalTax := reconcile (totalTax s) computedTax in
    let finalGross := reconcile (totalGross s) computedGross in
    invDate <-
      (if truthy (invoiceDate s) then ret (invoiceDate s)
       else (n <- tick ;; ret (iso_now h n))) ;;
    let invoiceResource :=
      {| inv_id := invoiceId;
         inv_identifier := Some (or_text (invoiceNumber s) ("INV-" ++ invoiceId));
         inv_status := "issued";
         inv_type_text := invoiceType s;
         inv_date := invDate;
         inv_subject :=
           {| reference := urn patientId; ref_display := p_name selPatient;
              ref_type := None |};
         inv_recipient := Some (mkRef (urn patientId));
         inv_issuer := Some (mkRef (urn orgId));
         inv_participant := [];
         inv_paymentTerms := some_if (paymentTerms s);
         inv_note :=
           if truthy (paymentStatus s)
           then Some ("Payment status: " ++ paymentStatus s) else None;
         inv_lineItem := Some processedLineItems;
         inv_totalNet := round2 finalNet;
         inv_totalGross := round2 finalGross |} in
    compDate <- tick ;;
    attTime <- tick ;;
    let compositionResource :=
      {| comp_id := compId;
         comp_status := "final";
         comp_type_text := "Invoice Record";
         comp_subject :=
           {| reference := urn patientId; ref_display := p_name selPatient;
              ref_type := None |};
         comp_encounter := None;
         comp_date := iso_now h compDate;
         comp_author :=
           [{| reference := urn practId;
               ref_display := Some (pi_name (practitioner s)); ref_type := None |}];
         comp_title := "Invoice " ++ invoiceNumber s;
         comp_attester :=
           [{| att_mode := "official"; att_party := mkRef (urn practId);
               att_time := Some (iso_now h attTime) |}];
         comp_custodian := None;
         comp_section :=
           [{| sec_title := "Invoice Section";
               sec_entry :=
                 Some [{| reference := urn invoiceId; ref_display := None;
                          ref_type := Some "Invoice" |}];
               sec_text := Some "<p>Invoice details</p>" |}] |} in
    let binaryResources := map attachment_binary (attachments s) in
    docRefs <- mapM (attachment_docRef h) (attachments s) ;;
    let entries :=
      ([ entry_of compId (RComposition compositionResource);
         entry_of patientId (RPatient patientResource);
         entry_of practId (RPractitioner practitionerResource);
         entry_of orgId (ROrganization organizationResource);
         entry_of invoiceId (RInvoice invoiceResource) ]
       ++ map (fun br => entry_of (bin_id br) (RBinary br)) binaryResources
       ++ map (fun dr => entry_of (dr_id dr) (RDocumentReference dr)) docRefs)%list in
    bid <- uuidv4 h ;;
    ts <- tick ;;
    ms <- tick ;;
    ret (Some {| bundle_id := bid;
                 bundle_type := "document";
                 bundle_timestamp := iso_now h ts;
                 bundle_identifier := "invoice-bundle-" ++ millis_now h ms;
                 entry := entries |})
  end
  end.

End Record2.

(* ================================================================== *)
(** * Bundles produced by a build *)
(* ================================================================== *)

(** [b] is the bundle a build of either component produces, run by host [h]
    from world [w]: the one [App.js] submits, or the one [buildBundle]
    of [invoice-record-2.js] returns. *)
Definition produced (h : Host) (w : Gen.World) (b : Fhir.Bundle) : Prop :=
  (exists g s, Gen.run (AppJs.onBuildBundle h g s) w = AppJs.Submitted b)
  \/ (exists s, Gen.run (Record2.buildBundle h s) w = Some b).

(** A property of the bundle a build ended with; [False] when it ended
    without one. *)
Definition of_app_result (r : AppJs.BuildResult) (P : Fhir.Bundle -> Prop) : Prop :=
  match r with AppJs.Submitted b => P b | _ => False end.

Definition of_record2_result (r : option Fhir.Bundle) (P : Fhir.Bundle -> Prop) : Prop :=
  match r with Some b => P b | None => False end.

(* ================================================================== *)
(** * The shape of a day-month-year text *)
(* ================================================================== *)

(** [l] consists of decimal digits. *)
Definition all_digits (l : list ascii) : bool := forallb Js.is_digit l.

(** The text [d c1 m c2 y]: three groups joined by two separator
    characters. *)
Definition dmy_text (d : list ascii) (c1 : ascii) (m : list ascii) (c2 : ascii)
  (y : list ascii) : string :=
  Js.str (d ++ c1 :: m ++ c2 :: y).

(** The groups are digits, one or two for the day and the month and two to
    four for the year, and the separators are [-] or [/]. *)
Definition dmy_shape (d : list ascii) (c1 : ascii) (m : list ascii) (c2 : ascii)
  (y : list ascii) : bool :=
  all_digits d && all_digits m && all_digits y
  && Record2.between 1 2 d && Record2.between 1 2 m && Record2.between 2 4 y
  && Record2.is_sep c1 && Record2.is_sep c2.

(* ================================================================== *)
(** * Consistent comparison *)
(* ================================================================== *)

(** [localeCompare] never puts each of two strings after the other. *)
Definition consistent_compare (h : Host) : Prop :=
  forall a b, (0 < localeCompare h a b)%Z -> (localeCompare h b a <= 0)%Z.

(* ================================================================== *)
(** * [src/App.js]: helpers, handlers and effects outside the build *)
(* ================================================================== *)

Module AppHandlers.

Import Js JsNum Gen Fhir Input AppJs.
Local Open Scope string_scope.

(** ** Date stamps *)

(** What the getters of a valid [Date] return.  [getTimezoneOffset] is in
    whole minutes. *)
Record DateFields := {
  getFullYear : Z;
  getMonth : Z;
  getDate : Z;
  getHours : Z;
  getMinutes : Z;
  getSeconds : Z;
  getTimezoneOffset : Z
}.

(** [String(n)] for an integer [n]. *)
Definition string_of_int (n : Z) : string :=
  if (n <? 0)%Z then "-" ++ string_of_Z_nonneg (- n) else string_of_Z_nonneg n.

(** [pad] of [isoWithLocalOffsetFromDate]:
    [String(Math.abs(Math.floor(n))).padStart(2, "0")], on an integer. *)
Definition pad (n : Z) : string := padStart2 (string_of_Z_nonneg (Z.abs n)).

(** [isoWithLocalOffsetFromDate(d)]; [None] is an invalid date, every getter
    of which returns [NaN]. *)
Definition isoWithLocalOffsetFromDate (d : option DateFields) : string :=
  match d with
  | None => "NaN-NaN-NaNTNaN:NaN:NaN-NaN:NaN"
  | Some date =>
      let tzo := (- getTimezoneOffset date)%Z in
      let sign := if (0 <=? tzo)%Z then "+" else "-" in
      let hh := pad (Z.abs tzo / 60) in
      let mm := pad (Z.abs tzo mod 60) in
      string_of_int (getFullYear date) ++ "-" ++ pad (getMonth date + 1) ++ "-"
      ++ pad (getDate date) ++ "T" ++ pad (getHours date) ++ ":"
      ++ pad (getMinutes date) ++ ":" ++ pad (getSeconds date) ++ sign ++ hh ++ ":" ++ mm
  end.

(** The initial value of [dateTimeLocal], computed from the date [d] of the
    first render; its [pad] is [String(n).padStart(2, "0")]. *)
Definition initial_dateTimeLocal (d : DateFields) : string :=
  let pad n := padStart2 (string_of_int n) in
  string_of_int (getFullYear d) ++ "-" ++ pad (getMonth d + 1)%Z ++ "-"
  ++ pad (getDate d) ++ "T" ++ pad (getHours d) ++ ":" ++ pad (getMinutes d).

(** The getters are in the ranges of a date of the years 1000 to 9999. *)
Definition in_calendar_ranges (d : DateFields) : bool :=
  ((1000 <=? getFullYear d) && (getFullYear d <=? 9999)
   && (0 <=? getMonth d) && (getMonth d <=? 11)
   && (1 <=? getDate d) && (getDate d <=? 31)
   && (0 <=? getHours d) && (getHours d <=? 23)
   && (0 <=? getMinutes d) && (getMinutes d <=? 59)
   && (0 <=? getSeconds d) && (getSeconds d <=? 59)
   && (-1440 <? getTimezoneOffset d) && (getTimezoneOffset d <? 1440))%Z.

(** One position of a stamp: a digit, a given character, or a sign. *)
Inductive StampClass :=
| SDigit
| SLit (c : ascii)
| SSign.

Definition in_stamp_class (k : StampClass) (c : ascii) : bool :=
  match k with
  | SDigit => is_digit c
  | SLit x => Ascii.eqb c x
  | SSign => Ascii.eqb c "+" || Ascii.eqb c "-"
  end.

Fixpoint matches_stamp (p : list StampClass) (l : list ascii) : bool :=
  match p, l with
  | [], [] => true
  | k :: p', c :: l' => in_stamp_class k c && matches_stamp p' l'
  | _, _ => false
  end.

(** The form [YYYY-MM-DDThh:mm:ss+zz:zz] of a date and time with its offset. *)
Definition offset_stamp : list StampClass :=
  [SDigit; SDigit; SDigit; SDigit; SLit "-"; SDigit; SDigit; SLit "-"; SDigit; SDigit;
   SLit "T"; SDigit; SDigit; SLit ":"; SDigit; SDigit; SLit ":"; SDigit; SDigit;
   SSign; SDigit; SDigit; SLit ":"; SDigit; SDigit].

(** ** Reading a picked file *)

(** [l] starts with [p]. *)
Fixpoint starts_with (p l : list ascii) : bool :=
  match p, l with
  | [], _ => true
  | a :: p', b :: l' => Ascii.eqb a b && starts_with p' l'
  | _ :: _, [] => false
  end.

(** [s.indexOf(p)], counting from [i]: the position of the first occurrence
    of [p], [None] for [-1]. *)
Fixpoint indexOf (p : list ascii) (i : nat) (l : list ascii) : option nat :=
  if starts_with p l then Some i
  else match l with
       | [] => None
       | _ :: t => indexOf p (S i) t
       end.

(** [s.slice(n)] for [n] not negative. *)
Definition slice (n : nat) (s : string) : string := str (skipn n (chars s)).

(** What the [onload] callback of [fileToBase64NoPrefix] resolves with, for
    the [reader.result] text [res]. *)
Definition strip_data_prefix (res : string) : string :=
  match indexOf (chars "base64,") 0 (chars res) with
  | Some idx => slice (idx + 7) res
  | None => res
  end.

(** [fileToBase64NoPrefix(file)], given what reading the file gives: the data
    URL, or [None] when the reader reports an error and the promise rejects. *)
Definition fileToBase64NoPrefix (read : option string) : option string :=
  option_map strip_data_prefix read.

(** The text [FileReader.readAsDataURL] produces for a file of media type
    [mime] whose content encodes to [payload]. *)
Definition data_url (mime payload : string) : string :=
  "data:" ++ mime ++ ";base64," ++ payload.

(** ** Picked files and their names *)

(** The cells [files] and [filePreviewNames]. *)
Record Picked := {
  picked : list File;
  filePreviewNames : list string
}.

Definition no_files : Picked := {| picked := []; filePreviewNames := [] |}.

(** [onFilesPicked(e)], for the list of [e.target.files]. *)
Definition onFilesPicked (list : list File) (_ : Picked) : Picked :=
  {| picked := list; filePreviewNames := map f_name list |}.

(** [removeFileAtIndex(i)] *)
Definition removeFileAtIndex (i : nat) (p : Picked) : Picked :=
  {| picked := filteri (fun idx _ => negb (Nat.eqb idx i)) 0 (picked p);
     filePreviewNames :=
       filteri (fun idx _ => negb (Nat.eqb idx i)) 0 (filePreviewNames p) |}.

Inductive FileEvent :=
| FilesPicked (list : list File)
| RemoveFileClicked (i : nat).

Definition file_event (p : Picked) (e : FileEvent) : Picked :=
  match e with
  | FilesPicked list => onFilesPicked list p
  | RemoveFileClicked i => removeFileAtIndex i p
  end.

(** ** The lines, as the form drives them *)

(** What the user can do to the lines: the Add button, typing in a field of
    line [i], and the Remove button of line [i]. *)
Inductive LineEvent :=
| AddClicked
| FieldChanged (i : nat) (key : LineKey) (val : string)
| RemoveClicked (i : nat).

(** The Remove buttons are rendered with [disabled={lines.length === 1}],
    and a disabled button dispatches no click. *)
Definition line_event (s : State) (e : LineEvent) : State :=
  match e with
  | AddClicked => addLine s
  | FieldChanged i key val => updateLine i key val s
  | RemoveClicked i =>
      if Nat.eqb (List.length (lines s)) 1 then s else removeLine i s
  end.

(** ** The effect on the selected patient *)

(** The effect that follows a change of [selectedPatientIdx]: the values it
    stores in [abhaOptions] and [selectedAbha]. *)
Definition abha_effect (h : Host) (s : State) : list NormalizedAddress * string :=
  match selectedPatient s with
  | None => ([], "")
  | Some p =>
      let abhas := normalizeAbhaAddresses h (Some p) in
      (abhas, match abhas with a :: _ => value a | [] => "" end)
  end.

End AppHandlers.

(* ================================================================== *)
(** * [src/invoice-record-2.js]: handlers outside the build *)
(* ================================================================== *)

Module Record2Handlers.

Import Js JsNum Gen Fhir Input Record2.
Local Open Scope string_scope.

(** [e.target.result.split(",")[1]] of [handleFileChange]: [None] is
    [undefined]. *)
Definition data_of_result (result : string) : option string :=
  nth_error (split "," result) 1.

(** The [onChange] of the patient select, for the index [v] it computes
    ([None] for the empty option): it stores the index and clears the ABHA
    address. *)
Definition onPatientChange (v : option nat) (s : State) : State :=
  {| patients := patients s; selectedPatientIdx := v; selectedAbha := "";
     practitioner := practitioner s; organization := organization s;
     invoiceNumber := invoiceNumber s; invoiceDate := invoiceDate s;
     invoiceType := invoiceType s; paymentTerms := paymentTerms s;
     paymentStatus := paymentStatus s; lineItems := lineItems s;
     totalNet := totalNet s; totalTax := totalTax s; totalGross := totalGross s;
     attachments := attachments s |}.

End Record2Handlers.

(* ================================================================== *)
(** * The form of an amount text *)
(* ================================================================== *)


(* ================================================================== *)
(** * Array fields *)
(* ================================================================== *)

(** An optional array field that is present and empty. *)
Definition empty_array {A} (o : option (list A)) : bool :=
  match o with Some [] => true | _ => false end.

(** The record has an array field that is present and empty, among the
    fields modelled as arrays: the author, attester, section and section
    entries of a Composition, the identifier and telecom of a Patient, the
    line items of an Invoice and the content of a DocumentReference. *)
Definition has_empty_array (r : Fhir.Resource) : bool :=
  match r with
  | Fhir.RComposition c =>
      match Fhir.comp_author c, Fhir.comp_attester c, Fhir.comp_section c with
      | _ :: _, _ :: _, _ :: _ =>
          existsb (fun s => empty_array (Fhir.sec_entry s)) (Fhir.comp_section c)
      | _, _, _ => true
      end
  | Fhir.RPatient p =>
      empty_array (Fhir.pat_identifier p) || empty_array (Fhir.pat_telecom p)
  | Fhir.RInvoice i => empty_array (Fhir.inv_lineItem i)
  | Fhir.RDocumentReference d =>
      match Fhir.dr_content d with [] => true | _ => false end
  | _ => false
  end.

(* ================================================================== *)
(** * Sample hosts and states *)
(* ================================================================== *)

Module Samples.

Import Js JsNum Gen Fhir Input.
Local Open Scope string_scope.

(** A host whose random values cycle through the sixteen nibbles, with a
    fixed clock, no generic date parser and a code-unit [localeCompare]. *)
Definition host : Host :=
  {| random_nibble := fun n => n * 7 + 3;
     offset_now := fun _ => "2025-08-30T15:04:05+05:30";
     iso_now := fun _ => "2025-08-30T09:34:05.000Z";
     millis_now := fun _ => "1756546445000";
     offset_of_local := fun s => s ++ ":00+05:30";
     date_parse := fun _ => None;
     localeCompare := fun a b =>
       match String.compare a b with Lt => (-1)%Z | Eq => 0%Z | Gt => 1%Z end |}.

Definition asha : PatientRecord :=
  {| p_id := Some "7"; p_name := Some "Asha Rao"; p_gender := Some "Female";
     p_dob := Some "05-08-1990"; p_mobile := Some "9000000000"; p_email := None;
     p_address := None; p_user_ref_id := None; p_mrn := None;
     p_abha_ref := Some "asha@abdm";
     p_additional_abha_addresses :=
       FieldArray [ItemObject (Some "a") false "{}"; ItemObject (Some "b") true "{}"];
     p_abha_addresses := None |}.

(** The JSON text of [{ address, isPrimary }]. *)
Definition quoted (s : string) : string :=
  String (ascii_of_nat 34) (s ++ String (ascii_of_nat 34) "").

Definition address_object (a : string) (isPrimary : bool) : AbhaItem :=
  ItemObject (Some a) isPrimary
    ("{" ++ quoted "address" ++ ":" ++ quoted a ++ "," ++ quoted "isPrimary" ++ ":"
     ++ (if isPrimary then "true" else "false") ++ "}").

(** A patient whose address list is the one given. *)
Definition patient_with (items : list AbhaItem) : PatientRecord :=
  {| p_id := Some "8"; p_name := Some "Ravi Kumar"; p_gender := None;
     p_dob := None; p_mobile := None; p_email := None; p_address := None;
     p_user_ref_id := None; p_mrn := None; p_abha_ref := None;
     p_additional_abha_addresses := FieldArray items; p_abha_addresses := None |}.

Definition globals : AppJs.Globals :=
  {| AppJs.practitionerRefId := "3a18f6c9-fc52-4b8e-8a74-0d3609cf258b";
     AppJs.practitionerDisplayName := "Dr. ABC";
     AppJs.practitionerLicense := "LIC-TEMP-0001" |}.

(** An [App.js] state that passes validation: one patient, the initial
    line, no file. *)
Definition app_state : AppJs.State :=
  {| AppJs.patients := [asha]; AppJs.selectedPatientIdx := 0;
     AppJs.selectedAbha := "b"; AppJs.status := "final";
     AppJs.title := "Invoice Record"; AppJs.dateTimeLocal := "2025-08-30T15:04";
     AppJs.encounterText := "OPD visit"; AppJs.custodianName := "City Hospital";
     AppJs.attesterMode := "professional"; AppJs.attesterPartyType := "Organization";
     AppJs.attesterOrgName := "City Hospital"; AppJs.lines := AppJs.initial_lines;
     AppJs.files := [] |}.

(** An [App.js] state with no patient selected, no billable line and no
    file. *)
Definition app_state_empty : AppJs.State :=
  {| AppJs.patients := []; AppJs.selectedPatientIdx := (-1);
     AppJs.selectedAbha := ""; AppJs.status := "final";
     AppJs.title := "Invoice Record"; AppJs.dateTimeLocal := "2025-08-30T15:04";
     AppJs.encounterText := ""; AppJs.custodianName := "";
     AppJs.attesterMode := "professional"; AppJs.attesterPartyType := "Practitioner";
     AppJs.attesterOrgName := "";
     AppJs.lines :=
       [{| AppJs.description := ""; AppJs.quantity := AppJs.VStr "2";
           AppJs.unitPrice := AppJs.VNum 0 |}];
     AppJs.files := [] |}.

Definition line (q u t : float) : Record2.LineItem :=
  {| Record2.li_id := "5c3a18f6-d4b2-4907-a5c3-a18f6d4b2907";
     Record2.li_description := "Dressing"; Record2.li_quantity := q;
     Record2.li_unit := "each"; Record2.li_unitPrice := u;
     Record2.li_taxPercent := t |}.

(** An [invoice-record-2.js] state with the given line items, total fields
    and attachments. *)
Definition record2_state (items : list Record2.LineItem) (net tax gross : string)
  (atts : list Record2.AttachmentInput) : Record2.State :=
  {| Record2.patients := [asha]; Record2.selectedPatientIdx := Some 0;
     Record2.selectedAbha := "b";
     Record2.practitioner :=
       {| Record2.pi_id := "3a18f6c9-fc52-4b8e-8a74-0d3609cf258b";
          Record2.pi_name := "Dr. ABC"; Record2.pi_license := "LIC-1234" |};
     Record2.organization :=
       {| Record2.oi_id := "7e5c3a18-f6d4-4b29-87e5-c3a18f6d4b29";
          Record2.oi_name := "Default Hospital"; Record2.oi_gstin := "";
          Record2.oi_phone := ""; Record2.oi_address := "" |};
     Record2.invoiceNumber := "INV-1"; Record2.invoiceDate := "2025-08-30";
     Record2.invoiceType := "healthcare"; Record2.paymentTerms := "";
     Record2.paymentStatus := "pending"; Record2.lineItems := items;
     Record2.totalNet := net; Record2.totalTax := tax; Record2.totalGross := gross;
     Record2.attachments := atts |}.

(** The two sample builds. *)
Definition app_result : AppJs.BuildResult :=
  run (AppJs.onBuildBundle host globals app_state) world0.

Definition record2_result : option Bundle :=
  run (Record2.buildBundle host
         (record2_state [line 1 500 0] "" "" ""
            [{| Record2.ai_id := "907e5c3a-18f6-4d4b-a907-e5c3a18f6d4b";
                Record2.ai_name := "bill.pdf";
                Record2.ai_contentType := "application/pdf";
                Record2.ai_data := "JVBERi0xLjQK" |}]))
      world0.

End Samples.

(** Further sample inputs. *)
Module MoreSamples.

Import Js JsNum Gen Fhir Input.
Local Open Scope string_scope.

(** 30 August 2025, 15:04:05, in a zone five and a half hours ahead of UTC. *)
Definition date : AppHandlers.DateFields :=
  {| AppHandlers.getFullYear := 2025; AppHandlers.getMonth := 7;
     AppHandlers.getDate := 30; AppHandlers.getHours := 15;
     AppHandlers.getMinutes := 4; AppHandlers.getSeconds := 5;
     AppHandlers.getTimezoneOffset := -330 |}.

(** The module constants of [App.js] when the page defines no practitioner,
    and the world once they are computed. *)
Definition loaded_globals : AppJs.Globals :=
  run (AppJs.load_globals Samples.host None) world0.

Definition world_after_load : World :=
  snd (AppJs.load_globals Samples.host None world0).

(** A build of [App.js] with those constants and one picked file. *)
Definition app_state_with_file : AppJs.State :=
  {| AppJs.patients := [Samples.asha]; AppJs.selectedPatientIdx := 0;
     AppJs.selectedAbha := "b"; AppJs.status := "final";
     AppJs.title := "Invoice Record"; AppJs.dateTimeLocal := "2025-08-30T15:04";
     AppJs.encounterText := ""; AppJs.custodianName := "City Hospital";
     AppJs.attesterMode := "legal"; AppJs.attesterPartyType := "Organization";
     AppJs.attesterOrgName := "";
     AppJs.lines :=
       [ {| AppJs.description := "Consultation"; AppJs.quantity := AppJs.VStr "2";
            AppJs.unitPrice := AppJs.VStr "250.5" |};
         {| AppJs.description := "Void"; AppJs.quantity := AppJs.VStr "0";
            AppJs.unitPrice := AppJs.VStr "10" |} ];
     AppJs.files :=
       [{| AppJs.f_name := "bill.pdf"; AppJs.f_type := "application/pdf";
           AppJs.f_data := Some "JVBERi0xLjQK" |}] |}.

Definition app_result_with_file : AppJs.BuildResult :=
  run (AppJs.onBuildBundle Samples.host loaded_globals app_state_with_file)
    world_after_load.

Definition attachment (id name : string) : Record2.AttachmentInput :=
  {| Record2.ai_id := id; Record2.ai_name := name;
     Record2.ai_contentType := "application/pdf"; Record2.ai_data := "JVBERi0xLjQK" |}.

(** A build of [invoice-record-2.js] with two attachments and a net total
    field that holds a single space. *)
Definition record2_blank_net : Record2.State :=
  Samples.record2_state [Samples.line 1 500 0] " " "" ""
    [ attachment "907e5c3a-18f6-4d4b-a907-e5c3a18f6d4b" "bill.pdf";
      attachment "18f6d4b2-907e-4c3a-98f6-d4b2907e5c3a" "scan.pdf" ].

Definition record2_result_blank_net : option Bundle :=
  run (Record2.buildBundle Samples.host record2_blank_net) world0.

(** Two line items with distinct identifiers. *)
Definition two_lines : list Record2.LineItem :=
  [ Samples.line 1 500 0;
    {| Record2.li_id := "d4b2907e-5c3a-48f6-94b2-907e5c3a18f6";
       Record2.li_description := ""; Record2.li_quantity := 1;
       Record2.li_unit := "each"; Record2.li_unitPrice := 0;
       Record2.li_taxPercent := 0 |} ].

(** A patient with an [abha_ref] that is not in the address list, and a
    list that repeats a value. *)
Definition repeated_items : list AbhaItem :=
  [ Samples.address_object "b" false; ItemFalsy; ItemString "a"; ItemString "";
    Samples.address_object "b" true; ItemOther "c"; ItemString "a" ].

Definition patient_with_ref : PatientRecord :=
  {| p_id := Some "9"; p_name := Some "Zoya Khan"; p_gender := None;
     p_dob := None; p_mobile := None; p_email := None; p_address := None;
     p_user_ref_id := None; p_mrn := None; p_abha_ref := Some "z@abdm";
     p_additional_abha_addresses := FieldArray repeated_items;
     p_abha_addresses := None |}.

(** A patient whose [additional_attributes.abha_addresses] is the text
    [asha@abdm] and not an array. *)
Definition patient_text_addresses : PatientRecord :=
  {| p_id := Some "10"; p_name := Some "Asha Rao"; p_gender := None;
     p_dob := None; p_mobile := None; p_email := None; p_address := None;
     p_user_ref_id := None; p_mrn := None; p_abha_ref := None;
     p_additional_abha_addresses := FieldNotArray;
     p_abha_addresses := None |}.

(** A host whose [Math.random] returns the same value at every call, so that
    every [uuidv4()] gives the same identifier. *)
Definition constant_host : Host :=
  {| random_nibble := fun _ => 0;
     offset_now := offset_now Samples.host;
     iso_now := iso_now Samples.host;
     millis_now := millis_now Samples.host;
     offset_of_local := offset_of_local Samples.host;
     date_parse := date_parse Samples.host;
     localeCompare := localeCompare Samples.host |}.

End MoreSamples.

(* ================================================================== *)
(** * Properties *)
(* ================================================================== *)

Import Js JsNum Gen Fhir Input.

(** The proofs below never look inside the identifier generator or the
    decimal conversions. *)
Opaque Gen.uuidv4 JsNum.StringToNumber JsNum.toFixed2.

(** ** Running a computation step by step *)

Lemma run_bind {A B} (m : M A) (k : A -> M B) (w : World) :
  bind m k w = k (fst (m w)) (snd (m w)).
Proof. unfold bind. destruct (m w); reflexivity. Qed.

Lemma mapM_length {A B} (f : A -> M B) (l : list A) (w : World) :
  List.length (fst (mapM f l w)) = List.length l.
Proof.
  revert w; induction l as [|x t IH]; intros w; simpl; [reflexivity|].
  rewrite !run_bind. simpl. now rewrite IH.
Qed.

(** ** Line items of [invoice-record-2.js] stay non-empty *)

Section LineItems.

Import Record2.

Lemma filter_other_ids (id : string) (s : list LineItem) :
  ~ In id (map li_id s) ->
  filter (fun li => negb (String.eqb (li_id li) id)) s = s.
Proof.
  induction s as [|x t IH]; simpl; intros Hn; [reflexivity|].
  destruct (String.eqb_spec (li_id x) id) as [E|E]; simpl.
  - exfalso. apply Hn. now left.
  - f_equal. apply IH. intros Hin. apply Hn. now right.
Qed.

(** Removing by identifier drops at most one item of a list whose
    identifiers are distinct. *)
Lemma filter_drops_at_most_one (id : string) (s : list LineItem) :
  NoDup (map li_id s) ->
  List.length s <= S (List.length (filter (fun li => negb (String.eqb (li_id li) id)) s)).
Proof.
  induction s as [|x t IH]; simpl; intros Hnd; [lia|].
  inversion Hnd as [|? ? Hx Ht]; subst.
  destruct (String.eqb_spec (li_id x) id) as [E|E]; simpl.
  - subst id. rewrite filter_other_ids by assumption. lia.
  - specialize (IH Ht). lia.
Qed.

Lemma removeLineItem_keeps_one (id : string) (s : list LineItem) :
  NoDup (map li_id s) -> 1 <= List.length s ->
  1 <= List.length (removeLineItem id s).
Proof.
  intros Hnd Hlen. unfold removeLineItem.
  destruct (Nat.leb_spec (List.length s) 1) as [Hle|Hgt]; [assumption|].
  pose proof (filter_drops_at_most_one id s Hnd). lia.
Qed.

Lemma removeLineItem_single (id : string) (s : list LineItem) :
  List.length s = 1 -> removeLineItem id s = s.
Proof. intros H. unfold removeLineItem. now rewrite H. Qed.

Lemma apply_action_keeps_one (h : Host) (a : Action) (s : list LineItem) (w : World) :
  NoDup (map li_id s) -> 1 <= List.length s ->
  1 <= List.length (fst (apply_action h a s w)).
Proof.
  intros Hnd Hlen. destruct a as [|id patch|id]; simpl.
  - unfold addLineItem. rewrite run_bind. simpl. rewrite length_app. simpl. lia.
  - unfold updateLineItem. now rewrite length_map.
  - now apply removeLineItem_keeps_one.
Qed.

End LineItems.

(** C9, as the code has it.  In [invoice-record-2.js] [removeLineItem]
    applied to a list of exactly one element returns it unchanged, and after
    every sequence of [addLineItem], [updateLineItem] and [removeLineItem]
    calls from the initial one-item state along which the identifiers of the
    items stay pairwise distinct, the list has at least one element.  Items
    are removed by identifier, so the condition on the identifiers is needed:
    [uuidv4] draws them from [Math.random] and nothing in the code keeps two
    draws apart. *)
Theorem lineItems_never_empty (h : Host) (acts : list Record2.Action)
  (id0 : string) (w : World)
  (Hdistinct : Record2.distinct_ids_along h acts (Record2.initial_lineItems id0) w) :
  (forall id s, List.length s = 1 -> Record2.removeLineItem id s = s) /\
  1 <= List.length (run (Record2.run_actions h acts (Record2.initial_lineItems id0)) w).
Proof.
  split; [intros id s; apply removeLineItem_single|].
  assert (Hinit : 1 <= List.length (Record2.initial_lineItems id0)) by (simpl; lia).
  revert Hdistinct Hinit. generalize (Record2.initial_lineItems id0) as s. revert w.
  induction acts as [|a t IH]; intros w s Hd Hlen; simpl in *.
  - exact Hlen.
  - destruct Hd as [Hnd Hrest]. unfold run. rewrite run_bind.
    pose proof (apply_action_keeps_one h a s w Hnd Hlen) as Hstep.
    destruct (Record2.apply_action h a s w) as [s' w']. simpl in *.
    apply (IH w' s' Hrest Hstep).
Qed.

(** Distinct concrete strings. *)
Ltac distinct_strings :=
  repeat (apply NoDup_cons; [simpl; intuition discriminate|]); apply NoDup_nil.

Lemma lineItems_never_empty_witness :
  let acts :=
    [ Record2.AddLineItem;
      Record2.RemoveLineItem "00000000-0000-4000-8000-000000000000";
      Record2.RemoveLineItem "3a18f6d4-b290-47e5-83a1-8f6d4b2907e5";
      Record2.RemoveLineItem "00000000-0000-4000-8000-000000000000" ] in
  (forall id s, List.length s = 1 -> Record2.removeLineItem id s = s) /\
  1 <= List.length
         (run (Record2.run_actions Samples.host acts
                 (Record2.initial_lineItems "00000000-0000-4000-8000-000000000000"))
              world0).
Proof.
  apply (lineItems_never_empty Samples.host _ "00000000-0000-4000-8000-000000000000" world0).
  vm_compute. repeat split; distinct_strings.
Defined.

(** C9 fails as stated: the list can become empty.  When [Math.random]
    returns the same value at every call, the item that [addLineItem]
    appends has the identifier of the initial item, and [removeLineItem] on
    that identifier, the list having two elements, filters both out. *)
Lemma lineItems_emptied_by_repeated_id :
  let h := MoreSamples.constant_host in
  let id0 := run (Record2.uuidv4 h) world0 in
  let w := snd (Record2.uuidv4 h world0) in
  let initial := Record2.initial_lineItems id0 in
  id0 = "00000000-0000-4000-8000-000000000000"%string
  /\ map Record2.li_id (run (Record2.run_actions h [Record2.AddLineItem] initial) w)
     = [id0; id0]
  /\ run (Record2.run_actions h [Record2.AddLineItem; Record2.RemoveLineItem id0] initial) w
     = []
  /\ List.length
       (run (Record2.run_actions h [Record2.AddLineItem; Record2.RemoveLineItem id0]
               initial) w) = 0.
Proof. vm_compute. repeat split. Qed.

(** ** The pre-build validator of [App.js] *)

Lemma hasCharge_false (s : AppJs.State) :
  Forall (fun l => (zero <? AppJs.line_amount l)%float = false) (AppJs.lines s) ->
  AppJs.hasCharge s = false.
Proof.
  unfold AppJs.hasCharge. induction 1 as [|l t Hl _ IH]; simpl; [reflexivity|].
  now rewrite Hl, IH.
Qed.

(** C8. For every state of [App.js] with no selected patient, no line whose
    [quantity * unitPrice] is positive and no file, [validateBeforeBuild]
    lists both the missing-patient and the nothing-to-bill message, and
    [onBuildBundle] stops with exactly that list: no identifier is drawn, no
    clock is read and no bundle is assembled. *)
Theorem validation_refuses_empty_input (h : Host) (g : AppJs.Globals)
  (s : AppJs.State) (w : World)
  (Hpatient : AppJs.selectedPatient s = None)
  (Hlines : Forall (fun l => (zero <? AppJs.line_amount l)%float = false) (AppJs.lines s))
  (Hfiles : AppJs.files s = []) :
  In AppJs.err_patient (AppJs.validateBeforeBuild s) /\
  In AppJs.err_content (AppJs.validateBeforeBuild s) /\
  AppJs.onBuildBundle h g s w = (AppJs.Refused (AppJs.validateBeforeBuild s), w).
Proof.
  pose proof (hasCharge_false s Hlines) as Hc.
  assert (Hv : AppJs.validateBeforeBuild s =
               AppJs.err_patient ::
               (AppJs.push_if (negb (truthy (AppJs.status s))) AppJs.err_status
                ++ AppJs.push_if (negb (truthy (AppJs.title s))
                                  || negb (truthy (trim (AppJs.title s)))) AppJs.err_title
                ++ [AppJs.err_content])).
  { unfold AppJs.validateBeforeBuild, AppJs.hasDocs.
    rewrite Hpatient, Hc, Hfiles. reflexivity. }
  split; [|split].
  - rewrite Hv. now left.
  - rewrite Hv. right. rewrite !in_app_iff. right. right. now left.
  - unfold AppJs.onBuildBundle. rewrite Hv. reflexivity.
Qed.

Lemma validation_refuses_empty_input_witness :
  In AppJs.err_patient (AppJs.validateBeforeBuild Samples.app_state_empty) /\
  In AppJs.err_content (AppJs.validateBeforeBuild Samples.app_state_empty) /\
  AppJs.onBuildBundle Samples.host Samples.globals Samples.app_state_empty world0 =
  (AppJs.Refused (AppJs.validateBeforeBuild Samples.app_state_empty), world0).
Proof.
  apply (validation_refuses_empty_input Samples.host Samples.globals
           Samples.app_state_empty world0).
  - reflexivity.
  - repeat constructor.
  - reflexivity.
Defined.

(** ** The shape of a bundle built by [App.js] *)

(** One step of a computation in a hypothesis: name the result and the world
    after it. *)
Ltac step_in H :=
  match type of H with
  | context [let (_, _) := ?m in _] =>
      let a := fresh "a" in
      let w := fresh "w" in
      let E := fresh "E" in
      destruct m as [a w] eqn:E; cbv beta iota in H
  end.

Section AppBundle.

Import AppJs.

Lemma buildEncounterResource_shape (h : Host) (encounterId : option string)
  (patientId : string) (w : World) :
  exists n,
    fst (buildEncounterResource h encounterId patientId w)
    = option_map (encounter_of h patientId n) encounterId.
Proof.
  destruct encounterId as [eid|]; simpl.
  - exists (clock_reads w). reflexivity.
  - exists 0. reflexivity.
Qed.

(** What [onBuildBundle] submits: the entries, in terms of the identifiers
    drawn for the build. *)
Lemma onBuildBundle_submitted (h : Host) (g : Globals) (s : State) (w : World)
  (b : Bundle) :
  run (onBuildBundle h g s) w = Submitted b ->
  validateBeforeBuild s = [] /\
  exists compId patientId practitionerId invoiceId authoredOn
         encounterId custodianId attesterOrgId docBinaryIds docRefIds n
         binaries docRefs,
    List.length docBinaryIds = List.length (toProcess s) /\
    List.length docRefIds = List.length docBinaryIds /\
    buildDocs patientId authoredOn (toProcess s) docBinaryIds docRefIds
      = Some (binaries, docRefs) /\
    entry b =
      [ entry_of (RComposition
                    (buildComposition g s compId patientId practitionerId invoiceId
                       authoredOn encounterId custodianId attesterOrgId docRefs));
        entry_of (RPatient (buildPatientResource s patientId));
        entry_of (RPractitioner
                    (buildPractitionerResource practitionerId
                       (practitionerDisplayName g) (practitionerLicense g)));
        entry_of (RInvoice
                    (buildInvoiceResource g s invoiceId patientId practitionerId
                       authoredOn)) ]
      ++ map (fun e => entry_of (REncounter e))
           (opt_list (option_map (encounter_of h patientId n) encounterId))
      ++ map (fun o => entry_of (ROrganization o))
           (opt_list (buildOrg custodianId (custodianName s)))
      ++ map (fun o => entry_of (ROrganization o))
           (opt_list (buildOrg attesterOrgId (attesterOrgName s)))
      ++ map (fun dr => entry_of (RDocumentReference dr)) docRefs
      ++ map (fun x => entry_of (RBinary x)) binaries.
Proof.
  unfold run, onBuildBundle.
  destruct (validateBeforeBuild s) as [|e es] eqn:Hv; [|discriminate].
  intros H. split; [reflexivity|].
  unfold bind in H.
  repeat step_in H.
  destruct (buildDocAndBinaryResources s a1 a a7 a8) as [[binaries docRefs]|] eqn:Hdocs;
    [|discriminate].
  repeat step_in H.
  cbv [ret fst] in H. injection H as <-.
  destruct (buildEncounterResource_shape h a3 a1 w9) as [n Hn].
  rewrite E9 in Hn. cbn [fst] in Hn. subst a9.
  exists a0, a1, a2, a6, a, a3, a4, a5, a7, a8, n, binaries, docRefs.
  split; [|split; [|split]].
  - pose proof (mapM_length (fun _ : option File => uuidv4 h) (toProcess s) w7) as L.
    now rewrite E7 in L.
  - pose proof (mapM_length (fun _ : string => uuidv4 h) a7 w8) as L.
    now rewrite E8 in L.
  - exact Hdocs.
  - reflexivity.
Qed.

End AppBundle.

(** ** The shape of a bundle built by [invoice-record-2.js] *)

Section Record2Bundle.

Import Record2.

Lemma mapM_docRef_shape (h : Host) (atts : list AttachmentInput) (w : World) :
  fst (mapM (attachment_docRef h) atts w) = mapi (docRef_of h) (clock_reads w) atts.
Proof.
  revert w. induction atts as [|att t IH]; intros w; [reflexivity|].
  cbn [mapM mapi]. rewrite run_bind. rewrite run_bind. cbn [ret fst].
  rewrite IH. reflexivity.
Qed.

Lemma in_mapi {A B} (f : nat -> A -> B) (l : list A) (i : nat) (y : B) :
  In y (mapi f i l) -> exists j x, In x l /\ y = f j x.
Proof.
  revert i. induction l as [|x t IH]; intros i H; [destruct H|].
  destruct H as [<-|H].
  - exists i, x. split; [now left|reflexivity].
  - destruct (IH _ H) as (j & x' & Hx & ->). exists j, x'. split; [now right|reflexivity].
Qed.

Lemma map_mapi {A B C} (g : B -> C) (f : nat -> A -> B) (k : A -> C) (l : list A) :
  (forall j x, g (f j x) = k x) -> forall i, map g (mapi f i l) = map k l.
Proof.
  intros H. induction l as [|x t IH]; intros i; [reflexivity|].
  cbn [mapi map]. now rewrite H, IH.
Qed.

(** What [buildBundle] returns: the entries, the references of the
    Composition and of the Invoice, and the Invoice's totals. *)
Lemma buildBundle_built (h : Host) (s : State) (w : World) (b : Bundle) :
  run (buildBundle h s) w = Some b ->
  exists (compId patientId practId orgId invoiceId : string)
         (inv : Invoice) (comp : Composition) (pat : Patient)
         (pr : Practitioner) (org : Organization) (n0 : nat),
    entry b =
      [ entry_of compId (RComposition comp);
        entry_of patientId (RPatient pat);
        entry_of practId (RPractitioner pr);
        entry_of orgId (ROrganization org);
        entry_of invoiceId (RInvoice inv) ]
      ++ map (fun br => entry_of (bin_id br) (RBinary br))
           (map attachment_binary (attachments s))
      ++ map (fun dr => entry_of (dr_id dr) (RDocumentReference dr))
           (mapi (docRef_of h) n0 (attachments s)) /\
    inv_id inv = invoiceId /\ comp_id comp = compId /\ pat_id pat = patientId /\
    pr_id pr = practId /\ org_id org = orgId /\
    resource_refs (RComposition comp)
      = [urn patientId; urn practId; urn practId; urn invoiceId] /\
    resource_refs (RInvoice inv) = [urn patientId; urn patientId; urn orgId] /\
    inv_totalNet inv
      = round2 (reconcile (totalNet s)
                  (computedNet (mapi processedLineItem 0 (lineItems s)))) /\
    inv_totalGross inv
      = round2 (reconcile (totalGross s)
                  (computedNet (mapi processedLineItem 0 (lineItems s))
                   + computedTax (mapi processedLineItem 0 (lineItems s)))%float).
Proof.
  unfold run, buildBundle.
  destruct (selectedPatientIdx s) as [idx|] eqn:Hidx; [|discriminate].
  destruct (nth_error (patients s) idx) as [selPatient|] eqn:Hsel; [|discriminate].
  destruct (negb (truthy (selectedAbha s))) eqn:Habha; [discriminate|].
  intros H. unfold bind in H.
  repeat step_in H.
  cbv [ret fst] in H. injection H as <-.
  match goal with
  | E : mapM (attachment_docRef h) _ ?w' = (?l, _) |- _ =>
      pose proof (mapM_docRef_shape h (attachments s) w') as Hd;
      rewrite E in Hd; cbn [fst] in Hd; subst l
  end.
  do 5 eexists. do 6 eexists.
  split; [reflexivity|]. repeat split; reflexivity.
Qed.

End Record2Bundle.

(** ** Locators and references *)

Lemma Forall_map_entry {A} (P : Entry -> Prop) (f : A -> Entry) (l : list A) :
  (forall x, P (f x)) -> Forall P (map f l).
Proof. intros H. apply Forall_forall. intros e He. apply in_map_iff in He.
  destruct He as [x [<- _]]. apply H. Qed.

Lemma app_locators (h : Host) (g : AppJs.Globals) (s : AppJs.State) (w : World)
  (b : Bundle) :
  run (AppJs.onBuildBundle h g s) w = AppJs.Submitted b -> locators_ok b.
Proof.
  intros H. apply onBuildBundle_submitted in H.
  destruct H as [_ (compId & patientId & practitionerId & invoiceId & authoredOn
    & encounterId & custodianId & attesterOrgId & docBinaryIds & docRefIds & n
    & binaries & docRefs & _ & _ & _ & He)].
  unfold locators_ok. rewrite He.
  repeat (apply Forall_app; split);
    try (apply Forall_map_entry; intros; reflexivity).
  repeat constructor.
Qed.

Lemma record2_locators (h : Host) (s : Record2.State) (w : World) (b : Bundle) :
  run (Record2.buildBundle h s) w = Some b -> locators_ok b.
Proof.
  intros H. apply buildBundle_built in H.
  destruct H as (compId & patientId & practId & orgId & invoiceId & inv & comp
    & pat & pr & org & n0 & He & Hinv & Hcomp & Hpat & Hpr & Horg & _).
  unfold locators_ok. rewrite He.
  repeat (apply Forall_app; split);
    try (apply Forall_map_entry; intros; reflexivity).
  repeat constructor; unfold Record2.entry_of; cbn [fullUrl resource resource_id];
    congruence.
Qed.

(** C1. For every bundle produced by a build of either component, every
    entry's [fullUrl] is ["urn:uuid:"] followed by the [id] of the entry's
    resource. *)
Theorem entry_locator_is_urn_of_id (h : Host) (w : World) (b : Bundle)
  (Hbuilt : produced h w b) :
  Forall (fun e => fullUrl e = ("urn:uuid:" ++ resource_id (resource e))%string)
         (entry b).
Proof.
  destruct Hbuilt as [(g & s & H)|(s & H)].
  - exact (app_locators h g s w b H).
  - exact (record2_locators h s w b H).
Qed.

Lemma entry_locator_is_urn_of_id_witness :
  of_app_result Samples.app_result
    (fun b => Forall (fun e => fullUrl e
                               = ("urn:uuid:" ++ resource_id (resource e))%string)
                     (entry b))
  /\ of_record2_result Samples.record2_result
       (fun b => Forall (fun e => fullUrl e
                                  = ("urn:uuid:" ++ resource_id (resource e))%string)
                        (entry b)).
Proof.
  split.
  - destruct Samples.app_result as [errs| |b] eqn:E;
      [vm_compute in E; discriminate E | vm_compute in E; discriminate E|].
    apply (entry_locator_is_urn_of_id Samples.host world0 b).
    left. exists Samples.globals, Samples.app_state. exact E.
  - destruct Samples.record2_result as [b|] eqn:E; [|vm_compute in E; discriminate E].
    apply (entry_locator_is_urn_of_id Samples.host world0 b).
    right. eexists. exact E.
Defined.

(** ** No dangling reference *)

Section References.

Import AppJs.

(** The documents built by [buildDocs] refer to the patient and to the
    binaries built with them, and to nothing else. *)
Lemma buildDocs_refs (patientId authoredOn : string) (fs : list (option File))
  (binIds docIds : list string) (binaries : list Binary)
  (docRefs : list DocumentReference) :
  buildDocs patientId authoredOn fs binIds docIds = Some (binaries, docRefs) ->
  forall dr r, In dr docRefs -> In r (resource_refs (RDocumentReference dr)) ->
  r = urn patientId \/ exists x, In x binaries /\ r = urn (bin_id x).
Proof.
  revert binIds docIds binaries docRefs.
  induction fs as [|f fs' IH]; intros binIds docIds binaries docRefs H dr r Hdr Hr.
  - simpl in H. injection H as <- <-. destruct Hdr.
  - destruct binIds as [|binId binIds']; [simpl in H; injection H as <- <-; destruct Hdr|].
    destruct docIds as [|docId docIds']; [simpl in H; injection H as <- <-; destruct Hdr|].
    simpl in H.
    destruct (doc_payload f) as [[[contentType dataB64] titleDoc]|]; [|discriminate].
    destruct (buildDocs patientId authoredOn fs' binIds' docIds')
      as [[binaries' docRefs']|] eqn:E; [|discriminate].
    injection H as <- <-.
    destruct Hdr as [<-|Hdr].
    + simpl in Hr. destruct Hr as [<-|[<-|[]]].
      * now left.
      * right. eexists. split; [left; reflexivity|reflexivity].
    + destruct (IH _ _ _ _ E dr r Hdr Hr) as [->|(x & Hx & ->)].
      * now left.
      * right. exists x. split; [now right|reflexivity].
Qed.

(** The references of the Composition built by [buildComposition]. *)
Lemma buildComposition_refs (g : Globals) (s : State)
  (compId patientId practitionerId invoiceId authoredOn : string)
  (encounterId custodianId attesterOrgId : option string)
  (docRefs : list DocumentReference) (r : string) :
  In r (resource_refs
          (RComposition
             (buildComposition g s compId patientId practitionerId invoiceId
                authoredOn encounterId custodianId attesterOrgId docRefs))) ->
  r = urn patientId \/ r = urn practitionerId \/ r = urn invoiceId
  \/ (exists eid, encounterId = Some eid /\ r = urn eid)
  \/ (exists cid, custodianId = Some cid /\ r = urn cid)
  \/ (exists oid, attesterOrgId = Some oid /\ r = urn oid)
  \/ (exists dr, In dr docRefs /\ r = urn (dr_id dr)).
Proof.
  unfold buildComposition, resource_refs.
  cbn [comp_subject comp_encounter comp_author comp_attester comp_custodian
       comp_section].
  rewrite !map_app, !in_app_iff. intros [H|[H|[H|[H|[H|H]]]]].
  - simpl in H. destruct H as [<-|[]]. now left.
  - destruct encounterId as [eid|]; simpl in H; [|destruct H].
    destruct H as [<-|[]]. right; right; right; left. now exists eid.
  - simpl in H. destruct H as [<-|[]]. right; now left.
  - destruct (String.eqb (attesterPartyType s) "Practitioner").
    + simpl in H. destruct H as [<-|[]]. right; now left.
    + destruct attesterOrgId as [oid|].
      * destruct (String.eqb (attesterPartyType s) "Organization");
          simpl in H; destruct H as [<-|[]].
        -- do 5 right. left. now exists oid.
        -- right; now left.
      * simpl in H. destruct H as [<-|[]]. right; now left.
  - destruct custodianId as [cid|]; simpl in H; [|destruct H].
    destruct H as [<-|[]]. do 4 right. left. now exists cid.
  - simpl in H. rewrite app_nil_r in H. destruct H as [<-|H].
    + right; right; now left.
    + rewrite map_map in H. apply in_map_iff in H. destruct H as (dr & <- & Hdr).
      do 6 right. now exists dr.
Qed.

End References.

Ltac member :=
  rewrite ?in_app_iff; simpl; auto 12 using in_map.

Lemma app_no_dangling (h : Host) (g : AppJs.Globals) (s : AppJs.State) (w : World)
  (b : Bundle) :
  run (AppJs.onBuildBundle h g s) w = AppJs.Submitted b -> no_dangling b.
Proof.
  intros H. apply onBuildBundle_submitted in H.
  destruct H as [_ (compId & patientId & practitionerId & invoiceId & authoredOn
    & encounterId & custodianId & attesterOrgId & docBinaryIds & docRefIds & n
    & binaries & docRefs & _ & _ & Hdocs & He)].
  assert (Hids : entry_ids b =
    [compId; patientId; practitionerId; invoiceId]
    ++ map enc_id (opt_list (option_map (AppJs.encounter_of h patientId n) encounterId))
    ++ map org_id (opt_list (AppJs.buildOrg custodianId (AppJs.custodianName s)))
    ++ map org_id (opt_list (AppJs.buildOrg attesterOrgId (AppJs.attesterOrgName s)))
    ++ map dr_id docRefs ++ map bin_id binaries).
  { unfold entry_ids. rewrite He, !map_app, !map_map. reflexivity. }
  intros e r Hin Hr. rewrite Hids. rewrite He in Hin. clear He Hids.
  rewrite !in_app_iff in Hin.
  destruct Hin as [Hin|[Hin|[Hin|[Hin|[Hin|Hin]]]]].
  - simpl in Hin. destruct Hin as [<-|[<-|[<-|[<-|[]]]]].
    + apply buildComposition_refs in Hr.
      destruct Hr as [->|[->|[->|[(eid & -> & ->)|[(cid & -> & ->)|[(oid & -> & ->)
        |(dr & Hdr & ->)]]]]]]; eexists; (split; [|reflexivity]); member.
    + destruct Hr.
    + destruct Hr.
    + simpl in Hr. destruct Hr as [<-|[<-|[]]]; eexists; (split; [|reflexivity]); member.
  - apply in_map_iff in Hin. destruct Hin as (enc & <- & Henc).
    destruct encounterId as [eid|]; simpl in Henc; [|destruct Henc].
    destruct Henc as [<-|[]]. simpl in Hr. destruct Hr as [<-|[]].
    eexists; (split; [|reflexivity]); member.
  - apply in_map_iff in Hin. destruct Hin as (o & <- & _). destruct Hr.
  - apply in_map_iff in Hin. destruct Hin as (o & <- & _). destruct Hr.
  - apply in_map_iff in Hin. destruct Hin as (dr & <- & Hdr).
    destruct (buildDocs_refs _ _ _ _ _ _ _ Hdocs dr r Hdr Hr) as [->|(x & Hx & ->)];
      eexists; (split; [|reflexivity]); member.
  - apply in_map_iff in Hin. destruct Hin as (x & <- & _). destruct Hr.
Qed.

Lemma record2_no_dangling (h : Host) (s : Record2.State) (w : World) (b : Bundle) :
  run (Record2.buildBundle h s) w = Some b -> no_dangling b.
Proof.
  intros H. apply buildBundle_built in H.
  destruct H as (compId & patientId & practId & orgId & invoiceId & inv & comp
    & pat & pr & org & n0 & He & Hinv & Hcomp & Hpat & Hpr & Horg & Hrc & Hri & _).
  assert (Hids : entry_ids b =
    [compId; patientId; practId; orgId; invoiceId]
    ++ map Record2.ai_id (Record2.attachments s)
    ++ map (fun att => ("doc-" ++ Record2.ai_id att)%string) (Record2.attachments s)).
  { unfold entry_ids. rewrite He, !map_app, !map_map. cbn [map].
    unfold Record2.entry_of. cbn [resource resource_id].
    rewrite Hinv, Hcomp, Hpat, Hpr, Horg.
    rewrite (map_mapi _ _ (fun att => ("doc-" ++ Record2.ai_id att)%string))
      by reflexivity.
    reflexivity. }
  intros e r Hin Hr. rewrite Hids. rewrite He in Hin. clear He Hids.
  rewrite !in_app_iff in Hin. destruct Hin as [Hin|[Hin|Hin]].
  - simpl in Hin. destruct Hin as [<-|[<-|[<-|[<-|[<-|[]]]]]];
      cbn [Record2.entry_of resource] in Hr.
    + rewrite Hrc in Hr. simpl in Hr.
      destruct Hr as [<-|[<-|[<-|[<-|[]]]]]; eexists; (split; [|reflexivity]); member.
    + destruct Hr.
    + destruct Hr.
    + destruct Hr.
    + rewrite Hri in Hr. simpl in Hr.
      destruct Hr as [<-|[<-|[<-|[]]]]; eexists; (split; [|reflexivity]); member.
  - rewrite map_map in Hin. apply in_map_iff in Hin. destruct Hin as (x & <- & _).
    destruct Hr.
  - apply in_map_iff in Hin. destruct Hin as (dr & <- & Hdr).
    apply in_mapi in Hdr. destruct Hdr as (j & att & Hatt & ->).
    simpl in Hr. destruct Hr as [<-|[]].
    exists (Record2.ai_id att). split; [|reflexivity].
    rewrite !in_app_iff. right. left. now apply in_map.
Qed.

(** C2. For every bundle produced by a build of either component, every
    reference embedded in a record (the Composition's subject, encounter,
    author, attester parties, custodian and section entries; the Invoice's
    subject, recipient, issuer and participants; the Encounter's subject; a
    DocumentReference's subject and attachment URL) is ["urn:uuid:"]
    followed by the [id] of a record among the bundle's entries. *)
Theorem references_resolve (h : Host) (w : World) (b : Bundle)
  (Hbuilt : produced h w b) :
  forall e r, In e (entry b) -> In r (resource_refs (resource e)) ->
  exists id, In id (map (fun e' => resource_id (resource e')) (entry b))
             /\ r = ("urn:uuid:" ++ id)%string.
Proof.
  destruct Hbuilt as [(g & s & H)|(s & H)].
  - exact (app_no_dangling h g s w b H).
  - exact (record2_no_dangling h s w b H).
Qed.

Lemma references_resolve_witness :
  of_app_result Samples.app_result
    (fun b => forall e r, In e (entry b) -> In r (resource_refs (resource e)) ->
       exists id, In id (map (fun e' => resource_id (resource e')) (entry b))
                  /\ r = ("urn:uuid:" ++ id)%string)
  /\ of_record2_result Samples.record2_result
       (fun b => forall e r, In e (entry b) -> In r (resource_refs (resource e)) ->
          exists id, In id (map (fun e' => resource_id (resource e')) (entry b))
                     /\ r = ("urn:uuid:" ++ id)%string).
Proof.
  split.
  - destruct Samples.app_result as [errs| |b] eqn:E;
      [vm_compute in E; discriminate E | vm_compute in E; discriminate E|].
    cbv beta iota delta [of_app_result].
    apply (references_resolve Samples.host world0 b).
    left. exists Samples.globals, Samples.app_state. exact E.
  - destruct Samples.record2_result as [b|] eqn:E; [|vm_compute in E; discriminate E].
    cbv beta iota delta [of_record2_result].
    apply (references_resolve Samples.host world0 b).
    right. eexists. exact E.
Defined.

(** ** Attachments *)

Lemma flat_map_map_nil {A B C} (f : B -> list C) (g : A -> B) (l : list A) :
  (forall x, f (g x) = []) -> flat_map f (map g l) = [].
Proof. intros H. induction l as [|x t IH]; simpl; [reflexivity|]. now rewrite H, IH. Qed.

Lemma flat_map_map_single {A B C} (f : B -> list C) (g : A -> B) (k : A -> C)
  (l : list A) :
  (forall x, f (g x) = [k x]) -> flat_map f (map g l) = map k l.
Proof. intros H. induction l as [|x t IH]; simpl; [reflexivity|]. now rewrite H, IH. Qed.

Section Attachments.

Import AppJs.

Lemma buildDocs_length (patientId authoredOn : string) (fs : list (option File))
  (binIds docIds : list string) (binaries : list Binary)
  (docRefs : list DocumentReference) :
  buildDocs patientId authoredOn fs binIds docIds = Some (binaries, docRefs) ->
  List.length binIds = List.length fs -> List.length docIds = List.length fs ->
  List.length binaries = List.length fs /\ List.length docRefs = List.length fs.
Proof.
  revert binIds docIds binaries docRefs.
  induction fs as [|f fs' IH]; intros binIds docIds binaries docRefs H Hb Hd.
  - simpl in H. injection H as <- <-. split; reflexivity.
  - destruct binIds as [|binId binIds']; [discriminate Hb|].
    destruct docIds as [|docId docIds']; [discriminate Hd|].
    simpl in H.
    destruct (doc_payload f) as [[[contentType dataB64] titleDoc]|]; [|discriminate].
    destruct (buildDocs patientId authoredOn fs' binIds' docIds')
      as [[binaries' docRefs']|] eqn:E; [|discriminate].
    injection H as <- <-. simpl in Hb, Hd |- *.
    destruct (IH _ _ _ _ E) as [H1 H2]; [lia|lia|]. split; lia.
Qed.

(** The attachments of a submitted bundle are the records [buildDocs]
    made. *)
Lemma app_attachments (h : Host) (g : Globals) (s : State) (w : World) (b : Bundle) :
  run (onBuildBundle h g s) w = Submitted b ->
  exists patientId authoredOn docBinaryIds docRefIds,
    List.length docBinaryIds = List.length (toProcess s) /\
    List.length docRefIds = List.length (toProcess s) /\
    buildDocs patientId authoredOn (toProcess s) docBinaryIds docRefIds
      = Some (bundle_binaries b, bundle_docRefs b).
Proof.
  intros H. apply onBuildBundle_submitted in H.
  destruct H as [_ (compId & patientId & practitionerId & invoiceId & authoredOn
    & encounterId & custodianId & attesterOrgId & docBinaryIds & docRefIds & n
    & binaries & docRefs & Hl1 & Hl2 & Hdocs & He)].
  exists patientId, authoredOn, docBinaryIds, docRefIds.
  split; [exact Hl1|]. split; [congruence|].
  unfold bundle_binaries, bundle_docRefs. rewrite He, !flat_map_app.
  cbn [flat_map entry_of resource app entry_binary entry_docRef].
  rewrite (flat_map_map_single entry_binary (fun x => entry_of (RBinary x))
             (fun x => x)) by reflexivity.
  rewrite (flat_map_map_single entry_docRef (fun x => entry_of (RDocumentReference x))
             (fun x => x)) by reflexivity.
  rewrite !map_id.
  rewrite !(flat_map_map_nil entry_binary) by reflexivity.
  rewrite !(flat_map_map_nil entry_docRef) by reflexivity.
  rewrite !app_nil_r. exact Hdocs.
Qed.

End Attachments.

Lemma toProcess_nonempty (s : AppJs.State) : 1 <= List.length (AppJs.toProcess s).
Proof.
  unfold AppJs.toProcess. destruct (AppJs.files s); simpl; lia.
Qed.

Lemma record2_attachments (h : Host) (s : Record2.State) (w : World) (b : Bundle) :
  run (Record2.buildBundle h s) w = Some b ->
  exists n0,
    bundle_binaries b = map Record2.attachment_binary (Record2.attachments s) /\
    bundle_docRefs b = mapi (Record2.docRef_of h) n0 (Record2.attachments s).
Proof.
  intros H. apply buildBundle_built in H.
  destruct H as (compId & patientId & practId & orgId & invoiceId & inv & comp
    & pat & pr & org & n0 & He & _).
  unfold bundle_binaries, bundle_docRefs. rewrite He, !flat_map_app.
  cbn [flat_map Record2.entry_of resource app entry_binary entry_docRef].
  rewrite (flat_map_map_single entry_binary
             (fun x => Record2.entry_of (bin_id x) (RBinary x)) (fun x => x))
    by reflexivity.
  rewrite (flat_map_map_single entry_docRef
             (fun x => Record2.entry_of (dr_id x) (RDocumentReference x)) (fun x => x))
    by reflexivity.
  rewrite !map_id.
  rewrite !(flat_map_map_nil entry_binary) by reflexivity.
  rewrite !(flat_map_map_nil entry_docRef) by reflexivity.
  rewrite !app_nil_r. exists n0. split; reflexivity.
Qed.

(** C5, as the code has it.  In [App.js] every submitted bundle holds at
    least one Binary and as many DocumentReferences as Binaries; when no
    file was picked it holds exactly one Binary, the placeholder PDF
    ([application/pdf], the fixed data), and exactly one DocumentReference,
    titled [placeholder.pdf], of the same content type, whose attachment URL
    is the Binary's locator.  In [invoice-record-2.js] the bundle holds one
    Binary and one DocumentReference per attachment of the state and no
    placeholder: none of either when there is no attachment. *)
Theorem attachments_of_bundle (h : Host) (w : World) :
  (forall g s b,
     run (AppJs.onBuildBundle h g s) w = AppJs.Submitted b ->
     1 <= List.length (bundle_binaries b) /\
     List.length (bundle_docRefs b) = List.length (bundle_binaries b) /\
     (AppJs.files s = [] ->
      exists binId docId subject date,
        bundle_binaries b =
          [{| bin_id := binId; bin_contentType := "application/pdf";
              bin_data := AppJs.PLACEHOLDER_PDF_B64 |}] /\
        bundle_docRefs b =
          [{| dr_id := docId; dr_status := "current";
              dr_type_text := "Invoice document"; dr_subject := Some subject;
              dr_date := Some date;
              dr_content :=
                [{| at_contentType := Some "application/pdf"%string;
                    at_title := "placeholder.pdf"; at_url := urn binId;
                    at_creation := None |}] |}]))
  /\
  (forall s b,
     run (Record2.buildBundle h s) w = Some b ->
     bundle_binaries b = map Record2.attachment_binary (Record2.attachments s) /\
     (exists n0,
        bundle_docRefs b = mapi (Record2.docRef_of h) n0 (Record2.attachments s)) /\
     (Record2.attachments s = [] -> bundle_binaries b = [] /\ bundle_docRefs b = [])).
Proof.
  split.
  - intros g s b H. apply app_attachments in H.
    destruct H as (patientId & authoredOn & binIds & docIds & Hb & Hd & Hdocs).
    destruct (buildDocs_length _ _ _ _ _ _ _ Hdocs Hb Hd) as [L1 L2].
    pose proof (toProcess_nonempty s) as Hne.
    split; [lia|]. split; [lia|].
    intros Hfiles. unfold AppJs.toProcess in Hb, Hd, Hdocs. rewrite Hfiles in *.
    destruct binIds as [|binId [|]]; try discriminate Hb.
    destruct docIds as [|docId [|]]; try discriminate Hd.
    simpl in Hdocs. injection Hdocs as <- <-.
    exists binId, docId, (mkRef (urn patientId)), authoredOn. split; reflexivity.
  - intros s b H. destruct (record2_attachments h s w b H) as (n0 & Hb & Hd).
    split; [exact Hb|]. split; [exists n0; exact Hd|].
    intros Hnil. rewrite Hb, Hd, Hnil. split; reflexivity.
Qed.

(** C5 fails as stated: a bundle of [invoice-record-2.js] built with no
    attachment holds no Binary and no DocumentReference. *)
Lemma record2_has_no_placeholder :
  of_record2_result
    (run (Record2.buildBundle Samples.host
            (Samples.record2_state [Samples.line 1 500 0] "" "" "" []))
         world0)
    (fun b => bundle_binaries b = [] /\ bundle_docRefs b = []).
Proof. vm_compute. split; reflexivity. Qed.

Lemma attachments_of_bundle_witness :
  of_app_result Samples.app_result
    (fun b =>
       1 <= List.length (bundle_binaries b) /\
       exists binId docId subject date,
         bundle_binaries b =
           [{| bin_id := binId; bin_contentType := "application/pdf";
               bin_data := AppJs.PLACEHOLDER_PDF_B64 |}] /\
         bundle_docRefs b =
           [{| dr_id := docId; dr_status := "current";
               dr_type_text := "Invoice document"; dr_subject := Some subject;
               dr_date := Some date;
               dr_content :=
                 [{| at_contentType := Some "application/pdf"%string;
                     at_title := "placeholder.pdf"; at_url := urn binId;
                     at_creation := None |}] |}])
  /\ of_record2_result Samples.record2_result
       (fun b => List.length (bundle_binaries b) = 1
                 /\ List.length (bundle_docRefs b) = 1).
Proof.
  split.
  - destruct Samples.app_result as [errs| |b] eqn:E;
      [vm_compute in E; discriminate E | vm_compute in E; discriminate E|].
    cbv beta iota delta [of_app_result].
    destruct (proj1 (attachments_of_bundle Samples.host world0)
                Samples.globals Samples.app_state b E) as (H1 & _ & H3).
    split; [exact H1|]. apply H3. reflexivity.
  - destruct Samples.record2_result as [b|] eqn:E; [|vm_compute in E; discriminate E].
    cbv beta iota delta [of_record2_result].
    destruct (proj2 (attachments_of_bundle Samples.host world0) _ b E)
      as (H1 & (n0 & H2) & _).
    rewrite H1, H2. split; reflexivity.
Defined.

(** ** Totals *)

Section Totals.

(** The one Invoice of a bundle submitted by [App.js] and its totals. *)
Lemma app_invoice (h : Host) (g : AppJs.Globals) (s : AppJs.State) (w : World)
  (b : Bundle) :
  run (AppJs.onBuildBundle h g s) w = AppJs.Submitted b ->
  exists inv, bundle_invoices b = [inv] /\
    inv_totalNet inv = round2 (AppJs.invoiceTotal s) /\
    inv_totalGross inv = round2 (AppJs.invoiceTotal s).
Proof.
  intros H. apply onBuildBundle_submitted in H.
  destruct H as [_ (compId & patientId & practitionerId & invoiceId & authoredOn
    & encounterId & custodianId & attesterOrgId & docBinaryIds & docRefIds & n
    & binaries & docRefs & _ & _ & _ & He)].
  eexists. split.
  - unfold bundle_invoices. rewrite He, !flat_map_app.
    cbn [flat_map AppJs.entry_of resource app entry_invoice].
    rewrite !(flat_map_map_nil entry_invoice) by reflexivity.
    reflexivity.
  - split; reflexivity.
Qed.

(** The one Invoice of a bundle returned by [buildBundle] and its totals. *)
Lemma record2_invoice (h : Host) (s : Record2.State) (w : World) (b : Bundle) :
  run (Record2.buildBundle h s) w = Some b ->
  exists inv, bundle_invoices b = [inv] /\
    inv_totalNet inv
      = round2 (Record2.reconcile (Record2.totalNet s)
                  (Record2.computedNet
                     (mapi Record2.processedLineItem 0 (Record2.lineItems s)))) /\
    inv_totalGross inv
      = round2 (Record2.reconcile (Record2.totalGross s)
                  (Record2.computedNet
                     (mapi Record2.processedLineItem 0 (Record2.lineItems s))
                   + Record2.computedTax
                       (mapi Record2.processedLineItem 0 (Record2.lineItems s)))%float).
Proof.
  intros H. apply buildBundle_built in H.
  destruct H as (compId & patientId & practId & orgId & invoiceId & inv & comp
    & pat & pr & org & n0 & He & _ & _ & _ & _ & _ & _ & _ & Hn & Hg).
  exists inv. split; [|split; assumption].
  unfold bundle_invoices. rewrite He, !flat_map_app.
  cbn [flat_map Record2.entry_of resource app entry_invoice].
  rewrite !(flat_map_map_nil entry_invoice) by reflexivity.
  reflexivity.
Qed.

Lemma truthy_nonempty (o : string) : truthy o = negb (String.eqb o "").
Proof. destruct o; reflexivity. Qed.

End Totals.

(** C4, as the code has it.  In [invoice-record-2.js] each emitted figure is
    reconciled on its own: the override text is used when it is not empty
    and [Number] of it is not [NaN] (so an infinite override is used too),
    and otherwise the computed figure, rounded to two decimals, is used.
    The computed gross is the computed net plus the computed tax whatever
    the overrides are: no figure is corrected from another.  (The tax figure
    is reconciled the same way but is not written to the Invoice.) *)
Theorem override_used_unless_NaN (h : Host) (s : Record2.State) (w : World)
  (b : Bundle) (Hbuilt : run (Record2.buildBundle h s) w = Some b) :
  let items := mapi Record2.processedLineItem 0 (Record2.lineItems s) in
  let net := Record2.computedNet items in
  let gross := (net + Record2.computedTax items)%float in
  let final (override : string) (computed : float) :=
    if negb (String.eqb override "") && negb (is_nan (StringToNumber override))
    then StringToNumber override
    else StringToNumber (toFixed2 computed) in
  exists inv, bundle_invoices b = [inv] /\
    inv_totalNet inv
      = StringToNumber (toFixed2 (final (Record2.totalNet s) net)) /\
    inv_totalGross inv
      = StringToNumber (toFixed2 (final (Record2.totalGross s) gross)).
Proof.
  intros items net gross final.
  destruct (record2_invoice h s w b Hbuilt) as (inv & Hi & Hn & Hg).
  exists inv. split; [exact Hi|].
  subst final. cbv beta. rewrite <- !truthy_nonempty.
  split; [exact Hn|exact Hg].
Qed.

Lemma override_used_unless_NaN_witness :
  of_record2_result
    (run (Record2.buildBundle Samples.host
            (Samples.record2_state [Samples.line 1 500 0] "1200.50" "" "abc" []))
         world0)
    (fun b =>
       exists inv, bundle_invoices b = [inv] /\
         inv_totalNet inv = StringToNumber "1200.50" /\
         inv_totalGross inv = StringToNumber "500.00").
Proof.
  destruct (run (Record2.buildBundle Samples.host
                   (Samples.record2_state [Samples.line 1 500 0] "1200.50" "" "abc" []))
                world0) as [b|] eqn:E; [|vm_compute in E; discriminate E].
  cbv beta iota delta [of_record2_result].
  destruct (override_used_unless_NaN Samples.host _ world0 b E) as (inv & Hi & Hn & Hg).
  exists inv. split; [exact Hi|]. split.
  - rewrite Hn. vm_compute. reflexivity.
  - rewrite Hg. vm_compute. reflexivity.
Defined.

(** C4 fails as stated: the override ["Infinity"] does not parse as a finite
    number, the computed net is 500, and the Invoice carries an infinite
    [totalNet]. *)
Lemma infinite_override_is_used :
  is_finite (StringToNumber "Infinity") = false /\
  Record2.computedNet
    (mapi Record2.processedLineItem 0 [Samples.line 1 500 0]) = 500%float /\
  of_record2_result
    (run (Record2.buildBundle Samples.host
            (Samples.record2_state [Samples.line 1 500 0] "Infinity" "" "" []))
         world0)
    (fun b => map inv_totalNet (bundle_invoices b) = [infinity]).
Proof. vm_compute. repeat split; reflexivity. Qed.

Section ComputedTotals.

Import Record2.

Lemma component_value_base (i : nat) (li : LineItem) :
  component_value "base" (processedLineItem i li) = or_zero (round2 (line_base li)).
Proof. reflexivity. Qed.

Lemma component_value_tax (i : nat) (li : LineItem) :
  component_value "tax" (processedLineItem i li)
  = if (zero <? line_tax li)%float then or_zero (round2 (line_tax li)) else zero.
Proof.
  unfold component_value, processedLineItem. cbn [il_priceComponent].
  destruct (zero <? line_tax li)%float; reflexivity.
Qed.

Lemma fold_mapi_processed (f : string) (g : LineItem -> float) (l : list LineItem) :
  (forall i li, component_value f (processedLineItem i li) = g li) ->
  forall i acc,
    fold_left (fun s it => (s + component_value f it)%float)
      (mapi processedLineItem i l) acc
    = fold_left (fun s li => (s + g li)%float) l acc.
Proof.
  intros Hg. induction l as [|li t IH]; intros i acc; [reflexivity|].
  cbn [mapi fold_left]. rewrite Hg. apply IH.
Qed.

(** The computed net is the sum of the lines' rounded base amounts, and the
    computed tax the sum of the rounded tax amounts of the lines that have a
    positive tax. *)
Lemma computedNet_sum (l : list LineItem) :
  computedNet (mapi processedLineItem 0 l)
  = fold_left (fun s li => (s + or_zero (round2 (line_base li)))%float) l zero.
Proof. apply fold_mapi_processed. apply component_value_base. Qed.

Lemma computedTax_sum (l : list LineItem) :
  computedTax (mapi processedLineItem 0 l)
  = fold_left
      (fun s li =>
         (s + (if (zero <? line_tax li)%float
               then or_zero (round2 (line_tax li)) else zero))%float) l zero.
Proof. apply fold_mapi_processed. apply component_value_tax. Qed.

Lemma truthy_append (a b : string) : truthy b = true -> truthy (a ++ b) = true.
Proof. destruct a; [trivial|reflexivity]. Qed.

Transparent JsNum.toFixed2.

(** [toFixed(2)] never yields the empty string. *)
Lemma toFixed2_truthy (x : float) : truthy (toFixed2 x) = true.
Proof.
  unfold toFixed2. destruct (Prim2SF x) as [sg|sg| |sg m e]; try reflexivity.
  - destruct sg; reflexivity.
  - assert (Hb : truthy
        (if (1e21 <=? abs x)%float
         then toString_large (abs x) (Z.pos m * 2 ^ e)
         else fixed2_digits (scaled_hundredths (Z.pos m) e)) = true).
    { destruct (1e21 <=? abs x)%float.
      - unfold toString_large.
        destruct (strip_trailing_zeros _) as [|d [|d' rest]]; reflexivity.
      - unfold fixed2_digits. apply truthy_append. reflexivity. }
    destruct sg; [reflexivity|exact Hb].
Qed.

Opaque JsNum.toFixed2.

(** An override text produced by [toFixed(2)] is used whenever it reads back
    as a number. *)
Lemma reconcile_toFixed2 (x computed : float) :
  is_nan (round2 x) = false -> reconcile (toFixed2 x) computed = round2 x.
Proof.
  intros Hn. unfold reconcile, isNaN. fold (round2 x).
  now rewrite toFixed2_truthy, Hn.
Qed.

End ComputedTotals.

(** C3, as the code has it.
    - [App.js] models no tax: the Invoice's [totalNet] and [totalGross] are
      both the sum of [quantity * unitPrice] over the lines, rounded to two
      decimals.
    - In [invoice-record-2.js], when the total fields hold what the
      auto-compute effect stored (and these read back as numbers), [totalNet]
      is the rounded sum of [quantity * unitPrice] and [totalGross] is the
      rounded sum of the unrounded net and tax sums, where the tax sum adds
      [quantity * unitPrice * (taxPercent / 100)] over the lines: each figure
      is rounded on its own, so the gross need not be the rounded net plus the
      rounded tax.
    - When the total fields are empty, [totalNet] is computed from the
      per-line amounts already rounded to two decimals, and [totalGross] from
      these and the rounded tax amounts of the lines with a positive tax.
    Every emitted figure goes through [toFixed(2)] once more. *)
Theorem totals_of_invoice (h : Host) (w : World) :
  (forall g s b,
     run (AppJs.onBuildBundle h g s) w = AppJs.Submitted b ->
     let total :=
       fold_left
         (fun sum l =>
            (sum + or_zero (AppJs.Number (AppJs.quantity l))
                   * or_zero (AppJs.Number (AppJs.unitPrice l)))%float)
         (AppJs.lines s) zero in
     exists inv, bundle_invoices b = [inv] /\
       inv_totalNet inv = round2 total /\ inv_totalGross inv = round2 total)
  /\
  (forall s b,
     run (Record2.buildBundle h (Record2.after_effect s)) w = Some b ->
     let amount li :=
       (or_zero (Record2.li_quantity li) * or_zero (Record2.li_unitPrice li))%float in
     let base :=
       fold_left (fun acc li => (acc + amount li)%float) (Record2.lineItems s) zero in
     let tax :=
       fold_left
         (fun acc li =>
            (acc + amount li * (or_zero (Record2.li_taxPercent li) / 100))%float)
         (Record2.lineItems s) zero in
     is_nan (round2 base) = false -> is_nan (round2 (base + tax)) = false ->
     exists inv, bundle_invoices b = [inv] /\
       inv_totalNet inv = round2 (round2 base) /\
       inv_totalGross inv = round2 (round2 (base + tax)))
  /\
  (forall s b,
     run (Record2.buildBundle h s) w = Some b ->
     Record2.totalNet s = ""%string -> Record2.totalGross s = ""%string ->
     let amount li :=
       (or_zero (Record2.li_quantity li) * or_zero (Record2.li_unitPrice li))%float in
     let line_tax li :=
       (amount li * (or_zero (Record2.li_taxPercent li) / 100))%float in
     let net :=
       fold_left (fun acc li => (acc + or_zero (round2 (amount li)))%float)
         (Record2.lineItems s) zero in
     let tax :=
       fold_left
         (fun acc li =>
            (acc + (if (zero <? line_tax li)%float
                    then or_zero (round2 (line_tax li)) else zero))%float)
         (Record2.lineItems s) zero in
     exists inv, bundle_invoices b = [inv] /\
       inv_totalNet inv = round2 (round2 net) /\
       inv_totalGross inv = round2 (round2 (net + tax))).
Proof.
  split; [|split].
  - intros g s b H total. exact (app_invoice h g s w b H).
  - intros s b H amount base tax Hn Hg.
    destruct (record2_invoice h _ w b H) as (inv & Hi & Hnet & Hgross).
    exists inv. split; [exact Hi|].
    unfold Record2.after_effect, Record2.auto_totals in Hnet, Hgross.
    cbn [Record2.totalNet Record2.totalGross Record2.lineItems] in Hnet, Hgross.
    rewrite reconcile_toFixed2 in Hnet by exact Hn.
    rewrite reconcile_toFixed2 in Hgross by exact Hg.
    split; [exact Hnet|exact Hgross].
  - intros s b H Hn Hg amount line_tax net tax.
    destruct (record2_invoice h s w b H) as (inv & Hi & Hnet & Hgross).
    exists inv. split; [exact Hi|].
    rewrite Hn in Hnet. rewrite Hg in Hgross.
    rewrite computedNet_sum in Hnet, Hgross. rewrite computedTax_sum in Hgross.
    split; [exact Hnet|exact Hgross].
Qed.

Lemma totals_of_invoice_witness :
  of_app_result Samples.app_result
    (fun b => exists inv, bundle_invoices b = [inv] /\
       inv_totalNet inv = 500%float /\ inv_totalGross inv = 500%float)
  /\ of_record2_result
       (run (Record2.buildBundle Samples.host
               (Record2.after_effect
                  (Samples.record2_state [Samples.line 2 10.25 50] "" "" "" [])))
            world0)
       (fun b => exists inv, bundle_invoices b = [inv] /\
          inv_totalNet inv = 20.5%float /\ inv_totalGross inv = 30.75%float)
  /\ of_record2_result
       (run (Record2.buildBundle Samples.host
               (Samples.record2_state [Samples.line 2 10.25 50] "" "" "" []))
            world0)
       (fun b => exists inv, bundle_invoices b = [inv] /\
          inv_totalNet inv = 20.5%float /\ inv_totalGross inv = 30.75%float).
Proof.
  split; [|split].
  - destruct Samples.app_result as [errs| |b] eqn:E;
      [vm_compute in E; discriminate E | vm_compute in E; discriminate E|].
    cbv beta iota delta [of_app_result].
    destruct (proj1 (totals_of_invoice Samples.host world0)
                Samples.globals Samples.app_state b E) as (inv & Hi & Hn & Hg).
    exists inv. split; [exact Hi|]. split.
    + rewrite Hn. vm_compute. reflexivity.
    + rewrite Hg. vm_compute. reflexivity.
  - destruct (run (Record2.buildBundle Samples.host
                     (Record2.after_effect
                        (Samples.record2_state [Samples.line 2 10.25 50] "" "" "" [])))
                  world0) as [b|] eqn:E; [|vm_compute in E; discriminate E].
    cbv beta iota delta [of_record2_result].
    destruct (proj1 (proj2 (totals_of_invoice Samples.host world0)) _ b E)
      as (inv & Hi & Hn & Hg); [vm_compute; reflexivity|vm_compute; reflexivity|].
    exists inv. split; [exact Hi|]. split.
    + rewrite Hn. vm_compute. reflexivity.
    + rewrite Hg. vm_compute. reflexivity.
  - destruct (run (Record2.buildBundle Samples.host
                     (Samples.record2_state [Samples.line 2 10.25 50] "" "" "" []))
                  world0) as [b|] eqn:E; [|vm_compute in E; discriminate E].
    cbv beta iota delta [of_record2_result].
    destruct (proj2 (proj2 (totals_of_invoice Samples.host world0)) _ b E)
      as (inv & Hi & Hn & Hg); [reflexivity|reflexivity|].
    exists inv. split; [exact Hi|]. split.
    + rewrite Hn. vm_compute. reflexivity.
    + rewrite Hg. vm_compute. reflexivity.
Defined.

(** C3 fails as stated.  Two lines of half a unit at 0.25 add up to 0.25,
    yet with no override the Invoice of [invoice-record-2.js] carries a
    [totalNet] of 0.26, the sum of the two amounts each rounded to 0.13; and
    for one such line taxed at 100 percent the auto-compute effect stores net
    0.13, tax 0.13 and gross 0.25, which is not their sum. *)
Lemma net_is_not_the_rounded_sum :
  let items := [Samples.line 0.5 0.25 0; Samples.line 0.5 0.25 0] in
  round2 (fold_left
            (fun acc li => (acc + Record2.li_quantity li * Record2.li_unitPrice li)%float)
            items zero)
  = StringToNumber "0.25"
  /\ of_record2_result
       (run (Record2.buildBundle Samples.host
               (Samples.record2_state items "" "" "" []))
            world0)
       (fun b => map inv_totalNet (bundle_invoices b) = [StringToNumber "0.26"])
  /\ Record2.auto_totals [Samples.line 0.5 0.25 100]
     = ("0.13", "0.13", "0.25")%string.
Proof. vm_compute. repeat split; reflexivity. Qed.

(** ** Date normalisation *)

Section Dates.

Lemma chars_str (l : list ascii) : chars (str l) = l.
Proof. apply list_ascii_of_string_of_list_ascii. Qed.

Lemma str_chars (s : string) : str (chars s) = s.
Proof. apply string_of_list_ascii_of_string. Qed.

Lemma digit_not_space (c : ascii) : is_digit c = true -> is_space c = false.
Proof.
  unfold is_digit, is_space. intros H. apply andb_true_iff in H. destruct H as [H1 H2].
  apply N.leb_le in H1. apply N.leb_le in H2.
  destruct (N.leb_spec 9 (code c)), (N.leb_spec (code c) 13),
    (N.eqb_spec (code c) 32), (N.eqb_spec (code c) 160); simpl; try reflexivity; lia.
Qed.

Lemma digit_not_sep (c : ascii) : is_digit c = true -> Record2.is_sep c = false.
Proof.
  unfold is_digit, Record2.is_sep. intros H. apply andb_true_iff in H.
  destruct H as [H1 H2]. apply N.leb_le in H1. apply N.leb_le in H2.
  destruct (Ascii.eqb_spec c "-") as [->|_]; [unfold code in H1; simpl in H1; lia|].
  destruct (Ascii.eqb_spec c "/") as [->|_]; [unfold code in H1; simpl in H1; lia|].
  reflexivity.
Qed.

Lemma sep_not_digit (c : ascii) : Record2.is_sep c = true -> is_digit c = false.
Proof.
  intros H. destruct (is_digit c) eqn:E; [|reflexivity].
  apply digit_not_sep in E. congruence.
Qed.

(** [span_digits] splits a run of digits from what follows it. *)
Lemma span_digits_app (ds : list ascii) (c : ascii) (rest : list ascii) :
  all_digits ds = true -> is_digit c = false ->
  span_digits (ds ++ c :: rest) = (ds, c :: rest).
Proof.
  intros Hds Hc. induction ds as [|x t IH]; simpl.
  - now rewrite Hc.
  - simpl in Hds. apply andb_true_iff in Hds. destruct Hds as [Hx Ht].
    rewrite Hx, (IH Ht). reflexivity.
Qed.

Lemma span_digits_all (ds : list ascii) :
  all_digits ds = true -> span_digits ds = (ds, []).
Proof.
  intros Hds. induction ds as [|x t IH]; simpl; [reflexivity|].
  simpl in Hds. apply andb_true_iff in Hds. destruct Hds as [Hx Ht].
  rewrite Hx, (IH Ht). reflexivity.
Qed.

(** What [span_digits] returns, read backwards. *)
Lemma span_digits_inv (l g r : list ascii) :
  span_digits l = (g, r) ->
  l = g ++ r /\ all_digits g = true
  /\ match r with [] => True | c :: _ => is_digit c = false end.
Proof.
  revert g r. induction l as [|x t IH]; intros g r H; simpl in H.
  - injection H as <- <-. repeat split.
  - destruct (is_digit x) eqn:Hx.
    + destruct (span_digits t) as [d r'] eqn:E. injection H as <- <-.
      destruct (IH d r' eq_refl) as (-> & Hd & Hr).
      repeat split; [simpl; now rewrite Hx, Hd | exact Hr].
    + injection H as <- <-. repeat split. exact Hx.
Qed.

Lemma dmy_shape_parts (d : list ascii) (c1 : ascii) (m : list ascii) (c2 : ascii)
  (y : list ascii) :
  dmy_shape d c1 m c2 y = true ->
  all_digits d = true /\ all_digits m = true /\ all_digits y = true
  /\ Record2.between 1 2 d = true /\ Record2.between 1 2 m = true
  /\ Record2.between 2 4 y = true
  /\ Record2.is_sep c1 = true /\ Record2.is_sep c2 = true.
Proof.
  unfold dmy_shape. rewrite !andb_true_iff. tauto.
Qed.

(** The pattern of [toFhirDate] matches exactly the texts of that shape. *)
Lemma match_dmy_shape (d : list ascii) (c1 : ascii) (m : list ascii) (c2 : ascii)
  (y : list ascii) :
  dmy_shape d c1 m c2 y = true ->
  Record2.match_dmy (dmy_text d c1 m c2 y) = Some (str d, str m, str y).
Proof.
  intros H. apply dmy_shape_parts in H.
  destruct H as (Hd & Hm & Hy & Bd & Bm & By & S1 & S2).
  unfold Record2.match_dmy, dmy_text. rewrite chars_str.
  rewrite (span_digits_app d c1 _ Hd (sep_not_digit c1 S1)).
  rewrite (span_digits_app m c2 _ Hm (sep_not_digit c2 S2)).
  rewrite (span_digits_all y Hy).
  now rewrite S1, S2, Bd, Bm, By.
Qed.

Lemma match_dmy_inv (input : string) (g1 g2 g3 : string) :
  Record2.match_dmy input = Some (g1, g2, g3) ->
  exists d c1 m c2 y,
    dmy_shape d c1 m c2 y = true /\ input = dmy_text d c1 m c2 y
    /\ g1 = str d /\ g2 = str m /\ g3 = str y.
Proof.
  unfold Record2.match_dmy. intros H.
  destruct (span_digits (chars input)) as [d r1] eqn:E1.
  destruct r1 as [|c1 r1']; [discriminate|].
  destruct (span_digits r1') as [m r2] eqn:E2.
  destruct r2 as [|c2 r2']; [discriminate|].
  destruct (span_digits r2') as [y r3] eqn:E3.
  destruct r3; [|discriminate].
  destruct (Record2.is_sep c1 && Record2.is_sep c2 && Record2.between 1 2 d
            && Record2.between 1 2 m && Record2.between 2 4 y) eqn:C; [|discriminate].
  injection H as <- <- <-.
  apply span_digits_inv in E1. destruct E1 as (L1 & D1 & _).
  apply span_digits_inv in E2. destruct E2 as (L2 & D2 & _).
  apply span_digits_inv in E3. destruct E3 as (L3 & D3 & _).
  rewrite !andb_true_iff in C. destruct C as [[[[S1 S2] B1] B2] B3].
  exists d, c1, m, c2, y. repeat split.
  - unfold dmy_shape. now rewrite D1, D2, D3, B1, B2, B3, S1, S2.
  - unfold dmy_text. rewrite <- (str_chars input), L1, L2, L3, app_nil_r. reflexivity.
Qed.

Lemma dmy_not_iso (d : list ascii) (c1 : ascii) (m : list ascii) (c2 : ascii)
  (y : list ascii) :
  dmy_shape d c1 m c2 y = true -> is_iso_date (dmy_text d c1 m c2 y) = false.
Proof.
  intros H. apply dmy_shape_parts in H.
  destruct H as (_ & _ & _ & Bd & _ & _ & S1 & _).
  apply sep_not_digit in S1.
  unfold is_iso_date, dmy_text. rewrite chars_str.
  destruct d as [|a [|b [|c t]]]; try discriminate Bd;
    cbn [matches_classes in_class app]; rewrite S1;
    now rewrite ?andb_false_r.
Qed.

Lemma truthy_str (l : list ascii) : l <> [] -> truthy (str l) = true.
Proof. destruct l; [congruence|reflexivity]. Qed.

Lemma between_nonempty (lo hi : nat) (l : list ascii) :
  Record2.between (S lo) hi l = true -> l <> [].
Proof. destruct l; [discriminate|congruence]. Qed.

Lemma dmy_text_truthy (d : list ascii) (c1 : ascii) (m : list ascii) (c2 : ascii)
  (y : list ascii) : truthy (dmy_text d c1 m c2 y) = true.
Proof. unfold dmy_text. apply truthy_str. destruct d; discriminate. Qed.

Lemma length_str (l : list ascii) : String.length (str l) = List.length l.
Proof. induction l as [|c t IH]; simpl; [reflexivity|now rewrite IH]. Qed.

(** [toFhirDate] on a day-month-year text. *)
Lemma toFhirDate_dmy (h : Host) (d : list ascii) (c1 : ascii) (m : list ascii)
  (c2 : ascii) (y : list ascii) :
  dmy_shape d c1 m c2 y = true ->
  Record2.toFhirDate h (Some (dmy_text d c1 m c2 y))
  = Some ((if Nat.eqb (List.length y) 2 then "19" ++ str y else str y)
          ++ "-" ++ padStart2 (str m) ++ "-" ++ padStart2 (str d))%string.
Proof.
  intros H. unfold Record2.toFhirDate.
  rewrite dmy_text_truthy, (dmy_not_iso _ _ _ _ _ H), (match_dmy_shape _ _ _ _ _ H).
  cbn [negb]. now rewrite length_str.
Qed.

(** *** [ddmmyyyyToISO] of [App.js] *)

Lemma drop_while_head (p : ascii -> bool) (c : ascii) (t : list ascii) :
  p c = false -> drop_while p (c :: t) = c :: t.
Proof. intros H. simpl. now rewrite H. Qed.

(** A text that neither starts nor ends with white space is its own trim. *)
Lemma trim_id (a z : ascii) (t pre : list ascii) :
  a :: t = pre ++ [z] -> is_space a = false -> is_space z = false ->
  trim (str (a :: t)) = str (a :: t).
Proof.
  intros E Ha Hz. unfold trim. rewrite chars_str, (drop_while_head _ _ _ Ha).
  rewrite E, rev_app_distr. cbn [rev app]. rewrite (drop_while_head _ _ _ Hz).
  change (z :: rev pre) with ([z] ++ rev pre).
  now rewrite rev_app_distr, rev_involutive.
Qed.

Lemma all_digits_last (y : list ascii) :
  all_digits y = true -> y <> [] ->
  exists y' z, y = y' ++ [z] /\ is_digit z = true.
Proof.
  intros Hy Hne. destruct (exists_last Hne) as (y' & z & ->).
  exists y', z. split; [reflexivity|].
  unfold all_digits in Hy. rewrite forallb_app in Hy.
  apply andb_true_iff in Hy. destruct Hy as [_ Hz]. simpl in Hz.
  now rewrite andb_true_r in Hz.
Qed.

Lemma dmy_trim (d : list ascii) (c1 : ascii) (m : list ascii) (c2 : ascii)
  (y : list ascii) :
  dmy_shape d c1 m c2 y = true ->
  trim (dmy_text d c1 m c2 y) = dmy_text d c1 m c2 y.
Proof.
  intros H. apply dmy_shape_parts in H.
  destruct H as (Hd & _ & Hy & Bd & _ & By & _ & _).
  destruct (all_digits_last y Hy (between_nonempty _ _ _ By)) as (y' & z & -> & Hz).
  destruct d as [|a d']; [discriminate Bd|].
  simpl in Hd. apply andb_true_iff in Hd. destruct Hd as [Ha _].
  unfold dmy_text. cbn [app].
  apply (trim_id a z _ (a :: d' ++ c1 :: m ++ c2 :: y')).
  - cbn [app]. f_equal. rewrite <- !app_assoc. cbn [app]. f_equal. f_equal.
    rewrite <- !app_assoc. reflexivity.
  - now apply digit_not_space.
  - now apply digit_not_space.
Qed.

Lemma existsb_digits (c : ascii) (g : list ascii) :
  all_digits g = true -> is_digit c = false -> existsb (Ascii.eqb c) g = false.
Proof.
  intros Hg Hc. induction g as [|x t IH]; [reflexivity|].
  simpl in Hg |- *. apply andb_true_iff in Hg. destruct Hg as [Hx Ht].
  rewrite (IH Ht), orb_false_r.
  destruct (Ascii.eqb_spec c x) as [->|_]; [congruence|reflexivity].
Qed.

Lemma no_sep_in_digits (c : ascii) (g : list ascii) :
  all_digits g = true -> is_digit c = false ->
  forallb (fun x => negb (Ascii.eqb x c)) g = true.
Proof.
  intros Hg Hc. induction g as [|x t IH]; [reflexivity|].
  simpl in Hg |- *. apply andb_true_iff in Hg. destruct Hg as [Hx Ht].
  rewrite (IH Ht), andb_true_r.
  destruct (Ascii.eqb_spec x c) as [->|_]; [congruence|reflexivity].
Qed.

Lemma split_chars_piece (c : ascii) (g rest cur : list ascii) :
  forallb (fun x => negb (Ascii.eqb x c)) g = true ->
  split_chars c cur (g ++ c :: rest) = str (rev cur ++ g) :: split_chars c [] rest.
Proof.
  revert cur. induction g as [|x t IH]; intros cur Hg.
  - cbn [app split_chars]. rewrite Ascii.eqb_refl, app_nil_r. reflexivity.
  - simpl in Hg. apply andb_true_iff in Hg. destruct Hg as [Hx Ht].
    cbn [app split_chars]. apply negb_true_iff in Hx. rewrite Hx.
    rewrite (IH (x :: cur) Ht). cbn [rev]. now rewrite <- app_assoc.
Qed.

Lemma split_chars_last (c : ascii) (g cur : list ascii) :
  forallb (fun x => negb (Ascii.eqb x c)) g = true ->
  split_chars c cur g = [str (rev cur ++ g)].
Proof.
  revert cur. induction g as [|x t IH]; intros cur Hg.
  - cbn [split_chars]. now rewrite app_nil_r.
  - simpl in Hg. apply andb_true_iff in Hg. destruct Hg as [Hx Ht].
    cbn [split_chars]. apply negb_true_iff in Hx. rewrite Hx.
    rewrite (IH (x :: cur) Ht). cbn [rev]. now rewrite <- app_assoc.
Qed.

Lemma dmy_split (d : list ascii) (c : ascii) (m y : list ascii) :
  dmy_shape d c m c y = true ->
  split c (dmy_text d c m c y) = [str d; str m; str y].
Proof.
  intros H. apply dmy_shape_parts in H.
  destruct H as (Hd & Hm & Hy & _ & _ & _ & S & _).
  apply sep_not_digit in S.
  unfold split, dmy_text. rewrite chars_str.
  rewrite split_chars_piece by now apply no_sep_in_digits.
  rewrite split_chars_piece by now apply no_sep_in_digits.
  rewrite split_chars_last by now apply no_sep_in_digits.
  reflexivity.
Qed.

Lemma is_sep_cases (c : ascii) :
  Record2.is_sep c = true -> c = "-"%char \/ c = "/"%char.
Proof.
  unfold Record2.is_sep. intros H. apply orb_true_iff in H.
  destruct H as [H|H]; apply Ascii.eqb_eq in H; auto.
Qed.

Lemma dmy_includes (c' : ascii) (d : list ascii) (c : ascii) (m y : list ascii) :
  dmy_shape d c m c y = true -> Record2.is_sep c' = true ->
  includes_char c' (dmy_text d c m c y) = Ascii.eqb c' c.
Proof.
  intros H S'. apply dmy_shape_parts in H.
  destruct H as (Hd & Hm & Hy & _ & _ & _ & _ & _).
  apply sep_not_digit in S'.
  unfold includes_char, dmy_text. rewrite chars_str.
  rewrite existsb_app. cbn [existsb]. rewrite existsb_app. cbn [existsb].
  rewrite !existsb_digits by assumption.
  cbn [orb]. now rewrite orb_false_r, orb_diag.
Qed.

(** [ddmmyyyyToISO] on a day-month-year text with one kind of separator. *)
Lemma ddmmyyyyToISO_dmy (d : list ascii) (c : ascii) (m y : list ascii) :
  dmy_shape d c m c y = true ->
  AppJs.ddmmyyyyToISO (Some (dmy_text d c m c y))
  = Some (str y ++ "-" ++ padStart2 (str m) ++ "-" ++ padStart2 (str d))%string.
Proof.
  intros H. pose proof (dmy_shape_parts _ _ _ _ _ H)
    as (_ & _ & _ & Bd & Bm & By & S & _).
  unfold AppJs.ddmmyyyyToISO.
  rewrite dmy_text_truthy, (dmy_trim _ _ _ _ _ H), (dmy_not_iso _ _ _ _ _ H).
  cbn [negb].
  rewrite (dmy_includes "-" _ _ _ _ H eq_refl), (dmy_includes "/" _ _ _ _ H eq_refl).
  assert (Hsplit : forall k, k = c ->
    match split k (dmy_text d c m c y) with
    | [dd; mm; yyyy] =>
        if negb (truthy dd) || negb (truthy mm) || negb (truthy yyyy) then None
        else Some (yyyy ++ "-" ++ padStart2 mm ++ "-" ++ padStart2 dd)%string
    | _ => None
    end = Some (str y ++ "-" ++ padStart2 (str m) ++ "-" ++ padStart2 (str d))%string).
  { intros k ->. rewrite (dmy_split _ _ _ _ H).
    rewrite !truthy_str by (eapply between_nonempty; eassumption). reflexivity. }
  destruct (is_sep_cases c S) as [-> | ->]; cbn; now apply Hsplit.
Qed.

End Dates.

Lemma iso_truthy (s : string) : is_iso_date s = true -> truthy s = true.
Proof. destruct s; [discriminate|reflexivity]. Qed.

Lemma iso_includes_dash (s : string) :
  is_iso_date s = true -> includes_char "-" s = true.
Proof.
  unfold is_iso_date, includes_char.
  destruct (chars s) as [|c0 [|c1 [|c2 [|c3 [|c4 l]]]]]; try discriminate.
  - cbn [matches_classes]. now rewrite !andb_false_r.
  - cbn [matches_classes]. now rewrite !andb_false_r.
  - cbn [matches_classes]. now rewrite !andb_false_r.
  - cbn [matches_classes]. now rewrite !andb_false_r.
  - cbn [matches_classes in_class existsb]. intros H.
    rewrite !andb_true_iff in H. destruct H as (_ & _ & _ & _ & H & _).
    apply Ascii.eqb_eq in H. subst c4. cbn. now rewrite !orb_true_r.
Qed.

(** C10. Neither normaliser validates the day or the month: every text of
    the shape day, separator, month, separator, year (digits only, one or
    two for the day and for the month, two to four for the year, the same
    [-] or [/] twice) comes back rearranged, whatever the numbers are.
    [App.js] keeps the year as written; [invoice-record-2.js] puts [19]
    before a two-digit year. *)
Theorem no_calendar_validation (h : Host) (d : list ascii) (sep : ascii)
  (m y : list ascii) (Hshape : dmy_shape d sep m sep y = true) :
  AppJs.ddmmyyyyToISO (Some (dmy_text d sep m sep y))
  = Some (str y ++ "-" ++ padStart2 (str m) ++ "-" ++ padStart2 (str d))%string
  /\
  Record2.toFhirDate h (Some (dmy_text d sep m sep y))
  = Some ((if Nat.eqb (List.length y) 2 then "19" ++ str y else str y)
          ++ "-" ++ padStart2 (str m) ++ "-" ++ padStart2 (str d))%string.
Proof.
  split.
  - now apply ddmmyyyyToISO_dmy.
  - now apply toFhirDate_dmy.
Qed.

Lemma no_calendar_validation_witness :
  AppJs.ddmmyyyyToISO (Some "99-99-2020"%string) = Some "2020-99-99"%string
  /\ Record2.toFhirDate Samples.host (Some "99-99-2020"%string)
     = Some "2020-99-99"%string.
Proof.
  exact (no_calendar_validation Samples.host (chars "99") "-" (chars "99")
           (chars "2020") eq_refl).
Defined.

(** C6, as the code has it.  [toFhirDate] of [invoice-record-2.js] returns
    an ISO calendar date unchanged, rearranges a day-month-year text (either
    separator at either place) with [19] put before a two-digit year,
    returns for every other non-empty text what the host's generic date
    parser gives, and returns [undefined] for a missing or empty input.
    [ddmmyyyyToISO] of [App.js] returns an ISO calendar date unchanged once
    trimmed and rearranges a day-month-year text written with one kind of
    separator, keeping the year as written; it has no generic-date fallback:
    a text with neither [-] nor [/] gives [undefined]. *)
Theorem date_normalisation (h : Host) :
  (forall input, is_iso_date input = true ->
     Record2.toFhirDate h (Some input) = Some input)
  /\ (forall d c1 m c2 y, dmy_shape d c1 m c2 y = true ->
        Record2.toFhirDate h (Some (dmy_text d c1 m c2 y))
        = Some ((if Nat.eqb (List.length y) 2 then "19" ++ str y else str y)
                ++ "-" ++ padStart2 (str m) ++ "-" ++ padStart2 (str d))%string)
  /\ (forall input, input <> ""%string -> is_iso_date input = false ->
        (forall d c1 m c2 y, dmy_shape d c1 m c2 y = true ->
           input <> dmy_text d c1 m c2 y) ->
        Record2.toFhirDate h (Some input) = date_parse h input)
  /\ Record2.toFhirDate h None = None
  /\ Record2.toFhirDate h (Some ""%string) = None
  /\ (forall v, is_iso_date (trim v) = true ->
        AppJs.ddmmyyyyToISO (Some v) = Some (trim v))
  /\ (forall d c m y, dmy_shape d c m c y = true ->
        AppJs.ddmmyyyyToISO (Some (dmy_text d c m c y))
        = Some (str y ++ "-" ++ padStart2 (str m) ++ "-" ++ padStart2 (str d))%string)
  /\ (forall v, includes_char "-" (trim v) = false ->
        includes_char "/" (trim v) = false ->
        AppJs.ddmmyyyyToISO (Some v) = None).
Proof.
  repeat split.
  - intros input Hiso. unfold Record2.toFhirDate.
    now rewrite (iso_truthy _ Hiso), Hiso.
  - intros. now apply toFhirDate_dmy.
  - intros input Hne Hiso Hother. unfold Record2.toFhirDate.
    assert (Ht : truthy input = true) by (destruct input; [congruence|reflexivity]).
    rewrite Ht, Hiso. cbn [negb].
    destruct (Record2.match_dmy input) as [[[g1 g2] g3]|] eqn:E; [|reflexivity].
    apply match_dmy_inv in E. destruct E as (d & c1 & m & c2 & y & Hs & E & _).
    exfalso. exact (Hother d c1 m c2 y Hs E).
  - intros v Hiso. unfold AppJs.ddmmyyyyToISO.
    assert (Ht : truthy v = true).
    { destruct v; [|reflexivity]. discriminate Hiso. }
    now rewrite Ht, Hiso.
  - intros. now apply ddmmyyyyToISO_dmy.
  - intros v H1 H2. unfold AppJs.ddmmyyyyToISO.
    destruct (negb (truthy v)); [reflexivity|].
    destruct (is_iso_date (trim v)) eqn:Hiso.
    + apply iso_includes_dash in Hiso. congruence.
    + now rewrite H1, H2.
Qed.

Lemma date_normalisation_witness :
  Record2.toFhirDate Samples.host (Some "2024-01-01"%string) = Some "2024-01-01"%string
  /\ Record2.toFhirDate Samples.host (Some "05-08-1990"%string) = Some "1990-08-05"%string
  /\ Record2.toFhirDate Samples.host (Some "5/8-90"%string) = Some "1990-08-05"%string
  /\ Record2.toFhirDate Samples.host (Some "not-a-date"%string)
     = date_parse Samples.host "not-a-date"
  /\ AppJs.ddmmyyyyToISO (Some " 2024-01-01 "%string) = Some "2024-01-01"%string
  /\ AppJs.ddmmyyyyToISO (Some "05-08-1990"%string) = Some "1990-08-05"%string
  /\ AppJs.ddmmyyyyToISO (Some "August 5, 1990"%string) = None.
Proof.
  destruct (date_normalisation Samples.host)
    as (Hiso & Hdmy & Hother & _ & _ & Hiso' & Hdmy' & Hnone).
  refine (conj _ (conj _ (conj _ (conj _ (conj _ (conj _ _)))))).
  - apply Hiso. reflexivity.
  - exact (Hdmy (chars "05") "-"%char (chars "08") "-"%char (chars "1990") eq_refl).
  - exact (Hdmy (chars "5") "/"%char (chars "8") "-"%char (chars "90") eq_refl).
  - apply Hother; [discriminate|reflexivity|].
    intros d c1 m c2 y Hs E. pose proof (match_dmy_shape _ _ _ _ _ Hs) as M.
    rewrite <- E in M. vm_compute in M. discriminate M.
  - exact (Hiso' " 2024-01-01 "%string eq_refl).
  - exact (Hdmy' (chars "05") "-"%char (chars "08") (chars "1990") eq_refl).
  - apply Hnone; reflexivity.
Defined.

(** C6 fails as stated on [App.js]: a two-digit year is kept as written
    rather than mapped to the 1900s, and ["not-a-date"] comes back as a
    string rather than [undefined]. *)
Lemma ddmmyyyyToISO_keeps_short_year :
  AppJs.ddmmyyyyToISO (Some "05-08-90"%string) = Some "90-08-05"%string
  /\ AppJs.ddmmyyyyToISO (Some "not-a-date"%string) = Some "date-0a-not"%string.
Proof. split; reflexivity. Qed.

(** ** Address normalisation *)

Section Addresses.

Import AppJs.

Variable h : Host.

Lemma insert_sorted_perm {A} (cmp : A -> A -> Z) (x : A) (l : list A) :
  Permutation (insert_sorted cmp x l) (x :: l).
Proof.
  induction l as [|y t IH]; simpl; [apply Permutation_refl|].
  destruct (cmp x y <=? 0)%Z; [apply Permutation_refl|].
  eapply perm_trans; [apply perm_skip, IH|apply perm_swap].
Qed.

(** Sorting rearranges: nothing is added, dropped or merged. *)
Lemma sort_perm {A} (cmp : A -> A -> Z) (l : list A) : Permutation (sort cmp l) l.
Proof.
  induction l as [|x t IH]; simpl; [apply perm_nil|].
  eapply perm_trans; [apply insert_sorted_perm|apply perm_skip, IH].
Qed.

Lemma forallb_insert_sorted {A} (cmp : A -> A -> Z) (p : A -> bool) (x : A)
  (l : list A) :
  forallb p (insert_sorted cmp x l) = p x && forallb p l.
Proof.
  induction l as [|y t IH]; simpl; [reflexivity|].
  destruct (cmp x y <=? 0)%Z; simpl; [reflexivity|].
  rewrite IH. now rewrite !andb_assoc, (andb_comm (p y)).
Qed.

(** An entry goes before a primary one only if it is primary itself, and
    after a non-primary one only if it is not. *)
Lemma address_cmp_before_primary (x y : NormalizedAddress) :
  (address_cmp h x y <= 0)%Z -> primary x = false -> primary y = false.
Proof.
  unfold address_cmp. intros H Hx. rewrite Hx in H.
  destruct (primary y); [simpl in H; lia|reflexivity].
Qed.

Lemma address_cmp_after_nonprimary (x y : NormalizedAddress) :
  (0 < address_cmp h x y)%Z -> primary y = false -> primary x = false.
Proof.
  unfold address_cmp. intros H Hy. rewrite Hy in H.
  destruct (primary x); [simpl in H; lia|reflexivity].
Qed.

Lemma insert_primaries_first (x : NormalizedAddress) (l : list NormalizedAddress) :
  primaries_first l = true ->
  primaries_first (insert_sorted (address_cmp h) x l) = true.
Proof.
  induction l as [|y t IH]; intros Hl.
  - simpl. now destruct (primary x).
  - cbn [insert_sorted].
    destruct (Z.leb_spec (address_cmp h x y) 0) as [Hle|Hgt].
    + cbn [primaries_first]. destruct (primary x) eqn:Hx; [exact Hl|].
      pose proof (address_cmp_before_primary x y Hle Hx) as Hy.
      cbn [primaries_first] in Hl. rewrite Hy in Hl.
      cbn [forallb]. now rewrite Hy, Hl.
    + cbn [primaries_first] in Hl |- *. destruct (primary y) eqn:Hy.
      * now apply IH.
      * pose proof (address_cmp_after_nonprimary x y Hgt Hy) as Hx.
        rewrite forallb_insert_sorted, Hx, Hl. reflexivity.
Qed.

Lemma sort_primaries_first (l : list NormalizedAddress) :
  primaries_first (sort (address_cmp h) l) = true.
Proof.
  induction l as [|x t IH]; [reflexivity|]. simpl. now apply insert_primaries_first.
Qed.

(** With a consistent [localeCompare] the comparator never puts each of two
    entries after the other. *)
Lemma address_cmp_total (x y : NormalizedAddress) :
  consistent_compare h ->
  (0 < address_cmp h x y)%Z -> (address_cmp h y x <= 0)%Z.
Proof.
  intros Hc. unfold address_cmp.
  destruct (primary x), (primary y); simpl; try lia; apply Hc.
Qed.

Lemma insert_sorted_Sorted (x : NormalizedAddress) (l : list NormalizedAddress) :
  consistent_compare h ->
  Sorted (fun a b => (address_cmp h a b <= 0)%Z) l ->
  Sorted (fun a b => (address_cmp h a b <= 0)%Z) (insert_sorted (address_cmp h) x l).
Proof.
  intros Hc. induction l as [|y t IH]; intros Hs.
  - simpl. repeat constructor.
  - cbn [insert_sorted].
    destruct (Z.leb_spec (address_cmp h x y) 0) as [Hle|Hgt].
    + constructor; [exact Hs|]. now constructor.
    + inversion Hs as [|? ? Ht Hhd]; subst. constructor; [now apply IH|].
      destruct t as [|z t']; cbn [insert_sorted].
      * constructor. now apply address_cmp_total.
      * destruct (address_cmp h x z <=? 0)%Z.
        -- constructor. now apply address_cmp_total.
        -- inversion Hhd; subst. now constructor.
Qed.

Lemma sort_Sorted (l : list NormalizedAddress) :
  consistent_compare h ->
  Sorted (fun a b => (address_cmp h a b <= 0)%Z) (sort (address_cmp h) l).
Proof.
  intros Hc. induction l as [|x t IH]; simpl; [constructor|].
  now apply insert_sorted_Sorted.
Qed.

Lemma Sorted_weaken {A} (R R' : A -> A -> Prop) (l : list A) :
  (forall a b, R a b -> R' a b) -> Sorted R l -> Sorted R' l.
Proof.
  intros HR. induction 1 as [|a l Hs IH Hhd]; constructor; [exact IH|].
  destruct Hhd; constructor. now apply HR.
Qed.

End Addresses.

Section Dedup.

Import Record2.

Lemma existsb_eqb_In (x : string) (l : list string) :
  existsb (String.eqb x) l = true <-> In x l.
Proof.
  rewrite existsb_exists. split.
  - intros (y & Hy & E). apply String.eqb_eq in E. now subst.
  - intros H. exists x. split; [exact H|apply String.eqb_refl].
Qed.

(** [dedup] keeps one copy of every value not seen before. *)
Lemma dedup_spec (l seen : list string) :
  NoDup (dedup seen l)
  /\ forall x, In x (dedup seen l) <-> (In x l /\ ~ In x seen).
Proof.
  revert seen. induction l as [|y t IH]; intros seen; simpl.
  - split; [constructor|]. intros x. tauto.
  - destruct (existsb (String.eqb y) seen) eqn:E.
    + apply existsb_eqb_In in E. destruct (IH seen) as [Hnd Hin].
      split; [exact Hnd|]. intros x. rewrite Hin. split.
      * intros [H1 H2]. split; [now right|exact H2].
      * intros [[->|H1] H2]; [contradiction|now split].
    + assert (Hy : ~ In y seen).
      { intros H. apply existsb_eqb_In in H. congruence. }
      destruct (IH (y :: seen)) as [Hnd Hin]. split.
      * constructor; [|exact Hnd]. rewrite Hin. simpl. tauto.
      * intros x. simpl. rewrite Hin. simpl. split.
        -- intros [<-|[H1 H2]]; [split; [now left|exact Hy]|]. split; [now right|tauto].
        -- intros [[<-|H1] H2]; [now left|].
           destruct (String.eqb_spec y x) as [->|Hne]; [now left|].
           right. split; [exact H1|]. intros [E'|H3]; [congruence|contradiction].
Qed.

(** [.map(f).filter(Boolean)] keeps the order of the array: it is the
    concatenation, element by element, of what each element contributes. *)
Lemma map_filter_in_order (f : AbhaItem -> option string) (l : list AbhaItem) :
  map_filter f l
  = flat_map (fun a => match f a with
                       | Some v => if truthy v then [v] else []
                       | None => []
                       end) l.
Proof.
  induction l as [|a t IH]; simpl; [reflexivity|].
  destruct (f a) as [v|]; [|exact IH].
  destruct (truthy v); simpl; now rewrite IH.
Qed.

Lemma existsb_eqb_same (x : string) (l l' : list string) :
  (forall y, In y l <-> In y l') ->
  existsb (String.eqb x) l = existsb (String.eqb x) l'.
Proof.
  intros H. destruct (existsb (String.eqb x) l') eqn:E.
  - apply existsb_eqb_In. apply H. now apply existsb_eqb_In.
  - destruct (existsb (String.eqb x) l) eqn:E'; [|reflexivity].
    apply existsb_eqb_In, H, existsb_eqb_In in E'. congruence.
Qed.

(** [dedup] keeps the element at position [i] exactly when its value does
    not occur before position [i]; [pre] is what has been read so far. *)
Lemma dedup_first_occurrences (l pre seen : list string) :
  (forall x, In x seen <-> In x pre) ->
  dedup seen l
  = filteri (fun i x => negb (existsb (String.eqb x) (firstn i (pre ++ l))))
      (List.length pre) l.
Proof.
  revert pre seen. induction l as [|y t IH]; intros pre seen Hseen; [reflexivity|].
  cbn [dedup filteri].
  rewrite firstn_app, firstn_all, Nat.sub_diag. cbn [firstn]. rewrite app_nil_r.
  rewrite (existsb_eqb_same y seen pre Hseen).
  assert (Hnext : forall seen', (forall x, In x seen' <-> In x (pre ++ [y])) ->
            dedup seen' t
            = filteri (fun i x => negb (existsb (String.eqb x) (firstn i (pre ++ y :: t))))
                (S (List.length pre)) t).
  { intros seen' H'. rewrite (IH (pre ++ [y]) seen' H').
    rewrite <- app_assoc, length_app. cbn [List.length app].
    now rewrite Nat.add_1_r. }
  destruct (existsb (String.eqb y) pre) eqn:E; cbn [negb].
  - apply Hnext. intros x. rewrite in_app_iff, Hseen. simpl.
    apply existsb_eqb_In in E. split; [tauto|]. intros [H|[<-|[]]]; assumption.
  - f_equal. apply Hnext. intros x. rewrite in_app_iff. simpl. rewrite Hseen. tauto.
Qed.

End Dedup.

(** C7, as the code has it.  [normalizeAbhaAddresses] of [App.js] returns
    the coerced entries of the patient's list, none added, dropped or merged
    apart from the null and empty ones the coercion drops (so duplicate
    values stay), with every primary entry before every other one; when
    [localeCompare] is consistent, neighbours with the same primary flag are
    in [localeCompare] order; [{a, not primary}, {b, primary}] comes back as
    [b, a].  [getAbhaAddressesForPatient] of [invoice-record-2.js] has no
    ranking and removes duplicates.  Without a patient it returns the empty
    array; on a patient whose [additional_attributes.abha_addresses] is a
    truthy value that is not an array it throws a [TypeError]; otherwise it
    returns, in the order of the array, the coerced values that are not
    empty, with [abha_ref] put in front when it is not empty and not among
    them, every value kept at its first position only: the element at
    position [i] of that list is returned exactly when its value does not
    occur before position [i]. *)
Theorem addresses_normalised (h : Host) (patient : option PatientRecord) :
  let out := AppJs.normalizeAbhaAddresses h patient in
  AppJs.coerce_item ItemFalsy = None
  /\ AppJs.coerce_item (ItemString "") = None
  /\ Permutation out (AppJs.map_filter AppJs.coerce_item (AppJs.raw_addresses patient))
  /\ AppJs.primaries_first out = true
  /\ (consistent_compare h ->
      Sorted (fun a b => AppJs.primary a = AppJs.primary b ->
                         (localeCompare h (AppJs.value a) (AppJs.value b) <= 0)%Z) out)
  /\ map AppJs.value
       (AppJs.normalizeAbhaAddresses h
          (Some (Samples.patient_with
                   [Samples.address_object "a" false; Samples.address_object "b" true])))
     = ["b"; "a"]%string
  /\ Record2.getAbhaAddressesForPatient None = Record2.Returns []
  /\ (forall pt, p_additional_abha_addresses pt = FieldNotArray ->
        Record2.getAbhaAddressesForPatient (Some pt) = Record2.ThrowsTypeError)
  /\ (forall pt arr,
        p_additional_abha_addresses pt = FieldArray arr
        \/ (p_additional_abha_addresses pt = FieldMissing /\ arr = []) ->
        let coerced :=
          flat_map (fun a => match Record2.coerce_item a with
                             | Some v => if truthy v then [v] else []
                             | None => []
                             end) arr in
        let source :=
          match p_abha_ref pt with
          | Some r => if truthy r && negb (existsb (String.eqb r) coerced)
                      then r :: coerced else coerced
          | None => coerced
          end in
        exists found,
          Record2.getAbhaAddressesForPatient (Some pt) = Record2.Returns found
          /\ found = filteri (fun i x => negb (existsb (String.eqb x) (firstn i source)))
                       0 source
          /\ NoDup found
          /\ (forall x, In x found <-> In x source)
          /\ (forall r, p_abha_ref pt = Some r -> r <> ""%string -> ~ In r coerced ->
              hd_error found = Some r)).
Proof.
  intros out. split; [reflexivity|]. split; [reflexivity|].
  split; [|split; [|split; [|split; [|split; [|split]]]]].
  - apply sort_perm.
  - apply sort_primaries_first.
  - intros Hc. eapply Sorted_weaken; [|apply (sort_Sorted h _ Hc)].
    intros a b Hab Hp. unfold AppJs.address_cmp in Hab. rewrite Hp in Hab.
    now rewrite Z.sub_diag in Hab.
  - reflexivity.
  - reflexivity.
  - intros pt Hf.
    unfold Record2.getAbhaAddressesForPatient, Record2.normalized_addresses,
      Record2.map_receiver.
    now rewrite Hf.
  - intros pt arr Hf coerced source.
    assert (Hn : Record2.normalized_addresses pt = Record2.Returns source).
    { unfold Record2.normalized_addresses, Record2.map_receiver,
        Record2.unshift_abha_ref.
      subst source coerced.
      destruct Hf as [Hf|[Hf ->]]; rewrite Hf; now rewrite map_filter_in_order. }
    exists (Record2.dedup [] source).
    unfold Record2.getAbhaAddressesForPatient. rewrite Hn.
    destruct (dedup_spec source []) as [Hnd Hin].
    split; [reflexivity|]. split; [|split; [exact Hnd|split]].
    + apply (dedup_first_occurrences source [] []). tauto.
    + intros x. rewrite Hin. simpl. tauto.
    + intros r Hr Hne Hnot. subst source. rewrite Hr.
      assert (Ht : truthy r = true) by (destruct r; [contradiction|reflexivity]).
      assert (He : existsb (String.eqb r) coerced = false).
      { destruct (existsb (String.eqb r) coerced) eqn:E; [|reflexivity].
        apply existsb_eqb_In in E. contradiction. }
      rewrite Ht, He. reflexivity.
Qed.

Lemma sample_host_consistent : consistent_compare Samples.host.
Proof.
  intros a b. cbn [localeCompare Samples.host].
  rewrite (String.compare_antisym a b).
  destruct (String.compare b a); simpl; lia.
Qed.

Lemma addresses_normalised_witness :
  let items := [ Samples.address_object "b" false; ItemFalsy;
                 Samples.address_object "a" false; ItemString "a";
                 Samples.address_object "c" true ] in
  let out := AppJs.normalizeAbhaAddresses Samples.host
               (Some (Samples.patient_with items)) in
  map AppJs.value out = ["c"; "a"; "a"; "b"]%string
  /\ Sorted (fun a b => AppJs.primary a = AppJs.primary b ->
                        (localeCompare Samples.host (AppJs.value a) (AppJs.value b) <= 0)%Z)
       out
  /\ Record2.getAbhaAddressesForPatient (Some MoreSamples.patient_with_ref)
     = Record2.Returns ["z@abdm"; "b"; "a"; "c"]%string
  /\ hd_error ["z@abdm"; "b"; "a"; "c"]%string = Some "z@abdm"%string.
Proof.
  intros items out.
  destruct (addresses_normalised Samples.host (Some (Samples.patient_with items)))
    as (_ & _ & _ & _ & Hs & _ & _ & _ & Hr).
  split; [reflexivity|]. split; [exact (Hs sample_host_consistent)|].
  destruct (Hr MoreSamples.patient_with_ref MoreSamples.repeated_items
              (or_introl eq_refl))
    as (found & Hfound & Heq & _ & _ & Hhd).
  assert (E : found = ["z@abdm"; "b"; "a"; "c"]%string) by (rewrite Heq; reflexivity).
  rewrite <- E. split; [exact Hfound|].
  apply Hhd; [reflexivity|discriminate|].
  simpl. intros [H|[H|[H|[H|[H|[]]]]]]; discriminate H.
Defined.

(** C7 fails as stated on [invoice-record-2.js]: the primary entry is not
    moved to the front, a repeated value is returned once, and a list of
    addresses that is not an array gives no list at all. *)
Lemma record2_addresses_unranked :
  Record2.getAbhaAddressesForPatient
    (Some (Samples.patient_with
             [Samples.address_object "a" false; Samples.address_object "b" true]))
  = Record2.Returns ["a"; "b"]%string
  /\ Record2.getAbhaAddressesForPatient
       (Some (Samples.patient_with [ItemString "a"; ItemString "a"]))
     = Record2.Returns ["a"]%string
  /\ Record2.getAbhaAddressesForPatient (Some MoreSamples.patient_text_addresses)
     = Record2.ThrowsTypeError.
Proof. repeat split; reflexivity. Qed.

(** ** Generated identifiers *)

Section Identifiers.

Transparent Gen.uuidv4.

Lemma hex_digit_is_hex (r : nat) : r < 16 -> in_class Hex (hex_digit r) = true.
Proof.
  intros H. do 16 (destruct r as [|r]; [reflexivity|]). lia.
Qed.

Lemma variant_digit_is_variant (r : nat) :
  r < 16 -> in_class Variant (hex_digit (Nat.lor (Nat.land r 3) 8)) = true.
Proof.
  intros H. do 16 (destruct r as [|r]; [reflexivity|]). lia.
Qed.

Lemma random16_bound (h : Host) (w : World) : fst (random16 h w) < 16.
Proof. unfold random16. cbn [fst]. apply Nat.mod_upper_bound. discriminate. Qed.

(** Filling a template that agrees with a pattern gives a text that matches
    the pattern, whatever the random values are. *)
Lemma fill_template_matches (h : Host) (tpl : list ascii) (pat : list CharClass) :
  Forall2 slot_ok tpl pat ->
  forall w, matches_classes pat (fst (fill_template h tpl w)) = true.
Proof.
  induction 1 as [|c k tpl' pat' Hck _ IH]; intros w; [reflexivity|].
  cbn [fill_template]. unfold slot_ok in Hck.
  destruct (Ascii.eqb c "x") eqn:Ex.
  - subst k. cbn [orb]. rewrite run_bind, run_bind. cbn [ret fst matches_classes].
    unfold uuid_nibble. rewrite Ex, IH, andb_true_r.
    apply hex_digit_is_hex, random16_bound.
  - destruct (Ascii.eqb c "y") eqn:Ey.
    + subst k. cbn [orb]. rewrite run_bind, run_bind. cbn [ret fst matches_classes].
      unfold uuid_nibble. rewrite Ex, IH, andb_true_r.
      apply variant_digit_is_variant, random16_bound.
    + cbn [orb]. rewrite run_bind. cbn [ret fst matches_classes].
      now rewrite Hck, IH.
Qed.

(** The template of [uuidv4] agrees with the pattern of [isUuid], so what it
    is filled with matches the pattern. *)
Lemma uuidv4_matches (h : Host) (w : World) :
  matches_classes uuid_pattern (chars (fst (Gen.uuidv4 h w))) = true.
Proof.
  unfold Gen.uuidv4. rewrite run_bind. cbn [ret fst].
  unfold chars, str. rewrite list_ascii_of_string_of_list_ascii.
  apply fill_template_matches.
  repeat (constructor; [reflexivity|]). constructor.
Qed.



(** The module constant [practitionerRefId] is what [safeUuid] returns, so
    it has that form too. *)
Lemma load_globals_refId (h : Host) (gp : option AppJs.GlobalPractitioner) (w : World) :
  isUuid (AppJs.practitionerRefId (run (AppJs.load_globals h gp) w)) = true.
Proof.
  unfold run, AppJs.load_globals. rewrite run_bind. cbn [ret fst AppJs.practitionerRefId].
  generalize (match gp with Some g => AppJs.gp_id g | None => None end). intros maybeId.
  unfold safeUuid.
  destruct (isUuid (toLowerCase
              (if truthy (match maybeId with Some s => s | None => ""%string end)
               then match maybeId with Some s => s | None => ""%string end
               else ""%string))) eqn:E.
  - cbn [ret fst].
    destruct (truthy (match maybeId with Some s => s | None => ""%string end)) eqn:T;
      [exact E|].
    destruct maybeId as [[|c s]|]; [exact E|discriminate T|exact E].
  - unfold isUuid. apply uuidv4_matches.
Qed.

Opaque Gen.uuidv4.

End Identifiers.

(** ** The Composition comes first *)

(** The first entry of every produced bundle is its Composition. *)
Theorem composition_is_first_entry (h : Host) (w : World) (b : Bundle) :
  produced h w b ->
  exists c rest, entry b = {| fullUrl := urn (comp_id c); resource := RComposition c |} :: rest.
Proof.
  intros [(g & s & H)|(s & H)].
  - apply onBuildBundle_submitted in H.
    destruct H as [_ (compId & patientId & practitionerId & invoiceId & authoredOn
      & encounterId & custodianId & attesterOrgId & docBinaryIds & docRefIds & n
      & binaries & docRefs & _ & _ & _ & He)].
    rewrite He. eexists. eexists. reflexivity.
  - apply buildBundle_built in H.
    destruct H as (compId & patientId & practId & orgId & invoiceId & inv & comp
      & pat & pr & org & n0 & He & _ & Hcomp & _).
    rewrite He. exists comp. eexists. cbn [app]. unfold Record2.entry_of.
    rewrite Hcomp. reflexivity.
Qed.

Lemma composition_is_first_entry_witness :
  of_app_result Samples.app_result
    (fun b => exists c rest,
       entry b = {| fullUrl := urn (comp_id c); resource := RComposition c |} :: rest)
  /\ of_record2_result Samples.record2_result
       (fun b => exists c rest,
          entry b = {| fullUrl := urn (comp_id c); resource := RComposition c |} :: rest).
Proof.
  split.
  - destruct Samples.app_result as [errs| |b] eqn:E;
      [vm_compute in E; discriminate E | vm_compute in E; discriminate E|].
    cbv beta iota delta [of_app_result].
    apply (composition_is_first_entry Samples.host world0 b).
    left. exists Samples.globals, Samples.app_state. exact E.
  - destruct Samples.record2_result as [b|] eqn:E; [|vm_compute in E; discriminate E].
    cbv beta iota delta [of_record2_result].
    apply (composition_is_first_entry Samples.host world0 b).
    right. eexists. exact E.
Defined.

(** ** When [App.js] builds, and what the build ends with *)

Section AppOutcome.

Import AppJs.

Lemma truthy_false_iff (s : string) : truthy s = false <-> s = ""%string.
Proof. destruct s; simpl; split; congruence. Qed.

Lemma truthy_true_iff (s : string) : truthy s = true <-> s <> ""%string.
Proof. destruct s; simpl; split; congruence. Qed.

(** [validateBeforeBuild] returns no error exactly when a patient is
    selected, the status is not empty, the title has a character that is not
    white space, and there is a line of positive amount or a file. *)
Theorem validation_passes_iff (s : State) :
  validateBeforeBuild s = [] <->
  (selectedPatient s <> None /\ status s <> ""%string
   /\ trim (title s) <> ""%string
   /\ (hasCharge s = true \/ files s <> [])).
Proof.
  unfold validateBeforeBuild, push_if, hasDocs.
  destruct (selectedPatient s) as [p|]; cbn [app].
  2: { split; [discriminate|]. intros [H _]. now contradiction H. }
  destruct (truthy (status s)) eqn:Hs; cbn [negb app].
  2: { apply truthy_false_iff in Hs. split; [discriminate|].
       intros (_ & H & _). contradiction. }
  apply truthy_true_iff in Hs.
  assert (Ht : negb (truthy (title s)) || negb (truthy (trim (title s)))
               = negb (truthy (trim (title s)))).
  { destruct (title s); reflexivity. }
  rewrite Ht. clear Ht.
  destruct (truthy (trim (title s))) eqn:Ht; cbn [negb app].
  2: { apply truthy_false_iff in Ht. split; [discriminate|].
       intros (_ & _ & H & _). contradiction. }
  apply truthy_true_iff in Ht.
  destruct (hasCharge s) eqn:Hc; cbn [orb negb].
  - split; [|reflexivity]. intros _. repeat split; try assumption; try discriminate.
    now left.
  - destruct (files s) as [|f fs]; cbn [negb].
    + split; [discriminate|]. intros (_ & _ & _ & [H|H]); [discriminate|now contradiction H].
    + split; [|reflexivity]. intros _. repeat split; try assumption; try discriminate.
      right. discriminate.
Qed.

(** The loop over the files stops with the first file that cannot be read. *)
Lemma buildDocs_none (patientId authoredOn : string) (fs : list (option File))
  (binIds docIds : list string) :
  buildDocs patientId authoredOn fs binIds docIds = None ->
  exists f, In (Some f) fs /\ f_data f = None.
Proof.
  revert binIds docIds. induction fs as [|f fs IH]; intros binIds docIds; simpl.
  - discriminate.
  - destruct binIds as [|binId binIds]; [discriminate|].
    destruct docIds as [|docId docIds]; [discriminate|].
    destruct (doc_payload f) as [[[ct data] ttl]|] eqn:Hp.
    + destruct (buildDocs patientId authoredOn fs binIds docIds) as [[bs ds]|] eqn:Hr;
        [discriminate|].
      intros _. destruct (IH _ _ Hr) as (f' & Hin & Hd).
      exists f'. split; [now right|exact Hd].
    + intros _. destruct f as [f|]; [|discriminate Hp].
      exists f. split; [now left|].
      unfold doc_payload in Hp. now destruct (f_data f).
Qed.

Lemma buildDocs_some (patientId authoredOn : string) (fs : list (option File))
  (binIds docIds : list string) (r : list Binary * list DocumentReference) :
  buildDocs patientId authoredOn fs binIds docIds = Some r ->
  List.length binIds = List.length fs -> List.length docIds = List.length fs ->
  forall f, In (Some f) fs -> f_data f <> None.
Proof.
  revert binIds docIds r. induction fs as [|f fs IH]; intros binIds docIds r; simpl.
  - intros _ _ _ f [].
  - destruct binIds as [|binId binIds]; [discriminate 2|].
    destruct docIds as [|docId docIds]; [discriminate 3|].
    destruct (doc_payload f) as [[[ct data] ttl]|] eqn:Hp; [|discriminate].
    destruct (buildDocs patientId authoredOn fs binIds docIds) as [[bs ds]|] eqn:Hr;
      [|discriminate].
    intros _ Hb Hd f' [E|Hin].
    + subst f. unfold doc_payload in Hp. now destruct (f_data f').
    + simpl in Hb, Hd. eapply IH; eauto.
Qed.

Lemma in_toProcess (s : State) (f : File) : In (Some f) (toProcess s) <-> In f (files s).
Proof.
  unfold toProcess. destruct (files s) as [|f0 fs] eqn:E.
  - simpl. split; [intros [H|[]]; discriminate|intros []].
  - rewrite in_map_iff. split.
    + intros (x & Hx & Hin). now injection Hx as ->.
    + intros H. now exists f.
Qed.

(** A build that passes validation draws its identifiers and then either
    stops at a file it cannot read or submits a bundle. *)
Lemma onBuildBundle_valid (h : Host) (g : Globals) (s : State) (w : World) :
  validateBeforeBuild s = [] ->
  exists patientId authoredOn binIds docIds,
    List.length binIds = List.length (toProcess s)
    /\ List.length docIds = List.length (toProcess s)
    /\ match buildDocs patientId authoredOn (toProcess s) binIds docIds with
       | None => run (onBuildBundle h g s) w = ReadError
       | Some _ => exists b, run (onBuildBundle h g s) w = Submitted b
       end.
Proof.
  intros Hv. unfold run, onBuildBundle. rewrite Hv. unfold bind.
  destruct (localDatetimeToISOWithOffset h (dateTimeLocal s) w) as [authoredOn w1].
  destruct (uuidv4 h w1) as [compId w2].
  destruct (uuidv4 h w2) as [patientId w3].
  destruct ((if truthy (practitionerRefId g) then ret (practitionerRefId g) else uuidv4 h) w3)
    as [practitionerId w4].
  destruct (uuid_if h (truthy (encounterText s)) w4) as [encounterId w5].
  destruct (uuid_if h (truthy (custodianName s)) w5) as [custodianId w6].
  destruct (uuid_if h (String.eqb (attesterPartyType s) "Organization"
                       && truthy (attesterOrgName s)) w6) as [attesterOrgId w7].
  destruct (uuidv4 h w7) as [invoiceId w8].
  destruct (mapM (fun _ : option File => uuidv4 h) (toProcess s) w8) as [binIds w9] eqn:E9.
  destruct (mapM (fun _ : string => uuidv4 h) binIds w9) as [docIds w10] eqn:E10.
  destruct (buildEncounterResource h encounterId patientId w10) as [encounterRes w11].
  exists patientId, authoredOn, binIds, docIds.
  assert (Hb : List.length binIds = List.length (toProcess s)).
  { pose proof (mapM_length (fun _ : option File => uuidv4 h) (toProcess s) w8) as L.
    now rewrite E9 in L. }
  assert (Hd : List.length docIds = List.length binIds).
  { pose proof (mapM_length (fun _ : string => uuidv4 h) binIds w9) as L.
    now rewrite E10 in L. }
  split; [exact Hb|]. split; [congruence|].
  unfold buildDocAndBinaryResources.
  destruct (buildDocs patientId authoredOn (toProcess s) binIds docIds) as [[bs ds]|].
  - destruct (uuidv4 h w11) as [u w12]. destruct (tick w12) as [t1 w13].
    destruct (uuidv4 h w13) as [ident w14]. destruct (tick w14) as [t2 w15].
    eexists. reflexivity.
  - reflexivity.
Qed.

(** The three ways [onBuildBundle] ends.  It refuses exactly when validation
    lists an error, and then shows that list; otherwise it stops without a
    bundle when a picked file cannot be read, and submits a bundle when every
    picked file is read. *)
Theorem build_outcome (h : Host) (g : Globals) (s : State) (w : World) :
  match run (onBuildBundle h g s) w with
  | Refused errors => errors = validateBeforeBuild s /\ errors <> []
  | ReadError =>
      validateBeforeBuild s = [] /\ exists f, In f (files s) /\ f_data f = None
  | Submitted b =>
      validateBeforeBuild s = [] /\ forall f, In f (files s) -> f_data f <> None
  end.
Proof.
  destruct (validateBeforeBuild s) as [|e es] eqn:Hv.
  - destruct (onBuildBundle_valid h g s w Hv)
      as (patientId & authoredOn & binIds & docIds & Hb & Hd & H).
    destruct (buildDocs patientId authoredOn (toProcess s) binIds docIds) as [r|] eqn:Hr.
    + destruct H as [b ->]. split; [reflexivity|].
      intros f Hin. apply in_toProcess in Hin.
      exact (buildDocs_some _ _ _ _ _ _ Hr Hb Hd f Hin).
    + rewrite H. split; [reflexivity|].
      destruct (buildDocs_none _ _ _ _ _ Hr) as (f & Hin & Hf).
      exists f. split; [now apply in_toProcess|exact Hf].
  - unfold run, onBuildBundle. rewrite Hv. cbn [ret fst].
    split; [reflexivity|discriminate].
Qed.

End AppOutcome.

(** ** The identifiers of a bundle built by [App.js] *)

Section AppIdentifiers.

Import AppJs.

Lemma uuidv4_eq_isUuid (h : Host) (w w' : World) (a : string) :
  uuidv4 h w = (a, w') -> isUuid a = true.
Proof.
  intros E. unfold isUuid. pose proof (uuidv4_matches h w) as H.
  now rewrite E in H.
Qed.

Lemma uuid_if_drawn (h : Host) (c : bool) (w w' : World) (a : option string) :
  uuid_if h c w = (a, w') ->
  match a with
  | Some u => c = true /\ isUuid u = true
  | None => c = false
  end.
Proof.
  unfold uuid_if. destruct c.
  - unfold bind, ret. destruct (uuidv4 h w) as [u w1] eqn:E.
    intros H. injection H as <- _. split; [reflexivity|].
    exact (uuidv4_eq_isUuid h w w1 u E).
  - unfold ret. intros H. injection H as <- _. reflexivity.
Qed.

Lemma mapM_uuid_all {A} (h : Host) (l : list A) (w : World) :
  Forall (fun u => isUuid u = true) (fst (mapM (fun _ : A => uuidv4 h) l w)).
Proof.
  revert w. induction l as [|x t IH]; intros w; cbn [mapM].
  - constructor.
  - rewrite !run_bind. cbn [ret fst]. constructor; [|apply IH].
    destruct (uuidv4 h w) as [u w1] eqn:E. cbn [fst].
    exact (uuidv4_eq_isUuid h w w1 u E).
Qed.

(** The records of the loop carry the identifiers they were given, in
    order. *)
Lemma buildDocs_ids (patientId authoredOn : string) (fs : list (option File))
  (binIds docIds : list string) (binaries : list Binary)
  (docRefs : list DocumentReference) :
  buildDocs patientId authoredOn fs binIds docIds = Some (binaries, docRefs) ->
  List.length binIds = List.length fs -> List.length docIds = List.length fs ->
  map bin_id binaries = binIds /\ map dr_id docRefs = docIds.
Proof.
  revert binIds docIds binaries docRefs.
  induction fs as [|f fs IH]; intros binIds docIds binaries docRefs H Hb Hd.
  - destruct binIds; [|discriminate Hb]. destruct docIds; [|discriminate Hd].
    simpl in H. injection H as <- <-. split; reflexivity.
  - destruct binIds as [|binId binIds]; [discriminate Hb|].
    destruct docIds as [|docId docIds]; [discriminate Hd|].
    simpl in H.
    destruct (doc_payload f) as [[[ct data] ttl]|]; [|discriminate].
    destruct (buildDocs patientId authoredOn fs binIds docIds) as [[bs ds]|] eqn:Hr;
      [|discriminate].
    injection H as <- <-. simpl in Hb, Hd.
    destruct (IH binIds docIds bs ds Hr) as [H1 H2]; [lia|lia|].
    simpl. now rewrite H1, H2.
Qed.

(** What [onBuildBundle] submits, with where each identifier comes from:
    generated ones have the form of [uuidv4], the practitioner's is the
    module constant when that is not empty, and an optional record has an
    identifier exactly when its field is filled in. *)
Lemma onBuildBundle_drawn (h : Host) (g : Globals) (s : State) (w : World)
  (b : Bundle) :
  run (onBuildBundle h g s) w = Submitted b ->
  exists compId patientId practitionerId invoiceId authoredOn
         encounterId custodianId attesterOrgId docBinaryIds docRefIds n
         binaries docRefs,
    entry b =
      [ entry_of (RComposition
                    (buildComposition g s compId patientId practitionerId invoiceId
                       authoredOn encounterId custodianId attesterOrgId docRefs));
        entry_of (RPatient (buildPatientResource s patientId));
        entry_of (RPractitioner
                    (buildPractitionerResource practitionerId
                       (practitionerDisplayName g) (practitionerLicense g)));
        entry_of (RInvoice
                    (buildInvoiceResource g s invoiceId patientId practitionerId
                       authoredOn)) ]
      ++ map (fun e => entry_of (REncounter e))
           (opt_list (option_map (encounter_of h patientId n) encounterId))
      ++ map (fun o => entry_of (ROrganization o))
           (opt_list (buildOrg custodianId (custodianName s)))
      ++ map (fun o => entry_of (ROrganization o))
           (opt_list (buildOrg attesterOrgId (attesterOrgName s)))
      ++ map (fun dr => entry_of (RDocumentReference dr)) docRefs
      ++ map (fun x => entry_of (RBinary x)) binaries
    /\ isUuid compId = true /\ isUuid patientId = true /\ isUuid invoiceId = true
    /\ (if truthy (practitionerRefId g) then practitionerId = practitionerRefId g
        else isUuid practitionerId = true)
    /\ match encounterId with
       | Some u => truthy (encounterText s) = true /\ isUuid u = true
       | None => truthy (encounterText s) = false
       end
    /\ match custodianId with
       | Some u => truthy (custodianName s) = true /\ isUuid u = true
       | None => truthy (custodianName s) = false
       end
    /\ match attesterOrgId with
       | Some u =>
           String.eqb (attesterPartyType s) "Organization" && truthy (attesterOrgName s)
           = true /\ isUuid u = true
       | None =>
           String.eqb (attesterPartyType s) "Organization" && truthy (attesterOrgName s)
           = false
       end
    /\ Forall (fun u => isUuid u = true) docBinaryIds
    /\ Forall (fun u => isUuid u = true) docRefIds
    /\ List.length binaries = List.length (toProcess s)
    /\ List.length docRefs = List.length (toProcess s)
    /\ map bin_id binaries = docBinaryIds /\ map dr_id docRefs = docRefIds.
Proof.
  unfold run, onBuildBundle.
  destruct (validateBeforeBuild s) as [|e es] eqn:Hv; [|discriminate].
  unfold bind.
  destruct (localDatetimeToISOWithOffset h (dateTimeLocal s) w) as [authoredOn w1].
  destruct (uuidv4 h w1) as [compId w2] eqn:E2.
  destruct (uuidv4 h w2) as [patientId w3] eqn:E3.
  destruct ((if truthy (practitionerRefId g) then ret (practitionerRefId g) else uuidv4 h) w3)
    as [practitionerId w4] eqn:E4.
  destruct (uuid_if h (truthy (encounterText s)) w4) as [encounterId w5] eqn:E5.
  destruct (uuid_if h (truthy (custodianName s)) w5) as [custodianId w6] eqn:E6.
  destruct (uuid_if h (String.eqb (attesterPartyType s) "Organization"
                       && truthy (attesterOrgName s)) w6) as [attesterOrgId w7] eqn:E7.
  destruct (uuidv4 h w7) as [invoiceId w8] eqn:E8.
  destruct (mapM (fun _ : option File => uuidv4 h) (toProcess s) w8) as [binIds w9] eqn:E9.
  destruct (mapM (fun _ : string => uuidv4 h) binIds w9) as [docIds w10] eqn:E10.
  destruct (buildEncounterResource h encounterId patientId w10) as [encounterRes w11] eqn:E11.
  destruct (buildDocAndBinaryResources s patientId authoredOn binIds docIds)
    as [[binaries docRefs]|] eqn:Hdocs; [|discriminate].
  destruct (uuidv4 h w11) as [u w12]. destruct (tick w12) as [t1 w13].
  destruct (uuidv4 h w13) as [ident w14]. destruct (tick w14) as [t2 w15].
  cbv [ret fst]. intros H. injection H as <-.
  destruct (buildEncounterResource_shape h encounterId patientId w10) as [n Hn].
  rewrite E11 in Hn. cbn [fst] in Hn. subst encounterRes.
  assert (Hb : List.length binIds = List.length (toProcess s)).
  { pose proof (mapM_length (fun _ : option File => uuidv4 h) (toProcess s) w8) as L.
    now rewrite E9 in L. }
  assert (Hd : List.length docIds = List.length (toProcess s)).
  { pose proof (mapM_length (fun _ : string => uuidv4 h) binIds w9) as L.
    rewrite E10 in L. cbn [fst] in L. congruence. }
  unfold buildDocAndBinaryResources in Hdocs.
  destruct (buildDocs_length _ _ _ _ _ _ _ Hdocs Hb Hd) as [Lb Ld].
  destruct (buildDocs_ids _ _ _ _ _ _ _ Hdocs Hb Hd) as [Ib Id].
  exists compId, patientId, practitionerId, invoiceId, authoredOn, encounterId,
    custodianId, attesterOrgId, binIds, docIds, n, binaries, docRefs.
  split; [reflexivity|].
  split; [exact (uuidv4_eq_isUuid _ _ _ _ E2)|].
  split; [exact (uuidv4_eq_isUuid _ _ _ _ E3)|].
  split; [exact (uuidv4_eq_isUuid _ _ _ _ E8)|].
  split.
  { destruct (truthy (practitionerRefId g)).
    - unfold ret in E4. now injection E4 as <- _.
    - exact (uuidv4_eq_isUuid _ _ _ _ E4). }
  split; [exact (uuid_if_drawn _ _ _ _ _ E5)|].
  split; [exact (uuid_if_drawn _ _ _ _ _ E6)|].
  split; [exact (uuid_if_drawn _ _ _ _ _ E7)|].
  split.
  { pose proof (mapM_uuid_all h (toProcess s) w8) as F. now rewrite E9 in F. }
  split.
  { pose proof (mapM_uuid_all h binIds w9) as F. now rewrite E10 in F. }
  repeat split; assumption.
Qed.

Lemma isUuid_truthy (s : string) : isUuid s = true -> truthy s = true.
Proof. destruct s; [discriminate|reflexivity]. Qed.

(** Every record of a bundle [App.js] submits is identified by a UUID of
    the form [isUuid] accepts, when the module constants are the ones computed
    from [window.GlobalPractitioner], whatever that object holds. *)
Theorem app_entry_ids_are_uuids (h : Host) (gp : option GlobalPractitioner)
  (w0 : World) (s : State) (w : World) (b : Bundle) :
  run (onBuildBundle h (run (load_globals h gp) w0) s) w = Submitted b ->
  Forall (fun id => isUuid id = true) (entry_ids b).
Proof.
  intros H. apply onBuildBundle_drawn in H.
  destruct H as (compId & patientId & practitionerId & invoiceId & authoredOn
    & encounterId & custodianId & attesterOrgId & docBinaryIds & docRefIds & n
    & binaries & docRefs & He & Hc & Hp & Hi & Hpr & Hen & Hcu & Hat & Fb & Fd
    & _ & _ & Ib & Id).
  pose proof (load_globals_refId h gp w0) as Hg.
  rewrite (isUuid_truthy _ Hg) in Hpr. subst practitionerId.
  unfold entry_ids. rewrite He. rewrite !map_app, !map_map.
  cbn [map entry_of resource resource_id app buildComposition comp_id
       buildPatientResource pat_id buildPractitionerResource pr_id
       buildInvoiceResource inv_id].
  repeat (constructor; [assumption|]).
  rewrite !Forall_app. repeat split.
  - destruct encounterId as [u|]; cbn [option_map opt_list map]; constructor;
      [|constructor]. cbn [encounter_of enc_id]. tauto.
  - destruct custodianId as [u|]; cbn [buildOrg opt_list map]; constructor;
      [|constructor]. cbn [org_id]. tauto.
  - destruct attesterOrgId as [u|]; cbn [buildOrg opt_list map]; constructor;
      [|constructor]. cbn [org_id]. tauto.
  - apply Forall_map. rewrite <- Id in Fd. apply Forall_map in Fd. exact Fd.
  - apply Forall_map. rewrite <- Ib in Fb. apply Forall_map in Fb. exact Fb.
Qed.

Lemma app_entry_ids_are_uuids_witness :
  of_app_result MoreSamples.app_result_with_file
    (fun b => Forall (fun id => isUuid id = true) (entry_ids b)).
Proof.
  destruct MoreSamples.app_result_with_file as [errs| |b] eqn:E;
    [vm_compute in E; discriminate E | vm_compute in E; discriminate E|].
  cbv beta iota delta [of_app_result].
  apply (app_entry_ids_are_uuids Samples.host None world0
           MoreSamples.app_state_with_file MoreSamples.world_after_load b).
  exact E.
Defined.

(** How many entries a submitted bundle has: the Composition, the Patient,
    the Practitioner and the Invoice; one more for each of the encounter
    text, the custodian name and the attester organisation (party type
    Organization with a name) that is filled in; and a DocumentReference and
    a Binary per picked file, or one pair when no file is picked. *)
Theorem app_entry_count (h : Host) (g : Globals) (s : State) (w : World) (b : Bundle) :
  run (onBuildBundle h g s) w = Submitted b ->
  List.length (entry b)
  = 4 + Nat.b2n (truthy (encounterText s)) + Nat.b2n (truthy (custodianName s))
    + Nat.b2n (String.eqb (attesterPartyType s) "Organization"
               && truthy (attesterOrgName s))
    + 2 * Nat.max 1 (List.length (files s)).
Proof.
  intros H. apply onBuildBundle_drawn in H.
  destruct H as (compId & patientId & practitionerId & invoiceId & authoredOn
    & encounterId & custodianId & attesterOrgId & docBinaryIds & docRefIds & n
    & binaries & docRefs & He & _ & _ & _ & _ & Hen & Hcu & Hat & _ & _
    & Lb & Ld & _ & _).
  rewrite He. rewrite !length_app, !length_map. cbn [List.length].
  rewrite Lb, Ld.
  assert (Lp : List.length (toProcess s) = Nat.max 1 (List.length (files s))).
  { unfold toProcess. destruct (files s) as [|f fs]; [reflexivity|].
    rewrite length_map. cbn [List.length]. lia. }
  rewrite Lp.
  destruct encounterId as [u1|]; [destruct Hen as [-> _]|rewrite Hen];
  (destruct custodianId as [u2|]; [destruct Hcu as [-> _]|rewrite Hcu]);
  (destruct attesterOrgId as [u3|]; [destruct Hat as [-> _]|rewrite Hat]);
  cbn [option_map opt_list buildOrg List.length Nat.b2n]; lia.
Qed.

Lemma app_entry_count_witness :
  of_app_result MoreSamples.app_result_with_file
    (fun b => List.length (entry b) = 7).
Proof.
  destruct MoreSamples.app_result_with_file as [errs| |b] eqn:E;
    [vm_compute in E; discriminate E | vm_compute in E; discriminate E|].
  cbv beta iota delta [of_app_result].
  apply (app_entry_count Samples.host MoreSamples.loaded_globals
           MoreSamples.app_state_with_file MoreSamples.world_after_load b).
  exact E.
Defined.

End AppIdentifiers.

(** ** The attester and the invoice lines of a bundle built by [App.js] *)

Section AppRecords.

Import AppJs.

(** The Composition of a submitted bundle has exactly one attester.  It is
    the attester organisation, in the chosen mode, when the party type is
    Organization and a name is given for it, and that organisation is then an
    entry of the bundle; otherwise it is the practitioner, in the chosen mode
    when the party type is Practitioner and in mode official when it is
    not. *)
Theorem app_attester (h : Host) (g : Globals) (s : State) (w : World) (b : Bundle) :
  run (onBuildBundle h g s) w = Submitted b ->
  exists comp rest a,
    entry b = entry_of (RComposition comp) :: rest
    /\ comp_attester comp = [a]
    /\ if String.eqb (attesterPartyType s) "Organization" && truthy (attesterOrgName s)
       then att_mode a = attesterMode s
            /\ exists o, In (entry_of (ROrganization o)) rest
                         /\ org_name o = attesterOrgName s
                         /\ att_party a = mkRef (urn (org_id o))
       else att_mode a = (if String.eqb (attesterPartyType s) "Practitioner"
                          then attesterMode s else "official"%string)
            /\ exists p, In (entry_of (RPractitioner p)) rest
                         /\ att_party a = mkRef (urn (pr_id p)).
Proof.
  intros H. apply onBuildBundle_drawn in H.
  destruct H as (compId & patientId & practitionerId & invoiceId & authoredOn
    & encounterId & custodianId & attesterOrgId & docBinaryIds & docRefIds & n
    & binaries & docRefs & He & _ & _ & _ & _ & _ & _ & Hat & _).
  rewrite He. cbn [app]. eexists. eexists.
  destruct (String.eqb (attesterPartyType s) "Practitioner") eqn:Hp.
  - (* the practitioner attests *)
    apply String.eqb_eq in Hp.
    assert (Ho : String.eqb (attesterPartyType s) "Organization" = false)
      by now rewrite Hp.
    rewrite Ho. cbn [andb].
    eexists. split; [reflexivity|]. split.
    + unfold buildComposition. cbn [comp_attester]. rewrite Hp. reflexivity.
    + cbn [att_mode att_party]. split; [reflexivity|].
      eexists. split; [right; left; reflexivity|]. reflexivity.
  - destruct attesterOrgId as [oid|].
    + destruct Hat as [Hc _]. rewrite Hc.
      apply andb_prop in Hc. destruct Hc as [Ho Hn].
      eexists. split; [reflexivity|]. split.
      * unfold buildComposition. cbn [comp_attester]. rewrite Hp, Ho. reflexivity.
      * cbn [att_mode att_party]. split; [reflexivity|].
        exists {| org_id := oid; org_name := attesterOrgName s; org_identifier := [];
                  org_telecom := None; org_address := None |}.
        split; [|split; reflexivity].
        do 3 right. rewrite !in_app_iff. right. right. left.
        cbn [buildOrg opt_list map]. now left.
    + rewrite Hat.
      eexists. split; [reflexivity|]. split.
      * unfold buildComposition. cbn [comp_attester]. rewrite Hp. reflexivity.
      * cbn [att_mode att_party]. split; [reflexivity|].
        eexists. split; [right; left; reflexivity|]. reflexivity.
Qed.

Lemma app_attester_witness :
  of_app_result MoreSamples.app_result_with_file
    (fun b => exists comp rest a,
       entry b = entry_of (RComposition comp) :: rest
       /\ comp_attester comp = [a]
       /\ att_mode a = "official"%string
       /\ exists p, In (entry_of (RPractitioner p)) rest
                    /\ att_party a = mkRef (urn (pr_id p))).
Proof.
  destruct MoreSamples.app_result_with_file as [errs| |b] eqn:E;
    [vm_compute in E; discriminate E | vm_compute in E; discriminate E|].
  cbv beta iota delta [of_app_result].
  apply (app_attester Samples.host MoreSamples.loaded_globals
           MoreSamples.app_state_with_file MoreSamples.world_after_load b).
  exact E.
Defined.

(** The [lineItem] of the Invoice of a submitted bundle lists the lines
    whose quantity is a number above zero and whose price is not negative, in
    order, each with its price as the base amount and its quantity as the
    factor; the field is absent when there is no such line. *)
Theorem app_invoice_lines (h : Host) (g : Globals) (s : State) (w : World)
  (b : Bundle) :
  run (onBuildBundle h g s) w = Submitted b ->
  exists inv,
    bundle_invoices b = [inv]
    /\ inv_lineItem inv = nonempty (map line_item (filter line_kept (lines s)))
    /\ match inv_lineItem inv with
       | None => forall l, In l (lines s) -> line_kept l = false
       | Some items =>
           items <> []
           /\ Forall (fun it =>
                exists unit qty,
                  il_priceComponent it
                  = [ {| pc_type := "base"; pc_amount := Some unit; pc_factor := None |};
                      {| pc_type := "informational"; pc_amount := None;
                         pc_factor := Some qty |} ]
                  /\ (zero <? qty)%float = true /\ (zero <=? unit)%float = true) items
       end.
Proof.
  intros H. apply onBuildBundle_drawn in H.
  destruct H as (compId & patientId & practitionerId & invoiceId & authoredOn
    & encounterId & custodianId & attesterOrgId & docBinaryIds & docRefIds & n
    & binaries & docRefs & He & _).
  eexists. split; [|split].
  - unfold bundle_invoices. rewrite He, !flat_map_app.
    cbn [flat_map entry_of resource app entry_invoice].
    rewrite !(flat_map_map_nil entry_invoice) by reflexivity.
    reflexivity.
  - reflexivity.
  - cbn [buildInvoiceResource inv_lineItem].
    destruct (filter line_kept (lines s)) as [|l0 kept] eqn:Hk.
    + cbn [map nonempty]. intros l Hin.
      destruct (line_kept l) eqn:Hl; [|reflexivity].
      assert (Hf : In l (filter line_kept (lines s))) by (apply filter_In; now split).
      rewrite Hk in Hf. destruct Hf.
    + cbn [map nonempty]. split; [discriminate|].
      rewrite <- (map_cons line_item l0 kept), <- Hk.
      apply Forall_map. apply Forall_forall. intros l Hin.
      apply filter_In in Hin. destruct Hin as [_ Hl].
      unfold line_kept in Hl. apply andb_prop in Hl. destruct Hl as [Hq Hu].
      eexists. eexists. split; [reflexivity|]. split; assumption.
Qed.

Lemma app_invoice_lines_witness :
  of_app_result MoreSamples.app_result_with_file
    (fun b => exists inv,
       bundle_invoices b = [inv]
       /\ inv_lineItem inv
          = nonempty (map line_item (filter line_kept (lines MoreSamples.app_state_with_file)))
       /\ option_map (@List.length InvoiceLine) (inv_lineItem inv) = Some 1).
Proof.
  destruct MoreSamples.app_result_with_file as [errs| |b] eqn:E;
    [vm_compute in E; discriminate E | vm_compute in E; discriminate E|].
  cbv beta iota delta [of_app_result].
  destruct (app_invoice_lines Samples.host MoreSamples.loaded_globals
              MoreSamples.app_state_with_file MoreSamples.world_after_load b E)
    as (inv & Hi & Hl & _).
  exists inv. split; [exact Hi|]. split; [exact Hl|]. rewrite Hl. reflexivity.
Defined.

End AppRecords.

(** ** The lines of [App.js] *)

Section AppLines.

Import AppJs AppHandlers.

Lemma filteri_drop {A} (i k : nat) (l : list A) :
  filteri (fun idx _ => negb (Nat.eqb idx (k + i))) k l = firstn i l ++ skipn (S i) l.
Proof.
  revert i k. induction l as [|x t IH]; intros i k.
  - now destruct i.
  - cbn [filteri]. destruct i as [|i].
    + rewrite Nat.add_0_r, Nat.eqb_refl. cbn [negb firstn skipn app].
      clear IH. assert (H : forall j, k < j ->
        filteri (fun idx (_ : A) => negb (Nat.eqb idx k)) j t = t).
      { induction t as [|y t' IHt]; intros j Hj; [reflexivity|].
        cbn [filteri]. destruct (Nat.eqb_spec j k) as [E|_]; [lia|].
        cbn [negb]. f_equal. apply IHt. lia. }
      apply H. lia.
    + destruct (Nat.eqb_spec k (k + S i)) as [E|_]; [lia|].
      cbn [negb firstn skipn app]. f_equal.
      replace (k + S i) with (S k + i) by lia. apply IH.
Qed.

Lemma lines_removeLine (i : nat) (s : State) :
  lines (removeLine i s) = firstn i (lines s) ++ skipn (S i) (lines s).
Proof.
  unfold removeLine, set_lines. cbn [lines].
  exact (filteri_drop i 0 (lines s)).
Qed.

(** [removeLine(i)] deletes the line at index [i] and keeps the others in
    order; an index past the end deletes nothing.  The handler has no guard
    of its own: called on the only line, it leaves none. *)
Theorem removeLine_at (i : nat) (s : State) :
  lines (removeLine i s) = firstn i (lines s) ++ skipn (S i) (lines s)
  /\ (List.length (lines s) <= i -> lines (removeLine i s) = lines s)
  /\ (List.length (lines s) = 1 -> lines (removeLine 0 s) = []).
Proof.
  split; [apply lines_removeLine|]. split.
  - intros L. rewrite lines_removeLine, firstn_all2, skipn_all2 by lia.
    apply app_nil_r.
  - intros L. rewrite lines_removeLine.
    destruct (lines s) as [|l [|l' t]]; try discriminate L. reflexivity.
Qed.

Lemma nth_error_mapi {A B} (f : nat -> A -> B) (k j : nat) (l : list A) :
  nth_error (mapi f k l) j = option_map (f (k + j)) (nth_error l j).
Proof.
  revert k j. induction l as [|x t IH]; intros k j.
  - now destruct j.
  - destruct j as [|j]; cbn [mapi nth_error option_map].
    + now rewrite Nat.add_0_r.
    + rewrite IH. now replace (S k + j) with (k + S j) by lia.
Qed.

(** [updateLine(i, key, val)] sets the field of the line at index [i] and
    leaves every other line as it is; an index past the end changes
    nothing, and no line is added. *)
Theorem updateLine_at (i : nat) (key : LineKey) (val : string) (s : State) (j : nat) :
  nth_error (lines (updateLine i key val s)) j
  = if Nat.eqb j i
    then option_map (fun m => set_field m key val) (nth_error (lines s) j)
    else nth_error (lines s) j.
Proof.
  unfold updateLine, set_lines. cbn [lines].
  rewrite nth_error_mapi. cbn [Nat.add].
  destruct (Nat.eqb j i); [reflexivity|].
  now destruct (nth_error (lines s) j).
Qed.

Lemma length_mapi {A B} (f : nat -> A -> B) (k : nat) (l : list A) :
  List.length (mapi f k l) = List.length l.
Proof. revert k. induction l as [|x t IH]; intros k; simpl; [reflexivity|]. now rewrite IH. Qed.

Lemma line_event_keeps_one (s : State) (e : LineEvent) :
  1 <= List.length (lines s) -> 1 <= List.length (lines (line_event s e)).
Proof.
  intros H. destruct e as [|i key val|i]; cbn [line_event].
  - unfold addLine, set_lines. cbn [lines]. rewrite length_app. lia.
  - unfold updateLine, set_lines. cbn [lines]. now rewrite length_mapi.
  - destruct (Nat.eqb_spec (List.length (lines s)) 1) as [E|Hne]; [exact H|].
    rewrite lines_removeLine, length_app, length_firstn, length_skipn. lia.
Qed.

(** Driven through the form, the lines never become empty: from a state
    with a line, as the initial one, whatever the user adds, edits and
    removes, at least one line is left. *)
Theorem app_lines_never_empty (s : State) (events : list LineEvent) :
  lines s <> [] ->
  lines (fold_left line_event events s) <> [].
Proof.
  intros H.
  assert (L : 1 <= List.length (lines s)).
  { destruct (lines s); [contradiction|simpl; lia]. }
  clear H. revert s L. induction events as [|e es IH]; intros s L; cbn [fold_left].
  - intros E. rewrite E in L. simpl in L. lia.
  - apply IH. now apply line_event_keeps_one.
Qed.

Lemma app_lines_never_empty_witness :
  lines Samples.app_state = initial_lines
  /\ lines (fold_left line_event
              [AddClicked; RemoveClicked 0; RemoveClicked 0; FieldChanged 0 KQuantity "3"]
              Samples.app_state) <> [].
Proof.
  split; [reflexivity|].
  apply (app_lines_never_empty Samples.app_state). discriminate.
Defined.

Lemma hasCharge_addLine (s : State) : hasCharge (addLine s) = hasCharge s.
Proof.
  unfold hasCharge, addLine, set_lines. cbn [lines].
  rewrite existsb_app. cbn [existsb].
  replace (zero <? line_amount {| description := ""; quantity := VNum 1;
                                  unitPrice := VNum 0 |})%float with false
    by (vm_compute; reflexivity).
  now rewrite !orb_false_r.
Qed.

Lemma description_edit_amounts (i : nat) (val : string) (ls : list Line) (k : nat)
  (acc : float) :
  fold_left (fun sum l => (sum + line_amount l)%float)
    (mapi (fun idx m => if Nat.eqb idx i then set_field m KDescription val else m) k ls)
    acc
  = fold_left (fun sum l => (sum + line_amount l)%float) ls acc
  /\ existsb (fun l => (zero <? line_amount l)%float)
       (mapi (fun idx m => if Nat.eqb idx i then set_field m KDescription val else m) k ls)
     = existsb (fun l => (zero <? line_amount l)%float) ls.
Proof.
  revert k acc. induction ls as [|l t IH]; intros k acc; [split; reflexivity|].
  cbn [mapi fold_left existsb].
  assert (E : line_amount (if Nat.eqb k i then set_field l KDescription val else l)
              = line_amount l).
  { destruct (Nat.eqb k i); reflexivity. }
  rewrite E. destruct (IH (S k) (acc + line_amount l)%float) as [H1 H2].
  split; [exact H1|]. now rewrite H2.
Qed.

(** Edits that leave the amounts alone leave the total and the verdict of
    validation alone: adding a line, whose amount is zero, changes nothing to
    what [validateBeforeBuild] reports, and editing a description changes
    neither [invoiceTotal] nor what [validateBeforeBuild] reports. *)
Theorem neutral_line_edits (i : nat) (val : string) (s : State) :
  validateBeforeBuild (addLine s) = validateBeforeBuild s
  /\ invoiceTotal (updateLine i KDescription val s) = invoiceTotal s
  /\ validateBeforeBuild (updateLine i KDescription val s) = validateBeforeBuild s.
Proof.
  split; [|split].
  - unfold validateBeforeBuild. rewrite hasCharge_addLine. reflexivity.
  - unfold invoiceTotal, updateLine, set_lines. cbn [lines].
    apply description_edit_amounts.
  - unfold validateBeforeBuild.
    assert (E : hasCharge (updateLine i KDescription val s) = hasCharge s).
    { unfold hasCharge, updateLine, set_lines. cbn [lines].
      apply (description_edit_amounts i val (lines s) 0 zero). }
    rewrite E. reflexivity.
Qed.

End AppLines.

(** ** The preselected ABHA address *)

Section Preselection.

Import AppJs AppHandlers.

Lemma In_map_filter {A B} (f : A -> option B) (l : list A) (x : A) (y : B) :
  In x l -> f x = Some y -> In y (map_filter f l).
Proof.
  induction l as [|a t IH]; intros Hin Hf; [destruct Hin|].
  cbn [map_filter]. destruct Hin as [->|Hin].
  - rewrite Hf. now left.
  - destruct (f a); [right|]; now apply IH.
Qed.

(** When the selected patient has an address marked primary, the address
    the effect preselects is one marked primary, and it is the first of the
    options. *)
Theorem preselected_abha_is_primary (h : Host) (s : State) (p : PatientRecord)
  (item : AbhaItem) (a : NormalizedAddress) :
  selectedPatient s = Some p ->
  In item (raw_addresses (Some p)) -> coerce_item item = Some a -> primary a = true ->
  exists first rest,
    fst (abha_effect h s) = first :: rest
    /\ snd (abha_effect h s) = value first
    /\ primary first = true.
Proof.
  intros Hs Hin Hc Hp. unfold abha_effect. rewrite Hs. cbn [fst snd].
  pose proof (In_map_filter _ _ _ _ Hin Hc) as Ha.
  unfold normalizeAbhaAddresses.
  pose proof (sort_perm (address_cmp h) (map_filter coerce_item (raw_addresses (Some p))))
    as Hperm.
  pose proof (sort_primaries_first h (map_filter coerce_item (raw_addresses (Some p))))
    as Hpf.
  apply (Permutation_in _ (Permutation_sym Hperm)) in Ha.
  destruct (sort (address_cmp h) (map_filter coerce_item (raw_addresses (Some p))))
    as [|first rest]; [destruct Ha|].
  exists first, rest. split; [reflexivity|]. split; [reflexivity|].
  cbn [primaries_first] in Hpf.
  destruct (primary first) eqn:Hf; [reflexivity|].
  destruct Ha as [->|Ha]; [congruence|].
  rewrite forallb_forall in Hpf. apply Hpf in Ha. rewrite Hp in Ha. discriminate Ha.
Qed.

Lemma preselected_abha_is_primary_witness :
  exists first rest,
    fst (abha_effect Samples.host Samples.app_state) = first :: rest
    /\ snd (abha_effect Samples.host Samples.app_state) = value first
    /\ primary first = true.
Proof.
  apply (preselected_abha_is_primary Samples.host Samples.app_state Samples.asha
           (ItemObject (Some "b"%string) true "{}"%string)
           {| value := "b"; label := "b (primary)"; primary := true |}).
  - reflexivity.
  - right. left. reflexivity.
  - reflexivity.
  - reflexivity.
Defined.

(** With no patient selected, or a patient without a usable address, the
    effect leaves no option and an empty selection. *)
Theorem no_address_no_preselection (h : Host) (s : State) :
  (forall p item, selectedPatient s = Some p -> In item (raw_addresses (Some p)) ->
                  coerce_item item = None) ->
  abha_effect h s = ([], ""%string).
Proof.
  intros H. unfold abha_effect. destruct (selectedPatient s) as [p|]; [|reflexivity].
  unfold normalizeAbhaAddresses.
  assert (E : map_filter coerce_item (raw_addresses (Some p)) = []).
  { specialize (H p). induction (raw_addresses (Some p)) as [|x t IH]; [reflexivity|].
    cbn [map_filter]. rewrite (H x eq_refl (or_introl eq_refl)).
    apply IH. intros item Hs Hin. apply H; [exact Hs|now right]. }
  rewrite E. reflexivity.
Qed.

Lemma no_address_no_preselection_witness :
  abha_effect Samples.host Samples.app_state_empty = ([], ""%string).
Proof.
  apply (no_address_no_preselection Samples.host Samples.app_state_empty).
  intros p item H. discriminate H.
Defined.

End Preselection.

(** ** Picked files and the names shown for them *)

Section PickedFiles.

Import AppJs AppHandlers.

Lemma filteri_map {A B} (f : A -> B) (p : nat -> bool) (k : nat) (l : list A) :
  filteri (fun idx _ => p idx) k (map f l) = map f (filteri (fun idx _ => p idx) k l).
Proof.
  revert k. induction l as [|x t IH]; intros k; [reflexivity|].
  cbn [map filteri]. destruct (p k); cbn [map]; now rewrite IH.
Qed.

(** Whatever files are picked and removed, the names shown are the names of
    the files kept, in order; so the notice that a placeholder will be
    embedded is shown exactly when no file is left. *)
Theorem preview_names_follow_files (events : list FileEvent) :
  let p := fold_left file_event events no_files in
  filePreviewNames p = map f_name (picked p)
  /\ (filePreviewNames p = [] <-> picked p = []).
Proof.
  cbv zeta.
  assert (H : forall p, filePreviewNames p = map f_name (picked p) ->
            filePreviewNames (fold_left file_event events p)
            = map f_name (picked (fold_left file_event events p))).
  { induction events as [|e es IH]; intros p Hp; cbn [fold_left]; [exact Hp|].
    apply IH. destruct e as [l|i]; cbn [file_event].
    - reflexivity.
    - unfold removeFileAtIndex. cbn [picked filePreviewNames]. rewrite Hp.
      apply (filteri_map f_name (fun idx => negb (Nat.eqb idx i))). }
  specialize (H no_files eq_refl). split; [exact H|].
  rewrite H. destruct (picked (fold_left file_event events no_files)); simpl;
    split; congruence.
Qed.

End PickedFiles.

(** ** Date and time stamps of [App.js] *)

Section Stamps.

Import AppJs AppHandlers.

Lemma chars_append (a b : string) : chars (a ++ b) = (chars a ++ chars b)%list.
Proof. unfold chars. induction a as [|c a IH]; simpl; [reflexivity|]. now rewrite IH. Qed.

Lemma matches_stamp_app (p1 p2 : list StampClass) (l1 l2 : list ascii) :
  matches_stamp p1 l1 = true -> matches_stamp p2 l2 = true ->
  matches_stamp (p1 ++ p2) (l1 ++ l2) = true.
Proof.
  revert l1. induction p1 as [|k p1 IH]; intros l1 H1 H2.
  - destruct l1; [exact H2|discriminate H1].
  - destruct l1 as [|c l1]; [discriminate H1|].
    cbn [matches_stamp app] in *. apply andb_prop in H1. destruct H1 as [Hc Hr].
    rewrite Hc. cbn [andb]. now apply IH.
Qed.

Lemma matches_stamp_length (p : list StampClass) (l : list ascii) :
  matches_stamp p l = true -> List.length l = List.length p.
Proof.
  revert l. induction p as [|k p IH]; intros [|c l] H; try discriminate H; [reflexivity|].
  cbn [matches_stamp] in H. apply andb_prop in H. simpl. f_equal. now apply IH.
Qed.

(** Checking a property of the integers [lo], ..., [lo + n - 1] one by one. *)
Lemma range_check (P : Z -> bool) (lo : nat) (n : nat) :
  forallb (fun k => P (Z.of_nat k)) (seq lo n) = true ->
  forall z, (Z.of_nat lo <= z < Z.of_nat (lo + n))%Z -> P z = true.
Proof.
  intros H z Hz. rewrite forallb_forall in H.
  specialize (H (Z.to_nat z)). rewrite Z2Nat.id in H by lia.
  apply H. apply in_seq. lia.
Qed.

Lemma pad_two_digits (n : Z) :
  (0 <= n < 100)%Z -> matches_stamp [SDigit; SDigit] (chars (pad n)) = true.
Proof.
  intros H.
  apply (range_check (fun z => matches_stamp [SDigit; SDigit] (chars (pad z))) 0 100);
    [vm_compute; reflexivity|]. simpl. lia.
Qed.

Lemma year_four_digits (n : Z) :
  (1000 <= n <= 9999)%Z ->
  matches_stamp [SDigit; SDigit; SDigit; SDigit] (chars (string_of_int n)) = true.
Proof.
  intros H.
  apply (range_check
           (fun z => matches_stamp [SDigit; SDigit; SDigit; SDigit] (chars (string_of_int z)))
           (10 * 100) (90 * 100)); [vm_compute; reflexivity|]. lia.
Qed.

Lemma nth_error_next {A} (x : A) (l : list A) (n : nat) :
  nth_error (x :: l) (S n) = nth_error l n.
Proof. reflexivity. Qed.

Lemma prefix_append (a b : string) : String.prefix a (a ++ b) = true.
Proof.
  induction a as [|c a IH]; simpl; [now destruct b|].
  destruct (ascii_dec c c) as [_|N]; [exact IH|now contradiction N].
Qed.

Lemma prefix_same_head (x a b : string) :
  String.prefix (x ++ a) (x ++ b) = String.prefix a b.
Proof.
  induction x as [|c x IH]; simpl; [reflexivity|].
  destruct (ascii_dec c c) as [_|N]; [exact IH|now contradiction N].
Qed.

Lemma length_chars (s : string) : List.length (chars s) = String.length s.
Proof. unfold chars. induction s as [|c s IH]; simpl; [reflexivity|now rewrite IH]. Qed.

(** For a date of the years 1000 to 9999, [isoWithLocalOffsetFromDate]
    returns a text of the form [YYYY-MM-DDThh:mm:ss+zz:zz]; its sign is [+]
    exactly when [getTimezoneOffset] is not positive, that is for a zone at or
    ahead of UTC; and the initial value of the date and time field, computed
    from the same date, is its first sixteen characters. *)
Theorem offset_stamp_form (d : DateFields) :
  in_calendar_ranges d = true ->
  let out := isoWithLocalOffsetFromDate (Some d) in
  matches_stamp offset_stamp (chars out) = true
  /\ nth_error (chars out) 19
     = Some (if (getTimezoneOffset d <=? 0)%Z then "+"%char else "-"%char)
  /\ String.prefix (initial_dateTimeLocal d) out = true
  /\ String.length (initial_dateTimeLocal d) = 16.
Proof.
  intros Hr. unfold in_calendar_ranges in Hr.
  repeat (apply andb_prop in Hr; destruct Hr as [Hr ?]).
  repeat match goal with
         | H : (_ <=? _)%Z = true |- _ => apply Z.leb_le in H
         | H : (_ <? _)%Z = true |- _ => apply Z.ltb_lt in H
         end.
  cbv zeta.
  destruct d as [yr mo dt hr mi se tz]. cbn [getFullYear getMonth getDate getHours
    getMinutes getSeconds getTimezoneOffset] in *.
  pose proof (year_four_digits yr ltac:(lia)) as Hy.
  pose proof (pad_two_digits (mo + 1) ltac:(lia)) as Hmo.
  pose proof (pad_two_digits dt ltac:(lia)) as Hdt.
  pose proof (pad_two_digits hr ltac:(lia)) as Hhr.
  pose proof (pad_two_digits mi ltac:(lia)) as Hmi.
  pose proof (pad_two_digits se ltac:(lia)) as Hse.
  assert (Hzh : (0 <= Z.abs (- tz) / 60 < 100)%Z).
  { split; [apply Z.div_pos; lia|]. apply Z.div_lt_upper_bound; lia. }
  assert (Hzm : (0 <= Z.abs (- tz) mod 60 < 100)%Z).
  { pose proof (Z.mod_pos_bound (Z.abs (- tz)) 60 ltac:(lia)). lia. }
  pose proof (pad_two_digits _ Hzh) as Hoh.
  pose proof (pad_two_digits _ Hzm) as Hom.
  set (sign := if (0 <=? - tz)%Z then "+"%string else "-"%string).
  assert (Hsign : chars sign
                  = [if (tz <=? 0)%Z then "+"%char else "-"%char]).
  { unfold sign. destruct (Z.leb_spec 0 (- tz)), (Z.leb_spec tz 0); try lia; reflexivity. }
  assert (Hs : matches_stamp [SSign] (chars sign) = true).
  { rewrite Hsign. now destruct (tz <=? 0)%Z. }
  unfold isoWithLocalOffsetFromDate.
  cbn [getFullYear getMonth getDate getHours getMinutes getSeconds getTimezoneOffset].
  fold sign.
  split; [|split; [|split]].
  - rewrite !chars_append.
    change offset_stamp with
      ([SDigit; SDigit; SDigit; SDigit] ++ [SLit "-"] ++ [SDigit; SDigit] ++ [SLit "-"]
       ++ [SDigit; SDigit] ++ [SLit "T"] ++ [SDigit; SDigit] ++ [SLit ":"]
       ++ [SDigit; SDigit] ++ [SLit ":"] ++ [SDigit; SDigit] ++ [SSign]
       ++ [SDigit; SDigit] ++ [SLit ":"] ++ [SDigit; SDigit])%list.
    repeat (apply matches_stamp_app; [first [assumption|reflexivity]|]).
    assumption.
  - rewrite !chars_append.
    change (chars "-") with ["-"%char]. change (chars "T") with ["T"%char].
    change (chars ":") with [":"%char]. cbn [app].
    repeat first
      [ rewrite Hsign; reflexivity
      | match goal with
        | Hp : matches_stamp _ ?l = true |- nth_error (?l ++ _) _ = _ =>
            rewrite (nth_error_app2 l)
              by (rewrite (matches_stamp_length _ _ Hp); simpl; lia);
            rewrite (matches_stamp_length _ _ Hp); cbn [List.length Nat.sub]
        end
      | rewrite nth_error_next ].
  - unfold initial_dateTimeLocal.
    cbn [getFullYear getMonth getDate getHours getMinutes].
    unfold pad. unfold string_of_int at 2 3 4 5.
    replace (mo + 1 <? 0)%Z with false by (symmetry; apply Z.ltb_ge; lia).
    replace (dt <? 0)%Z with false by (symmetry; apply Z.ltb_ge; lia).
    replace (hr <? 0)%Z with false by (symmetry; apply Z.ltb_ge; lia).
    replace (mi <? 0)%Z with false by (symmetry; apply Z.ltb_ge; lia).
    rewrite (Z.abs_eq (mo + 1)), (Z.abs_eq dt), (Z.abs_eq hr), (Z.abs_eq mi) by lia.
    rewrite !prefix_same_head. apply prefix_append.
  - unfold initial_dateTimeLocal.
    cbn [getFullYear getMonth getDate getHours getMinutes].
    rewrite <- length_chars, !chars_append, !length_app.
    unfold pad in Hmo, Hdt, Hhr, Hmi. unfold string_of_int in *.
    replace (mo + 1 <? 0)%Z with false by (symmetry; apply Z.ltb_ge; lia).
    replace (dt <? 0)%Z with false by (symmetry; apply Z.ltb_ge; lia).
    replace (hr <? 0)%Z with false by (symmetry; apply Z.ltb_ge; lia).
    replace (mi <? 0)%Z with false by (symmetry; apply Z.ltb_ge; lia).
    rewrite !Z.abs_eq in * by lia.
    rewrite (matches_stamp_length _ _ Hy), (matches_stamp_length _ _ Hmo),
      (matches_stamp_length _ _ Hdt), (matches_stamp_length _ _ Hhr),
      (matches_stamp_length _ _ Hmi).
    reflexivity.
Qed.

Lemma offset_stamp_form_witness :
  isoWithLocalOffsetFromDate (Some MoreSamples.date) = "2025-08-30T15:04:05+05:30"%string
  /\ initial_dateTimeLocal MoreSamples.date = "2025-08-30T15:04"%string
  /\ (let out := isoWithLocalOffsetFromDate (Some MoreSamples.date) in
      matches_stamp offset_stamp (chars out) = true
      /\ nth_error (chars out) 19
         = Some (if (getTimezoneOffset MoreSamples.date <=? 0)%Z
                 then "+"%char else "-"%char)
      /\ String.prefix (initial_dateTimeLocal MoreSamples.date) out = true
      /\ String.length (initial_dateTimeLocal MoreSamples.date) = 16).
Proof.
  split; [reflexivity|]. split; [reflexivity|].
  apply (offset_stamp_form MoreSamples.date). reflexivity.
Defined.

End Stamps.

(** ** Reading a file: the payload of a data URL *)

Section DataUrl.

Import AppJs AppHandlers.

(** A text that starts with the marker has a comma as its seventh
    character. *)
Lemma starts_with_marker_comma (l : list ascii) :
  starts_with (chars "base64,") l = true -> nth_error l 6 = Some ","%char.
Proof.
  destruct l as [|c1 [|c2 [|c3 [|c4 [|c5 [|c6 [|c7 l]]]]]]];
    cbn [chars list_ascii_of_string starts_with]; intros H;
    repeat (apply andb_prop in H; destruct H as [? H]); try discriminate.
  match goal with
  | E : Ascii.eqb ","%char c7 = true |- _ => apply Ascii.eqb_eq in E; now subst c7
  end.
Qed.

Lemma no_comma_nth (l : list ascii) (n : nat) :
  existsb (Ascii.eqb ","%char) l = false -> (n < List.length l)%nat ->
  nth_error l n <> Some ","%char.
Proof.
  revert n. induction l as [|c l IH]; intros n H L; [simpl in L; lia|].
  cbn [existsb] in H. apply orb_false_elim in H. destruct H as [Hc Hl].
  destruct n as [|n]; cbn [nth_error].
  - intros E. injection E as ->. discriminate Hc.
  - apply IH; [exact Hl|simpl in L; lia].
Qed.

(** Before the marker that follows a text without a comma, no occurrence of
    the marker starts. *)
Lemma marker_not_earlier (c : ascii) (pre rest : list ascii) :
  existsb (Ascii.eqb ","%char) (c :: pre) = false ->
  starts_with (chars "base64,") ((c :: pre) ++ chars "base64," ++ rest) = false.
Proof.
  intros H.
  destruct (starts_with (chars "base64,") ((c :: pre) ++ chars "base64," ++ rest)) eqn:E;
    [|reflexivity].
  apply starts_with_marker_comma in E. exfalso.
  destruct (Nat.ltb_spec 6 (List.length (c :: pre))) as [L|L].
  - rewrite nth_error_app1 in E by exact L.
    exact (no_comma_nth _ _ H L E).
  - rewrite nth_error_app2 in E by exact L.
    remember (6 - List.length (c :: pre)) as k eqn:Hk.
    assert (Lk : k < 6) by (cbn [List.length] in Hk; lia).
    cbn [chars list_ascii_of_string app] in E.
    do 6 (destruct k as [|k]; [discriminate E|]). lia.
Qed.

Lemma indexOf_marker (pre rest : list ascii) (i : nat) :
  existsb (Ascii.eqb ","%char) pre = false ->
  indexOf (chars "base64,") i (pre ++ chars "base64," ++ rest)
  = Some (i + List.length pre).
Proof.
  revert i. induction pre as [|c pre IH]; intros i H.
  - cbn [app indexOf chars list_ascii_of_string starts_with Ascii.eqb Bool.eqb andb
         List.length].
    now rewrite Nat.add_0_r.
  - assert (E := marker_not_earlier c pre rest H).
    cbn [existsb] in H. apply orb_false_elim in H. destruct H as [_ H].
    change (indexOf (chars "base64,") i ((c :: pre) ++ chars "base64," ++ rest))
      with (if starts_with (chars "base64,") ((c :: pre) ++ chars "base64," ++ rest)
            then Some i
            else indexOf (chars "base64,") (S i) (pre ++ chars "base64," ++ rest)).
    rewrite E, (IH (S i) H). cbn [List.length]. f_equal. lia.
Qed.

Lemma existsb_app_false {A} (p : A -> bool) (l1 l2 : list A) :
  existsb p l1 = false -> existsb p l2 = false -> existsb p (l1 ++ l2) = false.
Proof. intros H1 H2. now rewrite existsb_app, H1, H2. Qed.

Lemma no_char_forallb (c : ascii) (l : list ascii) :
  existsb (Ascii.eqb c) l = false ->
  forallb (fun x => negb (Ascii.eqb x c)) l = true.
Proof.
  induction l as [|x l IH]; intros H; [reflexivity|].
  cbn [existsb forallb] in *. apply orb_false_elim in H. destruct H as [Hx Hl].
  rewrite (IH Hl), andb_true_r. rewrite Ascii.eqb_sym. now rewrite Hx.
Qed.

(** Both components recover the payload of the data URL of a file.
    [fileToBase64NoPrefix] of [App.js] returns what follows the first
    [base64,], which is the payload when the media type has no comma;
    [split(",")[1]] of [invoice-record-2.js] returns it too when the payload
    itself has no comma, as a base-64 text has none. *)
Theorem data_url_payload (mime payload : string) :
  includes_char "," mime = false ->
  fileToBase64NoPrefix (Some (data_url mime payload)) = Some payload
  /\ (includes_char "," payload = false ->
      Record2Handlers.data_of_result (data_url mime payload) = Some payload).
Proof.
  unfold includes_char. intros Hm.
  assert (Hpre : existsb (Ascii.eqb ","%char) (chars "data:" ++ chars mime ++ chars ";")
                 = false).
  { apply existsb_app_false; [reflexivity|]. apply existsb_app_false; [exact Hm|reflexivity]. }
  assert (Hc : chars (data_url mime payload)
               = ((chars "data:" ++ chars mime ++ chars ";")
                  ++ chars "base64," ++ chars payload)%list).
  { unfold data_url. rewrite !chars_append. rewrite <- !app_assoc. reflexivity. }
  split.
  - unfold fileToBase64NoPrefix, strip_data_prefix. cbn [option_map].
    rewrite Hc, (indexOf_marker _ _ 0 Hpre). f_equal.
    unfold slice. rewrite Hc. cbn [Nat.add].
    rewrite skipn_app, skipn_all2 by lia.
    replace (List.length (chars "data:" ++ chars mime ++ chars ";") + 7
             - List.length (chars "data:" ++ chars mime ++ chars ";")) with 7 by lia.
    cbn [app]. change (skipn 7 (chars "base64," ++ chars payload)) with (chars payload).
    apply str_chars.
  - intros Hp. unfold Record2Handlers.data_of_result, split.
    rewrite Hc.
    change (chars "base64," ++ chars payload)%list
      with (chars "base64" ++ ","%char :: chars payload)%list.
    rewrite app_assoc.
    rewrite split_chars_piece.
    + rewrite (split_chars_last _ _ _ (no_char_forallb _ _ Hp)).
      cbn [nth_error rev app]. f_equal. apply str_chars.
    + apply no_char_forallb. apply existsb_app_false; [exact Hpre|reflexivity].
Qed.

Lemma data_url_payload_witness :
  fileToBase64NoPrefix (Some (data_url "application/pdf" "JVBERi0xLjQK"))
  = Some "JVBERi0xLjQK"%string
  /\ (includes_char "," "JVBERi0xLjQK" = false ->
      Record2Handlers.data_of_result (data_url "application/pdf" "JVBERi0xLjQK")
      = Some "JVBERi0xLjQK"%string).
Proof.
  apply (data_url_payload "application/pdf" "JVBERi0xLjQK"). reflexivity.
Defined.

End DataUrl.

(** ** Identifiers of [invoice-record-2.js] *)

Section Record2Identifiers.

Import Record2.

(** No character of the classes of the identifier pattern is an upper-case
    letter. *)
Lemma in_class_lower (k : CharClass) (c : ascii) :
  in_class k c = true -> lower_char c = c.
Proof.
  destruct k; destruct c as [[] [] [] [] [] [] [] []]; intros H;
    try reflexivity; discriminate H.
Qed.

Lemma matches_lower (p : list CharClass) (l : list ascii) :
  matches_classes p l = true -> map lower_char l = l.
Proof.
  revert l. induction p as [|k p IH]; intros [|c l] H; try discriminate H; [reflexivity|].
  cbn [matches_classes] in H. apply andb_prop in H. destruct H as [Hc Hl].
  cbn [map]. now rewrite (in_class_lower k c Hc), (IH l Hl).
Qed.

(** The [toLowerCase] that [uuidv4] of [invoice-record-2.js] ends with
    changes nothing: from the same random values both files generate the
    same identifier, of the form [isUuid] accepts. *)
Theorem record2_uuidv4_same (h : Host) (w : World) :
  Record2.uuidv4 h w = Gen.uuidv4 h w
  /\ isUuid (fst (Record2.uuidv4 h w)) = true.
Proof.
  assert (E : Record2.uuidv4 h w = Gen.uuidv4 h w).
  { unfold Record2.uuidv4, bind, ret.
    pose proof (uuidv4_matches h w) as Hm.
    destruct (Gen.uuidv4 h w) as [u w1]. cbn [fst] in Hm.
    unfold toLowerCase. now rewrite (matches_lower _ _ Hm), str_chars. }
  split; [exact E|]. rewrite E. unfold isUuid. apply uuidv4_matches.
Qed.

Lemma doc_id_not_uuid (id : string) : isUuid ("doc-" ++ id) = false.
Proof. reflexivity. Qed.

(** How many entries a bundle of [invoice-record-2.js] has: the five fixed
    records and a Binary and a DocumentReference per attachment.  The
    identifier of each DocumentReference is the attachment's with [doc-] in
    front, so it never has the form of a UUID. *)
Theorem record2_entries (h : Host) (s : State) (w : World) (b : Bundle) :
  run (buildBundle h s) w = Some b ->
  List.length (entry b) = 5 + 2 * List.length (attachments s)
  /\ map dr_id (bundle_docRefs b)
     = map (fun att => ("doc-" ++ ai_id att)%string) (attachments s)
  /\ Forall (fun dr => isUuid (dr_id dr) = false) (bundle_docRefs b).
Proof.
  intros H.
  destruct (record2_attachments h s w b H) as (n0 & _ & Hd).
  apply buildBundle_built in H.
  destruct H as (compId & patientId & practId & orgId & invoiceId & inv & comp
    & pat & pr & org & n1 & He & _).
  split; [|split].
  - rewrite He, !length_app, !length_map, length_mapi. cbn [List.length]. lia.
  - rewrite Hd. now apply map_mapi.
  - rewrite Hd. apply Forall_forall. intros dr Hin.
    apply in_mapi in Hin. destruct Hin as (j & att & _ & ->).
    apply doc_id_not_uuid.
Qed.

Lemma record2_entries_witness :
  of_record2_result MoreSamples.record2_result_blank_net
    (fun b => List.length (entry b) = 5 + 2 * 2
       /\ map dr_id (bundle_docRefs b)
          = map (fun att => ("doc-" ++ ai_id att)%string)
              (attachments MoreSamples.record2_blank_net)
       /\ Forall (fun dr => isUuid (dr_id dr) = false) (bundle_docRefs b)).
Proof.
  destruct MoreSamples.record2_result_blank_net as [b|] eqn:E; [|vm_compute in E; discriminate E].
  cbv beta iota delta [of_record2_result].
  apply (record2_entries Samples.host MoreSamples.record2_blank_net world0 b); [exact E].
Defined.

End Record2Identifiers.

(** ** When [invoice-record-2.js] builds *)

Section Record2Outcome.

Import Record2 Record2Handlers.


(** Choosing a patient clears the ABHA address, so a build that follows at
    once returns nothing, whoever is chosen. *)
Theorem build_after_patient_change (h : Host) (v : option nat) (s : State) (w : World) :
  run (buildBundle h (onPatientChange v s)) w = None.
Proof.
  unfold run, buildBundle, onPatientChange. cbn [selectedPatientIdx patients selectedAbha].
  destruct v as [idx|]; [|reflexivity].
  destruct (nth_error (patients s) idx); reflexivity.
Qed.

Transparent JsNum.StringToNumber.

Lemma drop_while_all (p : ascii -> bool) (l : list ascii) :
  forallb p l = true -> drop_while p l = [].
Proof.
  induction l as [|c l IH]; intros H; [reflexivity|].
  cbn [forallb] in H. apply andb_prop in H. destruct H as [Hc Hl].
  cbn [drop_while]. rewrite Hc. now apply IH.
Qed.

(** [Number(s)] is zero for a text of white space only. *)
Lemma StringToNumber_blank (s : string) :
  forallb is_space (chars s) = true -> StringToNumber s = zero.
Proof.
  intros H. unfold StringToNumber, trim.
  rewrite (drop_while_all _ _ H). reflexivity.
Qed.

Opaque JsNum.StringToNumber.

Lemma round2_zero : round2 zero = zero.
Proof. vm_compute. reflexivity. Qed.

(** A total field that holds white space only is taken as an override of
    value zero: the Invoice then carries a net total of 0, whatever the lines
    add up to. *)
Theorem blank_total_is_zero (h : Host) (s : State) (w : World) (b : Bundle) :
  run (buildBundle h s) w = Some b ->
  totalNet s <> ""%string -> forallb is_space (chars (totalNet s)) = true ->
  exists inv, bundle_invoices b = [inv] /\ inv_totalNet inv = zero.
Proof.
  intros H Hne Hsp.
  destruct (record2_invoice h s w b H) as (inv & Hi & Hn & _).
  exists inv. split; [exact Hi|]. rewrite Hn. unfold reconcile.
  apply truthy_true_iff in Hne. rewrite Hne, (StringToNumber_blank _ Hsp).
  cbn [andb]. change (negb (isNaN zero)) with true. cbv iota.
  apply round2_zero.
Qed.

Lemma blank_total_is_zero_witness :
  of_record2_result MoreSamples.record2_result_blank_net
    (fun b => exists inv, bundle_invoices b = [inv] /\ inv_totalNet inv = zero).
Proof.
  destruct MoreSamples.record2_result_blank_net as [b|] eqn:E; [|vm_compute in E; discriminate E].
  cbv beta iota delta [of_record2_result].
  apply (blank_total_is_zero Samples.host MoreSamples.record2_blank_net world0 b);
    [exact E|discriminate|reflexivity].
Defined.

End Record2Outcome.

(** ** Removing a line item *)

Section Record2Lines.

Import Record2.

Lemma filter_other_length (id : string) (s : list LineItem) :
  NoDup (map li_id s) -> In id (map li_id s) ->
  S (List.length (filter (fun li => negb (String.eqb (li_id li) id)) s)) = List.length s.
Proof.
  induction s as [|li s IH]; intros Hnd Hin; [destruct Hin|].
  cbn [map] in Hnd, Hin. inversion Hnd as [|x l Hx Hnd']; subst.
  cbn [filter]. destruct (String.eqb_spec (li_id li) id) as [E|Hne]; cbn [negb].
  - cbn [List.length]. f_equal.
    assert (F : forall l, ~ In id (map li_id l) ->
              filter (fun li0 => negb (String.eqb (li_id li0) id)) l = l).
    { induction l as [|y l IHl]; intros Hy; [reflexivity|].
      cbn [filter]. destruct (String.eqb_spec (li_id y) id) as [E'|_]; cbn [negb].
      - exfalso. apply Hy. left. exact E'.
      - f_equal. apply IHl. intros Hl. apply Hy. now right. }
    rewrite F; [reflexivity|]. now rewrite <- E.
  - cbn [List.length]. f_equal. apply IH; [exact Hnd'|].
    destruct Hin as [E|Hin]; [contradiction|exact Hin].
Qed.

(** With pairwise distinct identifiers and more than one line,
    [removeLineItem(id)] removes exactly the line identified by [id] and
    keeps every other line. *)
Theorem removeLineItem_removes_one (id : string) (s : list LineItem) :
  NoDup (map li_id s) -> In id (map li_id s) -> 1 < List.length s ->
  S (List.length (removeLineItem id s)) = List.length s
  /\ ~ In id (map li_id (removeLineItem id s))
  /\ (forall li, In li s -> li_id li <> id -> In li (removeLineItem id s)).
Proof.
  intros Hnd Hin L. unfold removeLineItem.
  destruct (Nat.leb_spec (List.length s) 1) as [L'|_]; [lia|].
  split; [now apply filter_other_length|]. split.
  - rewrite in_map_iff. intros (li & E & Hli). apply filter_In in Hli.
    destruct Hli as [_ Hb]. rewrite E, String.eqb_refl in Hb. discriminate Hb.
  - intros li Hli Hne. apply filter_In. split; [exact Hli|].
    destruct (String.eqb_spec (li_id li) id); [contradiction|reflexivity].
Qed.

Lemma removeLineItem_removes_one_witness :
  let id := "d4b2907e-5c3a-48f6-94b2-907e5c3a18f6"%string in
  S (List.length (removeLineItem id MoreSamples.two_lines))
  = List.length MoreSamples.two_lines
  /\ ~ In id (map li_id (removeLineItem id MoreSamples.two_lines))
  /\ (forall li, In li MoreSamples.two_lines -> li_id li <> id ->
                 In li (removeLineItem id MoreSamples.two_lines)).
Proof.
  intros id. apply (removeLineItem_removes_one id MoreSamples.two_lines).
  - repeat constructor; simpl; intuition discriminate.
  - right. left. reflexivity.
  - simpl. lia.
Defined.

End Record2Lines.

(** ** The form of a normalised date *)

Section DateForms.

Lemma digit_not_dash (c : ascii) : is_digit c = true -> Ascii.eqb c "-" = false.
Proof.
  intros H. destruct (Ascii.eqb_spec c "-") as [->|_]; [discriminate H|reflexivity].
Qed.

(** A rearranged date is an ISO calendar date exactly when its year has four
    digits. *)
Lemma rearranged_is_iso (y m d : list ascii) :
  all_digits y = true -> all_digits m = true -> all_digits d = true ->
  Record2.between 1 2 m = true -> Record2.between 1 2 d = true ->
  is_iso_date (str y ++ "-" ++ padStart2 (str m) ++ "-" ++ padStart2 (str d))
  = Nat.eqb (List.length y) 4.
Proof.
  intros Hy Hm Hd Bm Bd.
  destruct m as [|m1 [|m2 [|m3 m]]]; try discriminate Bm;
  destruct d as [|d1 [|d2 [|d3 d]]]; try discriminate Bd;
  destruct y as [|y1 [|y2 [|y3 [|y4 [|y5 y]]]]];
  cbn [all_digits forallb] in Hy, Hm, Hd;
  repeat match goal with
         | H : _ && _ = true |- _ => apply andb_prop in H; destruct H
         end;
  unfold is_iso_date, padStart2;
  cbn [str string_of_list_ascii String.length Nat.sub repeat_string append
       chars list_ascii_of_string matches_classes in_class List.length Nat.eqb];
  repeat match goal with
         | H : is_digit ?c = true |- context [is_digit ?c] => rewrite H
         | H : is_digit ?c = true |- context [Ascii.eqb ?c "-"] =>
             rewrite (digit_not_dash c H)
         end;
  reflexivity.
Qed.

(** What [toFhirDate] makes of a day-month-year text is an ISO calendar
    date unless the year has three digits, and [toFhirDate] then returns it
    unchanged when given it again.  What [ddmmyyyyToISO] makes of one is an
    ISO calendar date only when the year has four digits. *)
Theorem normalised_date_form (h : Host) (d : list ascii) (c1 : ascii) (m : list ascii)
  (c2 : ascii) (y : list ascii) :
  dmy_shape d c1 m c2 y = true ->
  (exists out,
     Record2.toFhirDate h (Some (dmy_text d c1 m c2 y)) = Some out
     /\ is_iso_date out = negb (Nat.eqb (List.length y) 3)
     /\ (List.length y <> 3 -> Record2.toFhirDate h (Some out) = Some out))
  /\ (c1 = c2 ->
      exists out,
        AppJs.ddmmyyyyToISO (Some (dmy_text d c1 m c2 y)) = Some out
        /\ is_iso_date out = Nat.eqb (List.length y) 4).
Proof.
  intros H. pose proof (dmy_shape_parts _ _ _ _ _ H)
    as (Hd & Hm & Hy & Bd & Bm & By & _ & _).
  split.
  - rewrite (toFhirDate_dmy h _ _ _ _ _ H). eexists. split; [reflexivity|].
    assert (Hiso :
      is_iso_date ((if Nat.eqb (List.length y) 2 then "19" ++ str y else str y)
                   ++ "-" ++ padStart2 (str m) ++ "-" ++ padStart2 (str d))
      = negb (Nat.eqb (List.length y) 3)).
    { destruct (Nat.eqb (List.length y) 2) eqn:E2.
      - apply Nat.eqb_eq in E2.
        change ("19" ++ str y)%string with (str ("1"%char :: "9"%char :: y)).
        rewrite rearranged_is_iso by (assumption || exact Hy).
        cbn [List.length]. now rewrite E2.
      - rewrite rearranged_is_iso by assumption.
        unfold Record2.between in By. apply andb_prop in By. destruct By as [B1 B2].
        apply Nat.leb_le in B1, B2. apply Nat.eqb_neq in E2.
        destruct (Nat.eqb_spec (List.length y) 3) as [E3|N3].
        + now rewrite E3.
        + assert (E4 : List.length y = 4) by lia. now rewrite E4. }
    split; [exact Hiso|].
    intros N3. apply Nat.eqb_neq in N3. rewrite N3 in Hiso. cbn [negb] in Hiso.
    unfold Record2.toFhirDate. now rewrite (iso_truthy _ Hiso), Hiso.
  - intros <-. rewrite (ddmmyyyyToISO_dmy _ _ _ _ H). eexists. split; [reflexivity|].
    now apply rearranged_is_iso.
Qed.

Lemma normalised_date_form_witness :
  (exists out,
     Record2.toFhirDate Samples.host (Some "5/8-90"%string) = Some out
     /\ is_iso_date out = true
     /\ (2 <> 3 -> Record2.toFhirDate Samples.host (Some out) = Some out))
  /\ ("-"%char = "-"%char ->
      exists out,
        AppJs.ddmmyyyyToISO (Some "05-08-90"%string) = Some out
        /\ is_iso_date out = false).
Proof.
  split.
  - exact (proj1 (normalised_date_form Samples.host (chars "5") "/" (chars "8") "-"
                    (chars "90") eq_refl)).
  - exact (proj2 (normalised_date_form Samples.host (chars "05") "-" (chars "08") "-"
                    (chars "90") eq_refl)).
Defined.

(** [ddmmyyyyToISO] splits at one kind of separator only: a day-month-year
    text whose two separators differ, which [toFhirDate] rearranges, gives
    [undefined]. *)
Theorem mixed_separators (h : Host) (d : list ascii) (c1 : ascii) (m : list ascii)
  (c2 : ascii) (y : list ascii) :
  dmy_shape d c1 m c2 y = true -> c1 <> c2 ->
  AppJs.ddmmyyyyToISO (Some (dmy_text d c1 m c2 y)) = None
  /\ Record2.toFhirDate h (Some (dmy_text d c1 m c2 y))
     = Some ((if Nat.eqb (List.length y) 2 then "19" ++ str y else str y)
             ++ "-" ++ padStart2 (str m) ++ "-" ++ padStart2 (str d))%string.
Proof.
  intros H Hne. split; [|now apply toFhirDate_dmy].
  pose proof (dmy_shape_parts _ _ _ _ _ H)
    as (Hd & Hm & Hy & Bd & Bm & By & S1 & S2).
  unfold AppJs.ddmmyyyyToISO.
  rewrite dmy_text_truthy, (dmy_trim _ _ _ _ _ H), (dmy_not_iso _ _ _ _ _ H).
  cbn [negb].
  assert (Hdash : includes_char "-" (dmy_text d c1 m c2 y) = true).
  { unfold includes_char, dmy_text. rewrite chars_str.
    rewrite existsb_app. cbn [existsb]. rewrite existsb_app. cbn [existsb].
    destruct (is_sep_cases c1 S1) as [->| ->], (is_sep_cases c2 S2) as [->| ->];
      try congruence; cbn; now rewrite ?orb_true_r. }
  rewrite Hdash. unfold split, dmy_text. rewrite chars_str.
  destruct (is_sep_cases c1 S1) as [->| ->], (is_sep_cases c2 S2) as [->| ->];
    try congruence.
  - (* day - month / year *)
    rewrite (split_chars_piece "-" d _ [])
      by (apply no_sep_in_digits; [exact Hd|reflexivity]).
    rewrite (split_chars_last "-" (m ++ "/"%char :: y) []).
    + reflexivity.
    + rewrite forallb_app. cbn [forallb].
      rewrite !(no_sep_in_digits "-") by (assumption || reflexivity). reflexivity.
  - (* day / month - year *)
    change (d ++ "/"%char :: m ++ "-"%char :: y)%list
      with (d ++ ("/"%char :: m) ++ "-"%char :: y)%list.
    rewrite app_assoc.
    rewrite (split_chars_piece "-" (d ++ "/"%char :: m) _ []).
    + rewrite (split_chars_last "-" y [])
        by (apply no_sep_in_digits; [exact Hy|reflexivity]).
      reflexivity.
    + rewrite forallb_app. cbn [forallb].
      rewrite !(no_sep_in_digits "-") by (assumption || reflexivity). reflexivity.
Qed.

Lemma mixed_separators_witness :
  AppJs.ddmmyyyyToISO (Some "05-08/1990"%string) = None
  /\ Record2.toFhirDate Samples.host (Some "05-08/1990"%string)
     = Some "1990-08-05"%string.
Proof.
  apply (mixed_separators Samples.host (chars "05") "-" (chars "08") "/" (chars "1990")).
  - reflexivity.
  - discriminate.
Defined.

End DateForms.

(** ** Rounding to two decimals *)

Section Rounding.













Transparent JsNum.StringToNumber JsNum.toFixed2.










Opaque JsNum.StringToNumber JsNum.toFixed2.

End Rounding.

(** ** Array fields of the records *)

Section ArrayFields.

Import AppJs.

Lemma nonempty_not_empty {A} (l : list A) : empty_array (nonempty l) = false.
Proof. now destruct l. Qed.

Lemma buildDocs_content (patientId authoredOn : string) (fs : list (option File))
  (binIds docIds : list string) (binaries : list Binary)
  (docRefs : list DocumentReference) :
  buildDocs patientId authoredOn fs binIds docIds = Some (binaries, docRefs) ->
  Forall (fun dr => has_empty_array (RDocumentReference dr) = false) docRefs.
Proof.
  revert binIds docIds binaries docRefs.
  induction fs as [|f fs IH]; intros binIds docIds binaries docRefs H.
  - simpl in H. injection H as <- <-. constructor.
  - destruct binIds as [|binId binIds]; [simpl in H; injection H as <- <-; constructor|].
    destruct docIds as [|docId docIds]; [simpl in H; injection H as <- <-; constructor|].
    simpl in H.
    destruct (doc_payload f) as [[[ct data] ttl]|]; [|discriminate].
    destruct (buildDocs patientId authoredOn fs binIds docIds) as [[bs ds]|] eqn:Hr;
      [|discriminate].
    injection H as <- <-. constructor; [reflexivity|]. eapply IH. exact Hr.
Qed.

(** No record of a bundle [App.js] submits has an array field that is
    present and empty: the builder leaves a field out rather than emit an
    empty array. *)
Theorem app_no_empty_array (h : Host) (g : Globals) (s : State) (w : World)
  (b : Bundle) :
  run (onBuildBundle h g s) w = Submitted b ->
  Forall (fun e => has_empty_array (resource e) = false) (entry b).
Proof.
  intros H. apply onBuildBundle_submitted in H.
  destruct H as [_ (compId & patientId & practitionerId & invoiceId & authoredOn
    & encounterId & custodianId & attesterOrgId & docBinaryIds & docRefIds & n
    & binaries & docRefs & _ & _ & Hdocs & He)].
  rewrite He. cbn [app].
  constructor.
  { cbn [entry_of resource has_empty_array buildComposition comp_author comp_attester
         comp_section existsb sec_entry nonempty empty_array orb].
    destruct (String.eqb (attesterPartyType s) "Practitioner"); [reflexivity|].
    destruct attesterOrgId as [oid|]; [|reflexivity].
    destruct (String.eqb (attesterPartyType s) "Organization"); reflexivity. }
  constructor.
  { cbn [entry_of resource has_empty_array buildPatientResource pat_identifier
         pat_telecom].
    now rewrite !nonempty_not_empty. }
  constructor; [reflexivity|].
  constructor.
  { cbn [entry_of resource has_empty_array buildInvoiceResource inv_lineItem].
    apply nonempty_not_empty. }
  rewrite !Forall_app. repeat split.
  - apply Forall_map. apply Forall_forall. reflexivity.
  - apply Forall_map. apply Forall_forall. reflexivity.
  - apply Forall_map. apply Forall_forall. reflexivity.
  - apply Forall_map. exact (buildDocs_content _ _ _ _ _ _ _ Hdocs).
  - apply Forall_map. apply Forall_forall. reflexivity.
Qed.

Lemma app_no_empty_array_witness :
  of_app_result MoreSamples.app_result_with_file
    (fun b => Forall (fun e => has_empty_array (resource e) = false) (entry b)).
Proof.
  destruct MoreSamples.app_result_with_file as [errs| |b] eqn:E;
    [vm_compute in E; discriminate E | vm_compute in E; discriminate E|].
  cbv beta iota delta [of_app_result].
  apply (app_no_empty_array Samples.host MoreSamples.loaded_globals
           MoreSamples.app_state_with_file MoreSamples.world_after_load b). exact E.
Defined.

End ArrayFields.

(** ** The Patient and the line items of [invoice-record-2.js] *)

Section Record2Records.

Import Record2.

(** The Patient and the Invoice of a bundle [buildBundle] returns. *)
Lemma buildBundle_records (h : Host) (s : State) (w : World) (b : Bundle) :
  run (buildBundle h s) w = Some b ->
  exists idx selPatient pat inv,
    selectedPatientIdx s = Some idx
    /\ nth_error (patients s) idx = Some selPatient
    /\ In (RPatient pat) (map resource (entry b))
    /\ bundle_invoices b = [inv]
    /\ pat_telecom pat
       = Some (push_truthy (p_mobile selPatient)
                 (fun v => {| cp_system := "phone"; cp_value := v |})
               ++ push_truthy (p_email selPatient)
                    (fun v => {| cp_system := "email"; cp_value := v |}))
    /\ inv_lineItem inv = Some (mapi processedLineItem 0 (lineItems s)).
Proof.
  unfold run, buildBundle.
  destruct (selectedPatientIdx s) as [idx|] eqn:Hidx; [|discriminate].
  destruct (nth_error (patients s) idx) as [selPatient|] eqn:Hsel; [|discriminate].
  destruct (negb (truthy (selectedAbha s))) eqn:Habha; [discriminate|].
  intros H. unfold bind in H.
  repeat step_in H.
  cbv [ret fst] in H. injection H as <-.
  exists idx, selPatient. eexists. eexists.
  split; [reflexivity|]. split; [exact Hsel|]. split; [|split; [|split]].
  - cbn [entry map app]. right. left. reflexivity.
  - unfold bundle_invoices. cbn [entry flat_map entry_of resource app entry_invoice].
    rewrite ?flat_map_app.
    rewrite (flat_map_map_nil entry_invoice
               (fun br => entry_of (bin_id br) (RBinary br))) by reflexivity.
    rewrite (flat_map_map_nil entry_invoice
               (fun dr => entry_of (dr_id dr) (RDocumentReference dr))) by reflexivity.
    reflexivity.
  - reflexivity.
  - reflexivity.
Qed.

Lemma mapi_sequence (k : nat) (l : list LineItem) :
  map il_sequence (mapi processedLineItem k l) = map Some (seq (k + 1) (List.length l)).
Proof.
  revert k. induction l as [|li l IH]; intros k; [reflexivity|].
  cbn [mapi map List.length seq processedLineItem il_sequence]. f_equal.
  rewrite IH. now replace (S k + 1) with (S (k + 1)) by lia.
Qed.

(** The Invoice of a bundle of [invoice-record-2.js] lists every line item
    of the form, none dropped, numbered 1, 2, ... in order; and the Patient
    always has a [telecom] array, with an entry for the mobile number and one
    for the e-mail address when they are given, empty when neither is. *)
Theorem record2_lines_and_telecom (h : Host) (s : State) (w : World) (b : Bundle) :
  run (buildBundle h s) w = Some b ->
  exists idx selPatient pat inv items telecom,
    selectedPatientIdx s = Some idx
    /\ nth_error (patients s) idx = Some selPatient
    /\ In (RPatient pat) (map resource (entry b))
    /\ bundle_invoices b = [inv]
    /\ inv_lineItem inv = Some items
    /\ List.length items = List.length (lineItems s)
    /\ map il_sequence items = map Some (seq 1 (List.length (lineItems s)))
    /\ pat_telecom pat = Some telecom
    /\ List.length telecom
       = Nat.b2n (truthy_opt (p_mobile selPatient))
         + Nat.b2n (truthy_opt (p_email selPatient)).
Proof.
  intros H. apply buildBundle_records in H.
  destruct H as (idx & selPatient & pat & inv & Hi & Hs & Hp & Hinv & Ht & Hl).
  exists idx, selPatient, pat, inv. eexists. eexists.
  split; [exact Hi|]. split; [exact Hs|]. split; [exact Hp|]. split; [exact Hinv|].
  split; [exact Hl|]. split; [apply length_mapi|]. split; [apply (mapi_sequence 0)|].
  split; [exact Ht|].
  rewrite length_app. unfold push_truthy, truthy_opt.
  destruct (p_mobile selPatient) as [mo|]; [destruct (truthy mo)|];
    (destruct (p_email selPatient) as [em|]; [destruct (truthy em)|]); reflexivity.
Qed.

Lemma record2_lines_and_telecom_witness :
  of_record2_result MoreSamples.record2_result_blank_net
    (fun b => exists idx selPatient pat inv items telecom,
       Some 0 = Some idx
       /\ nth_error [Samples.asha] idx = Some selPatient
       /\ In (RPatient pat) (map resource (entry b))
       /\ bundle_invoices b = [inv]
       /\ inv_lineItem inv = Some items
       /\ List.length items = 1
       /\ map il_sequence items = [Some 1]
       /\ pat_telecom pat = Some telecom
       /\ List.length telecom
          = Nat.b2n (truthy_opt (p_mobile selPatient))
            + Nat.b2n (truthy_opt (p_email selPatient))).
Proof.
  destruct MoreSamples.record2_result_blank_net as [b|] eqn:E;
    [|vm_compute in E; discriminate E].
  cbv beta iota delta [of_record2_result].
  apply (record2_lines_and_telecom Samples.host MoreSamples.record2_blank_net world0 b).
  exact E.
Defined.

End Record2Records.

(** ** Each DocumentReference points at its own Binary *)

Section Pairs.

Lemma app_pairs (patientId authoredOn : string) (fs : list (option AppJs.File))
  (binIds docIds : list string) (binaries : list Binary)
  (docRefs : list DocumentReference) :
  AppJs.buildDocs patientId authoredOn fs binIds docIds = Some (binaries, docRefs) ->
  Forall2 (fun dr x =>
             exists att, dr_content dr = [att] /\ at_url att = urn (bin_id x)
                         /\ at_contentType att = Some (bin_contentType x))
    docRefs binaries.
Proof.
  revert binIds docIds binaries docRefs.
  induction fs as [|f fs IH]; intros binIds docIds binaries docRefs H.
  - simpl in H. injection H as <- <-. constructor.
  - destruct binIds as [|binId binIds]; [simpl in H; injection H as <- <-; constructor|].
    destruct docIds as [|docId docIds]; [simpl in H; injection H as <- <-; constructor|].
    simpl in H.
    destruct (AppJs.doc_payload f) as [[[ct data] ttl]|]; [|discriminate].
    destruct (AppJs.buildDocs patientId authoredOn fs binIds docIds) as [[bs ds]|] eqn:Hr;
      [|discriminate].
    injection H as <- <-. constructor; [|eapply IH; exact Hr].
    eexists. repeat split.
Qed.

Lemma record2_pairs (h : Host) (atts : list Record2.AttachmentInput) (n : nat) :
  Forall2 (fun dr x =>
             exists att, dr_content dr = [att] /\ at_url att = urn (bin_id x)
                         /\ at_contentType att = None)
    (mapi (Record2.docRef_of h) n atts) (map Record2.attachment_binary atts).
Proof.
  revert n. induction atts as [|a atts IH]; intros n; cbn [mapi map]; constructor.
  - eexists. repeat split.
  - apply IH.
Qed.

(** In every produced bundle the DocumentReferences and the Binaries pair
    up in order: each DocumentReference has one attachment, whose [url] is the
    locator of the Binary at the same position, and whose content type, when
    it states one, is that Binary's. *)
Theorem documents_pair_with_binaries (h : Host) (w : World) (b : Bundle) :
  produced h w b ->
  Forall2 (fun dr x =>
             exists att, dr_content dr = [att] /\ at_url att = urn (bin_id x)
                         /\ (at_contentType att = None
                             \/ at_contentType att = Some (bin_contentType x)))
    (bundle_docRefs b) (bundle_binaries b).
Proof.
  intros [(g & s & H)|(s & H)].
  - destruct (app_attachments h g s w b H)
      as (patientId & authoredOn & binIds & docIds & _ & _ & Hd).
    eapply Forall2_impl; [|exact (app_pairs _ _ _ _ _ _ _ Hd)].
    intros dr x (att & H1 & H2 & H3). exists att. auto.
  - destruct (record2_attachments h s w b H) as (n0 & -> & ->).
    eapply Forall2_impl; [|apply record2_pairs].
    intros dr x (att & H1 & H2 & H3). exists att. auto.
Qed.

Lemma documents_pair_with_binaries_witness :
  of_app_result MoreSamples.app_result_with_file
    (fun b =>
       Forall2 (fun dr x =>
                  exists att, dr_content dr = [att] /\ at_url att = urn (bin_id x)
                              /\ (at_contentType att = None
                                  \/ at_contentType att = Some (bin_contentType x)))
         (bundle_docRefs b) (bundle_binaries b))
  /\ of_record2_result MoreSamples.record2_result_blank_net
       (fun b =>
          Forall2 (fun dr x =>
                     exists att, dr_content dr = [att] /\ at_url att = urn (bin_id x)
                                 /\ (at_contentType att = None
                                     \/ at_contentType att = Some (bin_contentType x)))
            (bundle_docRefs b) (bundle_binaries b)).
Proof.
  split.
  - destruct MoreSamples.app_result_with_file as [errs| |b] eqn:E;
      [vm_compute in E; discriminate E | vm_compute in E; discriminate E|].
    cbv beta iota delta [of_app_result].
    apply (documents_pair_with_binaries Samples.host MoreSamples.world_after_load b).
    left. exists MoreSamples.loaded_globals, MoreSamples.app_state_with_file. exact E.
  - destruct MoreSamples.record2_result_blank_net as [b|] eqn:E;
      [|vm_compute in E; discriminate E].
    cbv beta iota delta [of_record2_result].
    apply (documents_pair_with_binaries Samples.host world0 b).
    right. eexists. exact E.
Defined.

End Pairs.
